(** * W-7 form processor: a shallow embedding of [server/app.py]

    The development follows the layout of the program.

    Definitions:
    - [PyStr]: the operations of Python's [str] that the program calls
      ([strip], [lower], [find], [rfind], slicing, [split], [zfill],
      [replace], the [in] test);
    - [PyVal]: the values [json.loads] produces, Python truthiness, and the
      two library functions the program calls on them, [json.loads] and
      [str], as the interface [PyBuiltins];
    - [Json]: a decoder for JSON text, the executable instance of
      [PyBuiltins];
    - [Excel]: the DataFrame the Spreadsheet Loader reads and the pieces of
      the roster construction and of the client lookup;
    - [W7]: the field dictionary, the extraction of JSON from a reply, the
      translation to PDF field names with its date normalisation,
      [W7FormFiller], the [processor] object and the four request handlers;
    - [Props], [Samples]: the vocabulary of the statements, and sample data.

    Facts: [PyStrFacts], [ExtractFacts], [FenceFacts], [JsonFacts], then
    one module per component with the properties of the specification:
    [MappingClient], [Translation], [Dates], [Loader], [Session], and the
    worked [Scenario].

    Further properties of the program, read off its code: [SessionFacts]
    (what every reachable state satisfies), [Intake] (the upload handler),
    [TrimFacts], [Roster] and [Cleaning] (the roster, the lookup and the
    cleaned row), [Processing] (process-client), [Output] (the form writer
    and the download), [Composition] (how requests compose), [Reply] (a
    fence that is never closed), and [Examples] with these properties at
    work.

    Text is [string]: a sequence of characters whose codes are the code
    points 0..255. Exceptions are [None] results; the handlers return the
    new state of the process with their response. *)

From Stdlib Require Import ZArith String Ascii List Lia Bool Sorted.
From stdpp Require Import base strings gmap list.

Open Scope string_scope.
Open Scope Z_scope.

(** ** Python [str] operations *)

Module PyStr.

Definition len (s : string) : Z := Z.of_nat (String.length s).

(** [str.isspace] on one character, code points below 256. *)
Definition isspace (c : ascii) : bool :=
  let n := nat_of_ascii c in
  ((9 <=? n) && (n <=? 13) || (28 <=? n) && (n <=? 32)
   || (n =? 133) || (n =? 160))%nat.

(** [str.lower] on one character, code points below 256. *)
Definition lower_char (c : ascii) : ascii :=
  let n := nat_of_ascii c in
  if ((65 <=? n) && (n <=? 90)
      || (192 <=? n) && (n <=? 222) && negb (n =? 215))%nat
  then ascii_of_nat (n + 32) else c.

Fixpoint map (f : ascii -> ascii) (s : string) : string :=
  match s with
  | EmptyString => EmptyString
  | String c s' => String (f c) (map f s')
  end.

Definition lower (s : string) : string := map lower_char s.

(** [s.replace(old, new)] for one-character [old] and [new]. *)
Definition replace (old new : ascii) (s : string) : string :=
  map (fun c => if Ascii.eqb c old then new else c) s.

Fixpoint lstrip (s : string) : string :=
  match s with
  | EmptyString => EmptyString
  | String c s' => if isspace c then lstrip s' else s
  end.

Fixpoint rstrip (s : string) : string :=
  match s with
  | EmptyString => EmptyString
  | String c s' =>
      match rstrip s' with
      | EmptyString => if isspace c then EmptyString else String c EmptyString
      | r => String c r
      end
  end.

Definition strip (s : string) : string := rstrip (lstrip s).

Fixpoint take (n : nat) (s : string) : string :=
  match n, s with
  | S n', String c s' => String c (take n' s')
  | _, _ => EmptyString
  end.

Fixpoint drop (n : nat) (s : string) : string :=
  match n, s with
  | S n', String _ s' => drop n' s'
  | _, _ => s
  end.

(** A slice bound as Python reads it: a negative bound counts from the
    end, and every bound is clipped to [0, len]. *)
Definition clip (n i : Z) : nat :=
  Z.to_nat (if i <? 0 then Z.max 0 (i + n) else Z.min i n).

(** [s[i:j]] *)
Definition slice (s : string) (i j : Z) : string :=
  let a := clip (len s) i in
  let b := clip (len s) j in
  take (b - a) (drop a s).

(** First position at or after offset [i] where [sub] starts in [s]
    ([s] is the text from offset [i] on). *)
Fixpoint index_from (sub s : string) (i : nat) : option nat :=
  if String.prefix sub s then Some i
  else match s with
       | EmptyString => None
       | String _ s' => index_from sub s' (S i)
       end.

(** Last position at or after offset [i] where [sub] starts in [s]. *)
Fixpoint rindex_from (sub s : string) (i : nat) : option nat :=
  match s with
  | EmptyString => if String.prefix sub s then Some i else None
  | String _ s' =>
      match rindex_from sub s' (S i) with
      | Some j => Some j
      | None => if String.prefix sub s then Some i else None
      end
  end.

Definition pos_or_minus1 (r : option nat) : Z :=
  match r with Some i => Z.of_nat i | None => -1 end.

(** [s.find(sub, start)] *)
Definition find_from (sub s : string) (start : Z) : Z :=
  let a := if start <? 0 then Z.max 0 (start + len s) else start in
  if len s <? a then -1
  else pos_or_minus1 (index_from sub (drop (Z.to_nat a) s) (Z.to_nat a)).

(** [s.find(sub)] *)
Definition find (sub s : string) : Z := find_from sub s 0.

(** [s.rfind(sub)] *)
Definition rfind (sub s : string) : Z := pos_or_minus1 (rindex_from sub s 0).

(** [sub in s] *)
Definition contains (sub s : string) : bool :=
  match index_from sub s 0 with Some _ => true | None => false end.

(** [s.split(sep)] for a one-character separator. *)
Fixpoint split (sep : ascii) (s : string) : list string :=
  match s with
  | EmptyString => [EmptyString]
  | String c s' =>
      if Ascii.eqb c sep then EmptyString :: split sep s'
      else match split sep s' with
           | p :: ps => String c p :: ps
           | [] => [String c EmptyString]
           end
  end.

Fixpoint zeros (n : nat) : string :=
  match n with
  | O => EmptyString
  | S n' => String "0" (zeros n')
  end.

(** [s.zfill(width)]: pad with zeros on the left, after a leading sign. *)
Definition zfill (width : nat) (s : string) : string :=
  let n := String.length s in
  if (width <=? n)%nat then s
  else
    match s with
    | String c s' =>
        if Ascii.eqb c "+" || Ascii.eqb c "-"
        then String c (zeros (width - n) +:+ s')
        else zeros (width - n) +:+ s
    | EmptyString => zeros (width - n)
    end.

(** Does character [c] occur in [s]? *)
Fixpoint has_char (c : ascii) (s : string) : bool :=
  match s with
  | EmptyString => false
  | String d s' => Ascii.eqb d c || has_char c s'
  end.

Fixpoint all_chars (p : ascii -> bool) (s : string) : bool :=
  match s with
  | EmptyString => true
  | String c s' => p c && all_chars p s'
  end.

Definition is_digit (c : ascii) : bool :=
  let n := nat_of_ascii c in ((48 <=? n) && (n <=? 57))%nat.

End PyStr.

(** ** Python values *)

Module PyVal.

(** A Python [float] is kept as the text that denotes it: [FDec neg m e]
    is the binary64 number nearest to [(-1)^neg * m * 10^e]. The program
    never computes with floats; it only tests them for truth. *)
Inductive pyfloat :=
| FDec (neg : bool) (m : N) (e : Z)
| FInf (neg : bool)
| FNaN.

(** What [json.loads] can return. A [dict] keeps its items in insertion
    order; its keys are pairwise distinct. *)
#[warnings="-register-all"]
Inductive pyvalue :=
| PyNone
| PyBool (b : bool)
| PyInt (z : Z)
| PyFloat (f : pyfloat)
| PyStr (s : string)
| PyList (l : list pyvalue)
| PyDict (d : list (string * pyvalue)).

(** A decimal rounds to zero exactly when it is at most [2^-1075], half of
    the least positive binary64 number. *)
Definition float_is_zero (f : pyfloat) : bool :=
  match f with
  | FDec _ m e =>
      (m =? 0)%N || ((e <? 0) && (Z.of_N m * 2 ^ 1075 <=? 10 ^ (- e)))
  | _ => false
  end.

(** [bool(v)], the test behind [if v] and [not v]. *)
Definition truthy (v : pyvalue) : bool :=
  match v with
  | PyNone => false
  | PyBool b => b
  | PyInt z => negb (z =? 0)
  | PyFloat f => negb (float_is_zero f)
  | PyStr s => negb (String.eqb s "")
  | PyList l => match l with [] => false | _ => true end
  | PyDict d => match d with [] => false | _ => true end
  end.

Definition is_dict (v : pyvalue) : bool :=
  match v with PyDict _ => true | _ => false end.

(** [d[k] = v] on an insertion-ordered dict. *)
Fixpoint dict_set {V : Type} (k : string) (v : V) (d : list (string * V))
  : list (string * V) :=
  match d with
  | [] => [(k, v)]
  | (k', v') :: d' =>
      if String.eqb k' k then (k', v) :: d' else (k', v') :: dict_set k v d'
  end.

(** [d.get(k)] *)
Fixpoint dict_get {V : Type} (k : string) (d : list (string * V)) : option V :=
  match d with
  | [] => None
  | (k', v') :: d' => if String.eqb k' k then Some v' else dict_get k d'
  end.

(** The two library functions the program calls on these values. [None]
    stands for a raised exception, which every caller in the program
    catches. *)
Class PyBuiltins := {
  json_loads : string -> option pyvalue;
  py_str : pyvalue -> option string
}.

End PyVal.

(** ** A decoder for JSON text

    [json.loads] of the standard library, written out: the scanner of
    [json.scanner] and the string, array and object readers of
    [json.decoder], in strict mode. One thing is left out: an escape that
    denotes a code point above 255 is refused, since text here stops at 255.
    The statements below hold for any [PyBuiltins]; this decoder makes them
    executable. *)

Module Json.
Import PyVal.

Definition is_ws (c : ascii) : bool :=
  Ascii.eqb c " " || Ascii.eqb c "009" || Ascii.eqb c "010" || Ascii.eqb c "013".

Fixpoint skip_ws (s : string) : string :=
  match s with
  | String c s' => if is_ws c then skip_ws s' else s
  | EmptyString => EmptyString
  end.

(** The longest run of decimal digits at the head of [s], and the rest. *)
Fixpoint span_digits (s : string) : string * string :=
  match s with
  | String c s' =>
      if PyStr.is_digit c
      then let '(ds, r) := span_digits s' in (String c ds, r)
      else (EmptyString, s)
  | EmptyString => (EmptyString, EmptyString)
  end.

Definition digit_val (c : ascii) : Z := Z.of_nat (nat_of_ascii c) - 48.

Fixpoint digits_val (acc : Z) (ds : string) : Z :=
  match ds with
  | String c ds' => digits_val (10 * acc + digit_val c) ds'
  | EmptyString => acc
  end.

Definition hex_val (c : ascii) : option Z :=
  let n := Z.of_nat (nat_of_ascii c) in
  if (48 <=? n) && (n <=? 57) then Some (n - 48)
  else if (65 <=? n) && (n <=? 70) then Some (n - 55)
  else if (97 <=? n) && (n <=? 102) then Some (n - 87)
  else None.

(** [NUMBER_RE]: an optional minus, then 0 or a digit run without leading
    zero; an optional fraction (a dot and digits); an optional exponent
    (e or E, an optional sign, digits). The value is an [int] when neither
    fraction nor exponent matched, a [float] otherwise. *)
Definition parse_number (s : string) : option (pyvalue * string) :=
  let '(neg, s1) :=
    match s with
    | String "-" r => (true, r)
    | _ => (false, s)
    end in
  let int_part :=
    match s1 with
    | String "0" r => Some ("0", r)
    | String c _ => if PyStr.is_digit c then Some (span_digits s1) else None
    | EmptyString => None
    end in
  match int_part with
  | None => None
  | Some (ip, r1) =>
      let '(frac, r2) :=
        match r1 with
        | String "." r =>
            let '(ds, r') := span_digits r in
            match ds with EmptyString => (None, r1) | _ => (Some ds, r') end
        | _ => (None, r1)
        end in
      let '(ex, r3) :=
        match r2 with
        | String c r =>
            if Ascii.eqb c "e" || Ascii.eqb c "E" then
              let '(eneg, r') :=
                match r with
                | String "-" q => (true, q)
                | String "+" q => (false, q)
                | _ => (false, r)
                end in
              let '(ds, r'') := span_digits r' in
              match ds with
              | EmptyString => (None, r2)
              | _ => (Some (if eneg then - digits_val 0 ds else digits_val 0 ds), r'')
              end
            else (None, r2)
        | EmptyString => (None, r2)
        end in
      match frac, ex with
      | None, None =>
          Some (PyInt (if neg then - digits_val 0 ip else digits_val 0 ip), r3)
      | _, _ =>
          let fr := match frac with Some ds => ds | None => EmptyString end in
          let e := match ex with Some z => z | None => 0 end in
          Some (PyFloat (FDec neg (Z.to_N (digits_val 0 (ip +:+ fr)))
                           (e - PyStr.len fr)), r3)
      end
  end.

(** [scanstring] in strict mode, after the opening quote. *)
Fixpoint parse_string (s : string) : option (string * string) :=
  match s with
  | EmptyString => None
  | String c r =>
      if Ascii.eqb c "034" then Some (EmptyString, r)
      else if Ascii.eqb c "092" then
        match r with
        | String e r1 =>
            let plain (x : ascii) :=
              match parse_string r1 with
              | Some (t, r2) => Some (String x t, r2)
              | None => None
              end in
            if Ascii.eqb e "034" then plain "034"%char
            else if Ascii.eqb e "092" then plain "092"%char
            else if Ascii.eqb e "/" then plain "/"%char
            else if Ascii.eqb e "b" then plain "008"%char
            else if Ascii.eqb e "f" then plain "012"%char
            else if Ascii.eqb e "n" then plain "010"%char
            else if Ascii.eqb e "r" then plain "013"%char
            else if Ascii.eqb e "t" then plain "009"%char
            else if Ascii.eqb e "u" then
              match r1 with
              | String h1 (String h2 (String h3 (String h4 r2))) =>
                  match hex_val h1, hex_val h2, hex_val h3, hex_val h4 with
                  | Some 0, Some 0, Some a, Some b =>
                      match parse_string r2 with
                      | Some (t, r3) =>
                          Some (String (ascii_of_nat (Z.to_nat (16 * a + b))) t, r3)
                      | None => None
                      end
                  | _, _, _, _ => None
                  end
              | _ => None
              end
            else None
        | EmptyString => None
        end
      else if (nat_of_ascii c <? 32)%nat then None
      else
        match parse_string r with
        | Some (t, r1) => Some (String c t, r1)
        | None => None
        end
  end.

(** The constants [null], [true], [false], a number, or one of the three
    names of non-finite floats, tried in the order of the scanner. *)
Definition parse_atom (s : string) : option (pyvalue * string) :=
  if String.prefix "null" s then Some (PyNone, PyStr.drop 4 s)
  else if String.prefix "true" s then Some (PyBool true, PyStr.drop 4 s)
  else if String.prefix "false" s then Some (PyBool false, PyStr.drop 5 s)
  else
    match parse_number s with
    | Some r => Some r
    | None =>
        if String.prefix "NaN" s then Some (PyFloat FNaN, PyStr.drop 3 s)
        else if String.prefix "Infinity" s
        then Some (PyFloat (FInf false), PyStr.drop 8 s)
        else if String.prefix "-Infinity" s
        then Some (PyFloat (FInf true), PyStr.drop 9 s)
        else None
    end.

(** Is [c] the first character of [s]? Then the rest of [s]. *)
Definition after (c : ascii) (s : string) : option string :=
  match s with
  | String d r => if Ascii.eqb d c then Some r else None
  | EmptyString => None
  end.

(** [scan_once], with [JSONArray] and [JSONObject]; [fuel] bounds the
    number of nested calls. *)
Fixpoint parse_value (fuel : nat) (s : string) : option (pyvalue * string) :=
  match fuel with
  | O => None
  | S f =>
      match after "034" s, after "{" s, after "[" s with
      | Some r, _, _ =>
          match parse_string r with
          | Some (t, r1) => Some (PyStr t, r1)
          | None => None
          end
      | None, Some r, _ =>
          match after "}" (skip_ws r) with
          | Some r1 => Some (PyDict [], r1)
          | None => parse_members f (skip_ws r) []
          end
      | None, None, Some r =>
          match after "]" (skip_ws r) with
          | Some r1 => Some (PyList [], r1)
          | None => parse_elems f (skip_ws r) []
          end
      | None, None, None => parse_atom s
      end
  end
with parse_elems (fuel : nat) (s : string) (acc : list pyvalue)
  : option (pyvalue * string) :=
  match fuel with
  | O => None
  | S f =>
      match parse_value f s with
      | None => None
      | Some (v, r) =>
          match after "]" (skip_ws r), after "," (skip_ws r) with
          | Some r1, _ => Some (PyList (acc ++ [v]), r1)
          | None, Some r1 => parse_elems f (skip_ws r1) (acc ++ [v])
          | None, None => None
          end
      end
  end
with parse_members (fuel : nat) (s : string) (acc : list (string * pyvalue))
  : option (pyvalue * string) :=
  match fuel with
  | O => None
  | S f =>
      match after "034" s with
      | None => None
      | Some r =>
          match parse_string r with
          | None => None
          | Some (k, r1) =>
              match after ":" (skip_ws r1) with
              | None => None
              | Some r2 =>
                  match parse_value f (skip_ws r2) with
                  | None => None
                  | Some (v, r3) =>
                      match after "}" (skip_ws r3), after "," (skip_ws r3) with
                      | Some r4, _ => Some (PyDict (dict_set k v acc), r4)
                      | None, Some r4 =>
                          parse_members f (skip_ws r4) (dict_set k v acc)
                      | None, None => None
                      end
                  end
              end
          end
      end
  end.

(** [json.loads(s)]: one value between optional white space, nothing
    after it. *)
Definition loads (s : string) : option pyvalue :=
  match parse_value (2 * String.length s + 2) (skip_ws s) with
  | Some (v, r) =>
      match skip_ws r with
      | EmptyString => Some v
      | _ => None
      end
  | None => None
  end.

(** [str(v)] for [None], booleans, integers and strings. The text of a
    float or of a container that holds one depends on float formatting,
    which is not modelled: this instance has no text for floats, lists and
    dicts. *)
Definition str_scalar (v : pyvalue) : option string :=
  match v with
  | PyNone => Some "None"
  | PyBool true => Some "True"
  | PyBool false => Some "False"
  | PyInt z => Some (pretty.pretty z)
  | PyStr s => Some s
  | _ => None
  end.

#[export] Instance builtins : PyBuiltins :=
  {| json_loads := loads; py_str := str_scalar |}.

End Json.

(** ** The spreadsheet as the loader sees it *)

Module Excel.

(** A column label of the DataFrame. Only a [str] label has [lower];
    [LOther] carries the text [str(label)] of any other label. *)
Inductive label :=
| LStr (s : string)
| LOther (text : string).

(** A cell, by what the program observes of it: [pd.notna] and, when that
    holds, [str(cell)]. *)
Inductive cell :=
| NA
| Val (text : string).

Record DataFrame := {
  columns : list label;
  rows : list (list cell)
}.

(** [df.empty]: some axis has length 0. *)
Definition df_empty (df : DataFrame) : bool :=
  (length (columns df) =? 0)%nat || (length (rows df) =? 0)%nat.

Definition label_eqb (a b : label) : bool :=
  match a, b with
  | LStr s, LStr t => String.eqb s t
  | LOther s, LOther t => String.eqb s t
  | _, _ => false
  end.

(** [str(label)] *)
Definition label_text (c : label) : string :=
  match c with LStr s => s | LOther t => t end.

(** [col.lower()]; [None]: [AttributeError], the label is not a [str]. *)
Definition label_lower (c : label) : option string :=
  match c with
  | LStr s => Some (PyStr.lower s)
  | LOther _ => None
  end.

(** [[col for col in df.columns if w1 in col.lower() and w2 in col.lower()]];
    [None] when the comprehension raises. *)
Fixpoint cols_containing (w1 w2 : string) (cols : list label)
  : option (list label) :=
  match cols with
  | [] => Some []
  | col :: rest =>
      match label_lower col with
      | None => None
      | Some l =>
          match cols_containing w1 w2 rest with
          | None => None
          | Some found =>
              Some (if PyStr.contains w1 l && PyStr.contains w2 l
                    then col :: found else found)
          end
      end
  end.

(** [row[col]]: the cell of the row under the column labelled [col]. *)
Fixpoint row_get (cols : list label) (row : list cell) (col : label) : cell :=
  match cols, row with
  | c :: cs, x :: xs => if label_eqb c col then x else row_get cs xs col
  | _, _ => NA
  end.

(** [str(x).strip() if pd.notna(x) else ''] *)
Definition name_cell (x : cell) : string :=
  match x with
  | Val t => PyStr.strip t
  | NA => EmptyString
  end.

Record client := {
  first_name : string;
  last_name : string;
  full_name : string;
  row_index : nat
}.

Definition nonempty (s : string) : bool := negb (String.eqb s "").

(** The loop over [df.iterrows()], from row number [idx] on. *)
Fixpoint iter_clients (cols : list label) (first_name_col last_name_col : label)
  (idx : nat) (rws : list (list cell)) : list client :=
  match rws with
  | [] => []
  | row :: rest =>
      let first := name_cell (row_get cols row first_name_col) in
      let last := name_cell (row_get cols row last_name_col) in
      if nonempty first && nonempty last
      then {| first_name := first;
              last_name := last;
              full_name := first +:+ " " +:+ last;
              row_index := idx |}
           :: iter_clients cols first_name_col last_name_col (S idx) rest
      else iter_clients cols first_name_col last_name_col (S idx) rest
  end.

(** [str(key).strip().lower().replace(' ', '_').replace('/', '_')] *)
Definition clean_key (c : label) : string :=
  PyStr.replace "/" "_"
    (PyStr.replace " " "_" (PyStr.lower (PyStr.strip (label_text c)))).

(** [str(value) if pd.notna(value) else ''] *)
Definition clean_value (x : cell) : string :=
  match x with
  | Val t => t
  | NA => EmptyString
  end.

(** [cleaned_data], filled in the order of [row_data.items()]. *)
Fixpoint clean_items (items : list (label * cell)) (cleaned : list (string * string))
  : list (string * string) :=
  match items with
  | [] => cleaned
  | (key, value) :: rest =>
      clean_items rest (PyVal.dict_set (clean_key key) (clean_value value) cleaned)
  end.

(** Is this the client the request names? *)
Definition names_match (first last : string) (c : client) : bool :=
  String.eqb (PyStr.lower (first_name c)) (PyStr.lower first)
  && String.eqb (PyStr.lower (last_name c)) (PyStr.lower last).

End Excel.

(** ** The processor *)

Module W7.
Import PyVal Excel.

(** [create_w7_field_mapping]: semantic field name, PDF field name. *)
Definition field_mapping_items : list (string * string) :=
  [
  ("application_type_new", "topmostSubform[0].Page1[0].c1_1[0]");
  ("application_type_renew", "topmostSubform[0].Page1[0].c1_1[1]");
  ("reason_a", "topmostSubform[0].Page1[0].c1_2[0]");
  ("reason_b", "topmostSubform[0].Page1[0].c1_3[0]");
  ("reason_c", "topmostSubform[0].Page1[0].c1_4[0]");
  ("reason_d", "topmostSubform[0].Page1[0].c1_5[0]");
  ("reason_e", "topmostSubform[0].Page1[0].c1_6[0]");
  ("reason_f", "topmostSubform[0].Page1[0].c1_7[0]");
  ("reason_g", "topmostSubform[0].Page1[0].c1_8[0]");
  ("reason_h", "topmostSubform[0].Page1[0].c1_9[0]");
  ("reason_d_relationship", "topmostSubform[0].Page1[0].f1_01[0]");
  ("reason_de_name1", "topmostSubform[0].Page1[0].f1_02[0]");
  ("reason_de_name2", "topmostSubform[0].Page1[0].f1_03[0]");
  ("reason_h_other", "topmostSubform[0].Page1[0].f1_04[0]");
  ("treaty_country1", "topmostSubform[0].Page1[0].f1_05[0]");
  ("treaty_country2", "topmostSubform[0].Page1[0].f1_06[0]");
  ("first_name", "topmostSubform[0].Page1[0].f1_07[0]");
  ("middle_name", "topmostSubform[0].Page1[0].f1_08[0]");
  ("last_name", "topmostSubform[0].Page1[0].f1_09[0]");
  ("first_name_birth", "topmostSubform[0].Page1[0].f1_10[0]");
  ("middle_name_birth", "topmostSubform[0].Page1[0].f1_11[0]");
  ("last_name_birth", "topmostSubform[0].Page1[0].f1_12[0]");
  ("mailing_address", "topmostSubform[0].Page1[0].f1_13[0]");
  ("mailing_city_state_zip", "topmostSubform[0].Page1[0].f1_14[0]");
  ("foreign_address", "topmostSubform[0].Page1[0].f1_15[0]");
  ("foreign_city_state_country", "topmostSubform[0].Page1[0].f1_16[0]");
  ("date_of_birth", "topmostSubform[0].Page1[0].Line4_ReadOrder[0].f1_17[0]");
  ("country_of_birth", "topmostSubform[0].Page1[0].f1_18[0]");
  ("city_state_birth", "topmostSubform[0].Page1[0].f1_19[0]");
  ("gender_male", "topmostSubform[0].Page1[0].c1_10[0]");
  ("gender_female", "topmostSubform[0].Page1[0].c1_10[1]");
  ("country_of_citizenship", "topmostSubform[0].Page1[0].f1_20[0]");
  ("foreign_tax_id", "topmostSubform[0].Page1[0].f1_21[0]");
  ("visa_info", "topmostSubform[0].Page1[0].f1_22[0]");
  ("id_passport", "topmostSubform[0].Page1[0].c1_11[0]");
  ("id_drivers_license", "topmostSubform[0].Page1[0].c1_11[1]");
  ("id_uscis", "topmostSubform[0].Page1[0].c1_11[2]");
  ("id_other", "topmostSubform[0].Page1[0].c1_11[3]");
  ("id_other_type", "topmostSubform[0].Page1[0].f1_23[0]");
  ("doc_issued_by", "topmostSubform[0].Page1[0].Issued_ReadOrder[0].f1_24[0]");
  ("doc_number", "topmostSubform[0].Page1[0].Issued_ReadOrder[0].f1_25[0]");
  ("doc_expiration", "topmostSubform[0].Page1[0].Issued_ReadOrder[0].f1_26[0]");
  ("date_of_entry", "topmostSubform[0].Page1[0].f1_27[0]");
  ("previous_itin_no", "topmostSubform[0].Page1[0].c1_12[0]");
  ("previous_itin_yes", "topmostSubform[0].Page1[0].c1_12[1]");
  ("previous_itin_first_3", "topmostSubform[0].Page1[0].ITIN[0].f1_28[0]");
  ("previous_itin_middle_2", "topmostSubform[0].Page1[0].ITIN[0].f1_29[0]");
  ("previous_itin_last_3", "topmostSubform[0].Page1[0].ITIN[0].f1_30[0]");
  ("previous_irsn_first_3", "topmostSubform[0].Page1[0].IRSN[0].f1_31[0]");
  ("previous_irsn_middle_2", "topmostSubform[0].Page1[0].IRSN[0].f1_32[0]");
  ("previous_irsn_last_3", "topmostSubform[0].Page1[0].IRSN[0].f1_33[0]");
  ("previous_itin_name_first", "topmostSubform[0].Page1[0].f1_34[0]");
  ("previous_itin_name_middle", "topmostSubform[0].Page1[0].f1_35[0]");
  ("previous_itin_name_last", "topmostSubform[0].Page1[0].f1_36[0]");
  ("college_company_name", "topmostSubform[0].Page1[0].f1_37[0]");
  ("college_company_city_state", "topmostSubform[0].Page1[0].f1_38[0]");
  ("length_of_stay", "topmostSubform[0].Page1[0].f1_39[0]");
  ("phone_number", "topmostSubform[0].Page1[0].f1_40[0]");
  ("delegate_name", "topmostSubform[0].Page1[0].f1_41[0]");
  ("delegate_parent", "topmostSubform[0].Page1[0].c1_13[0]");
  ("delegate_power_attorney", "topmostSubform[0].Page1[0].c1_13[1]");
  ("delegate_court_guardian", "topmostSubform[0].Page1[0].c1_13[2]");
  ("agent_phone", "topmostSubform[0].Page1[0].f1_42[0]");
  ("agent_fax", "topmostSubform[0].Page1[0].f1_43[0]");
  ("agent_name_title", "topmostSubform[0].Page1[0].f1_44[0]");
  ("agent_company", "topmostSubform[0].Page1[0].f1_45[0]");
  ("agent_ein", "topmostSubform[0].Page1[0].f1_46[0]");
  ("agent_ptin", "topmostSubform[0].Page1[0].f1_47[0]");
  ("agent_office_code", "topmostSubform[0].Page1[0].f1_48[0]")
  ].

Definition field_mapping : gmap string string :=
  list_to_map field_mapping_items.

(** *** Extracting the JSON text from the reply of the model *)

(** The interior of the first fenced block that opens with [marker]
    ([width] characters long), stripped; the text itself when the fence is
    never closed. *)
Definition fence_interior (marker : string) (width : Z) (json_content : string)
  : string :=
  let start_idx := PyStr.find marker json_content + width in
  let end_idx := PyStr.find_from "```" json_content start_idx in
  if negb (end_idx =? -1)
  then PyStr.strip (PyStr.slice json_content start_idx end_idx)
  else json_content.

(** Remove markdown code blocks. *)
Definition unfence (json_content : string) : string :=
  if PyStr.contains "```json" json_content
  then fence_interior "```json" 7 json_content
  else if PyStr.contains "```" json_content
  then fence_interior "```" 3 json_content
  else json_content.

(** Find the JSON object by looking for the first opening and the last
    closing brace. *)
Definition brace_span (json_content : string) : string :=
  let start_brace := PyStr.find "{" json_content in
  let end_brace := PyStr.rfind "}" json_content in
  if negb (start_brace =? -1) && negb (end_brace =? -1)
     && (start_brace <? end_brace)
  then PyStr.slice json_content start_brace (end_brace + 1)
  else json_content.

Definition extract_json (content : string) : string :=
  brace_span (unfence content).

(** *** The PDF form *)

Inductive widget_type :=
| WidgetText
| WidgetCheckbox
| WidgetOther.

(** A widget of the template; [update_ok] tells whether [field.update()]
    returns (it raises otherwise). *)
Record widget := {
  field_name : string;
  field_type : widget_type;
  update_ok : bool
}.

(** What [field.field_value] is set to. *)
Inductive field_value :=
| TextValue (s : string)
| CheckValue (b : bool).

(** The world outside the process that [generate-pdf] meets: whether the
    template file exists, the pages of widgets [fitz.open] yields ([None]:
    it raises), and whether [doc.save] succeeds. *)
Record pdf_env := {
  template_exists : bool;
  template : option (list (list widget));
  save_ok : bool
}.

(** Temporary files of the process. *)
Inductive tmp_content :=
| Spreadsheet
| EmptyPdf
| FilledPdf (written : list (string * field_value)).

Record processor := {
  form_data : pyvalue;
  excel_data : option DataFrame;
  client_list : list client;
  filled_pdf_path : option nat
}.

(** The process: the [processor] object and the temporary files it has
    created, each under a fresh number. *)
Record world := {
  proc : processor;
  files : list (nat * tmp_content);
  next_file : nat
}.

Definition set_proc (p : processor) (w : world) : world :=
  {| proc := p; files := files w; next_file := next_file w |}.

(** [W7FormProcessor.__init__] *)
Definition init_processor : processor :=
  {| form_data := PyDict [];
     excel_data := None;
     client_list := [];
     filled_pdf_path := None |}.

Definition init_world : world :=
  {| proc := init_processor; files := []; next_file := 0%nat |}.

(** A new temporary file. *)
Definition create_file (c : tmp_content) (w : world) : nat * world :=
  (next_file w,
   {| proc := proc w;
      files := (next_file w, c) :: files w;
      next_file := S (next_file w) |}).

Definition write_file (path : nat) (c : tmp_content) (w : world) : world :=
  {| proc := proc w;
     files := (path, c) :: List.filter (fun f => negb (fst f =? path)%nat) (files w);
     next_file := next_file w |}.

(** [os.unlink] *)
Definition unlink (path : nat) (w : world) : world :=
  {| proc := proc w;
     files := List.filter (fun f => negb (fst f =? path)%nat) (files w);
     next_file := next_file w |}.

(** [os.path.exists] *)
Definition file_exists (path : nat) (w : world) : bool :=
  existsb (fun f => (fst f =? path)%nat) (files w).

(** *** [W7FormProcessor.process_excel_data] *)

(** The state after the call and the returned roster ([None] for Python's
    [None]). [sheet] is what [pd.read_excel] gives; [None]: it raises. *)
Definition process_excel_data (sheet : option DataFrame) (p : processor)
  : processor * option (list client) :=
  match sheet with
  | None => (p, None)
  | Some df =>
      if df_empty df then (p, None)
      else
        let p1 := {| form_data := form_data p;
                     excel_data := Some df;
                     client_list := [];
                     filled_pdf_path := filled_pdf_path p |} in
        match cols_containing "first" "name" (columns df) with
        | None => (p1, None)
        | Some first_name_cols =>
            match cols_containing "last" "name" (columns df) with
            | None => (p1, None)
            | Some last_name_cols =>
                match first_name_cols, last_name_cols with
                | first_name_col :: _, last_name_col :: _ =>
                    let roster :=
                      iter_clients (columns df) first_name_col last_name_col
                        0%nat (rows df) in
                    ({| form_data := form_data p;
                        excel_data := Some df;
                        client_list := roster;
                        filled_pdf_path := filled_pdf_path p |},
                     Some roster)
                | _, _ => (p1, None)
                end
            end
        end
  end.

(** *** [W7FormProcessor.get_client_data] *)

Definition get_client_data (p : processor) (first last : string)
  : option (list (string * string)) :=
  match excel_data p with
  | None => None
  | Some df =>
      match List.find (names_match first last) (client_list p) with
      | None => None
      | Some matching_client =>
          match nth_error (rows df) (row_index matching_client) with
          | None => None
          | Some row => Some (clean_items (combine (columns df) row) [])
          end
      end
  end.

Section WithBuiltins.
Context `{PyBuiltins}.

(** *** [W7FormProcessor.call_openai_api] *)

(** [reply] is the text of the completion; [None] when the call to the
    service raises. Python's [None] is returned on every failure. *)
Definition call_openai_api (reply : option string) : pyvalue :=
  match reply with
  | None => PyNone
  | Some text =>
      let content := PyStr.strip text in
      match json_loads (extract_json content) with
      | Some parsed_json => parsed_json
      | None => PyNone
      end
  end.

(** *** [W7FormProcessor.transform_data_to_pdf_format] *)

(** The body of the [try] block; [None] when it raises. *)
Definition try_normalize_date (value : pyvalue) : option pyvalue :=
  match py_str value with
  | None => None
  | Some text =>
      if PyStr.contains "/" text then
        match PyStr.split "/" text with
        | [p0; p1; p2] =>
            let month := PyStr.zfill 2 p0 in
            let day := PyStr.zfill 2 p1 in
            let year := p2 in
            Some (PyStr (month +:+ day +:+ year))
        | _ => Some value
        end
      else if PyStr.contains "-" text then
        match PyStr.split "-" text with
        | [p0; p1; p2] =>
            let year := p0 in
            let month := PyStr.zfill 2 p1 in
            let day := PyStr.zfill 2 p2 in
            Some (PyStr (month +:+ day +:+ year))
        | _ => Some value
        end
      else Some value
  end.

(** The [try] with its bare [except: pass]. *)
Definition normalize_date (value : pyvalue) : pyvalue :=
  match try_normalize_date value with
  | Some v => v
  | None => value
  end.

(** The value written for [user_field]. *)
Definition format_value (user_field : string) (value : pyvalue) : pyvalue :=
  if String.eqb user_field "date_of_birth" && truthy value
  then normalize_date value
  else value.

(** The loop over [form_data.items()]. *)
Fixpoint transform_items (mapping : gmap string string)
  (items : list (string * pyvalue)) (pdf_data : gmap string pyvalue)
  : gmap string pyvalue :=
  match items with
  | [] => pdf_data
  | (user_field, value) :: rest =>
      match mapping !! user_field with
      | Some pdf_field_name =>
          transform_items mapping rest
            (<[pdf_field_name := format_value user_field value]> pdf_data)
      | None => transform_items mapping rest pdf_data
      end
  end.

(** [None]: [AttributeError], only a [dict] has [items]. *)
Definition transform_data_to_pdf_format (mapping : gmap string string)
  (form_data : pyvalue) : option (gmap string pyvalue) :=
  match form_data with
  | PyDict items => Some (transform_items mapping items ∅)
  | _ => None
  end.

(** *** [W7FormFiller.fill_fields] *)

(** One widget: the value written and counted, or nothing when the name is
    not in [field_data], the widget is neither text nor checkbox, or the
    update raises. *)
Definition fill_widget (field_data : gmap string pyvalue) (field : widget)
  : option (string * field_value) :=
  match field_data !! field_name field with
  | None => None
  | Some value =>
      match field_type field with
      | WidgetText =>
          match py_str value with
          | Some text =>
              if update_ok field then Some (field_name field, TextValue text)
              else None
          | None => None
          end
      | WidgetCheckbox =>
          if update_ok field
          then Some (field_name field, CheckValue (truthy value))
          else None
      | WidgetOther => None
      end
  end.

(** All pages, in order: the fields written. [filled_count] is the length
    of the result. *)
Definition fill_pages (field_data : gmap string pyvalue)
  (pages : list (list widget)) : list (string * field_value) :=
  omap (fill_widget field_data) (concat pages).

(** [fill_fields]: what was written, and the returned flag. *)
Definition fill_fields (field_data : gmap string pyvalue)
  (pages : list (list widget)) : list (string * field_value) * bool :=
  match pages with
  | [] => ([], false)
  | _ =>
      let written := fill_pages field_data pages in
      (written, (0 <? length written)%nat)
  end.

(** *** [W7FormProcessor.fill_w7_pdf] *)

Definition fill_w7_pdf (env : pdf_env) (data : pyvalue) (w : world)
  : world * option nat :=
  if negb (template_exists env) then (w, None)
  else
    match transform_data_to_pdf_format field_mapping data with
    | None => (w, None)
    | Some pdf_data =>
        let '(temp_file, w1) := create_file EmptyPdf w in
        match template env with
        | None => (w1, None)
        | Some pages =>
            let '(written, filled) := fill_fields pdf_data pages in
            if filled then
              if save_ok env then
                let w2 := write_file temp_file (FilledPdf written) w1 in
                (set_proc
                   {| form_data := form_data (proc w2);
                      excel_data := excel_data (proc w2);
                      client_list := client_list (proc w2);
                      filled_pdf_path := Some temp_file |} w2,
                 Some temp_file)
              else (w1, None)
            else (w1, None)
        end
    end.

(** *** The request handlers *)

Inductive response :=
| Error (status : Z) (message : string)
| UploadOk (roster : list client) (total_clients : nat)
| ProcessOk (client_name : string) (excel_row : list (string * string))
    (mapped_data : pyvalue)
| GenerateOk
| DownloadOk (path : nat) (content : option tmp_content).

(** [filename.endswith(suffix)] *)
Definition endswith (suffix s : string) : bool :=
  String.prefix (String.rev suffix) (String.rev s).

(** The uploaded file: whether the form has a part named file, its file
    name, and what [pd.read_excel] makes of its bytes. *)
Record upload := {
  has_file : bool;
  filename : string;
  sheet : option DataFrame
}.

Definition upload_file (u : upload) (w : world) : world * response :=
  if negb (has_file u) then (w, Error 400 "No file uploaded")
  else if String.eqb (filename u) "" then (w, Error 400 "No file selected")
  else if negb (endswith ".xlsx" (filename u) || endswith ".xls" (filename u))
  then (w, Error 400 "Please upload an Excel file (.xlsx or .xls)")
  else
    let '(temp_path, w1) := create_file Spreadsheet w in
    let '(p, result) := process_excel_data (sheet u) (proc w1) in
    let w2 := set_proc p w1 in
    match result with
    | None | Some [] =>
        (w2, Error 400 "Failed to process Excel file or no clients found")
    | Some roster => (unlink temp_path w2, UploadOk roster (length roster))
    end.

(** [data.get(key, '').strip()]; [None]: [AttributeError]. *)
Definition get_stripped (key : string) (data : pyvalue) : option string :=
  match data with
  | PyDict items =>
      match dict_get key items with
      | None => Some EmptyString
      | Some (PyStr s) => Some (PyStr.strip s)
      | Some _ => None
      end
  | _ => None
  end.

(** [body] is [request.get_json()], [reply] the completion of the model. *)
Definition process_client (body : pyvalue) (reply : option string) (w : world)
  : world * response :=
  if negb (truthy body) then (w, Error 400 "No JSON data provided")
  else
    match get_stripped "first_name" body, get_stripped "last_name" body with
    | Some first, Some last =>
        if negb (nonempty first) || negb (nonempty last)
        then (w, Error 400 "Both first_name and last_name are required")
        else
          match get_client_data (proc w) first last with
          | None | Some [] =>
              (w, Error 404 ("Client " +:+ String "034" (first +:+ " " +:+ last)
                             +:+ String "034" " not found"))
          | Some client_data =>
              let gpt_response := call_openai_api reply in
              if negb (truthy gpt_response)
              then (w, Error 500 "Failed to process data with OpenAI")
              else
                (set_proc
                   {| form_data := gpt_response;
                      excel_data := excel_data (proc w);
                      client_list := client_list (proc w);
                      filled_pdf_path := filled_pdf_path (proc w) |} w,
                 ProcessOk (first +:+ " " +:+ last) client_data gpt_response)
          end
    | _, _ => (w, Error 500 "Server error")
    end.

Definition generate_pdf (env : pdf_env) (w : world) : world * response :=
  if negb (truthy (form_data (proc w)))
  then (w, Error 400 "No form data available. Please process a client first.")
  else
    match fill_w7_pdf env (form_data (proc w)) w with
    | (w1, None) => (w1, Error 500 "Failed to generate PDF")
    | (w1, Some _) => (w1, GenerateOk)
    end.

Definition download_pdf (w : world) : world * response :=
  match filled_pdf_path (proc w) with
  | None => (w, Error 400 "No PDF available. Please generate PDF first.")
  | Some path =>
      if file_exists path w
      then (w, DownloadOk path (snd <$> List.find (fun f => (fst f =? path)%nat) (files w)))
      else (w, Error 400 "No PDF available. Please generate PDF first.")
  end.

Inductive request :=
| Upload (u : upload)
| ProcessClient (body : pyvalue) (reply : option string)
| GeneratePdf (env : pdf_env)
| DownloadPdf.

Definition handle (r : request) (w : world) : world * response :=
  match r with
  | Upload u => upload_file u w
  | ProcessClient body reply => process_client body reply w
  | GeneratePdf env => generate_pdf env w
  | DownloadPdf => download_pdf w
  end.

(** The worlds the server can be in: after any sequence of requests since
    startup. *)
Inductive reachable : world -> Prop :=
| reach_init : reachable init_world
| reach_step r w : reachable w -> reachable (fst (handle r w)).

End WithBuiltins.

End W7.

(** ** The vocabulary of the properties *)

Module Props.
Import PyStr PyVal Excel W7.

(** Commentary that holds no brace and no backquote. *)
Definition quiet (commentary : string) : bool :=
  negb (has_char "{" commentary) && negb (has_char "}" commentary)
  && negb (has_char "`" commentary).

(** The text of a JSON object: an opening brace, anything, a closing brace. *)
Definition object_text (mid : string) : string := String "{" (mid +:+ "}").

Definition raw_shape (pre s post : string) : string := pre +:+ s +:+ post.

(** [s] in a block fenced by [marker] and closed by a plain fence, with
    white space [w1] and [w2] around it. *)
Definition fenced_shape (marker pre w1 s w2 post : string) : string :=
  pre +:+ marker +:+ w1 +:+ s +:+ w2 +:+ "```" +:+ post.

(** Single quotes stand for double quotes in the example texts below. *)
Definition dq (s : string) : string := PyStr.replace "'" "034" s.

Definition newline : string := String "010" "".

(** The test of [brace_span]: an opening brace stands before the last
    closing brace. *)
Definition has_brace_pair (json_content : string) : bool :=
  negb (find "{" json_content =? -1) && negb (rfind "}" json_content =? -1)
  && (find "{" json_content <? rfind "}" json_content).

(** What the client returns when the extracted text is [s]. *)
Definition parsed `{PyBuiltins} (s : string) : pyvalue :=
  match json_loads s with
  | Some v => v
  | None => PyNone
  end.

(** [json.loads] on text that opens with a brace returns a [dict] or
    raises. *)
Definition loads_object_law `{PyBuiltins} : Prop :=
  forall s v, json_loads (String "{" s) = Some v -> is_dict v = true.

(** No two semantic names share a PDF field. *)
Definition dict_injective (fm : gmap string string) : Prop :=
  forall k1 k2 t, fm !! k1 = Some t -> fm !! k2 = Some t -> k1 = k2.

(** Is the semantic name [k] a key of the dictionary? *)
Definition known (fm : gmap string string) (k : string) : bool :=
  match fm !! k with Some _ => true | None => false end.

(** The entries the translation writes, in the order of the input. *)
Definition translated `{PyBuiltins} (fm : gmap string string) (items : list (string * pyvalue))
  : list (string * pyvalue) :=
  omap (fun kv => (fun t => (t, format_value kv.1 kv.2)) <$> fm !! kv.1) items.

(** [str(s)] is [s] for a [str]. *)
Definition str_of_str_law `{PyBuiltins} : Prop :=
  forall s, py_str (PyStr s) = Some s.

(** Builtins whose [str] always raises: what the bare [except] of the
    normalisation is there for. No value decoded from JSON makes the [str] of
    Python raise. *)
Definition raising_str : PyBuiltins :=
  {| json_loads := Json.loads; py_str := fun _ => None |}.

(** Does the header of the column hold both words, whatever the case? A
    label that is not text holds none. *)
Definition header_has (w1 w2 : string) (c : label) : bool :=
  match c with
  | LStr s => contains w1 (lower s) && contains w2 (lower s)
  | LOther _ => false
  end.

(** No column for the first name, or none for the last name. *)
Definition lacks_name_columns (df : DataFrame) : bool :=
  negb (existsb (header_has "first" "name") (columns df))
  || negb (existsb (header_has "last" "name") (columns df)).

(** Both trimmed name cells of the row are non-empty. *)
Definition qualifies (cols : list label) (fc lc : label) (row : list cell) : bool :=
  nonempty (name_cell (row_get cols row fc))
  && nonempty (name_cell (row_get cols row lc)).

(** The Client Entry of row number [i]. *)
Definition entry (cols : list label) (fc lc : label) (i : nat) (row : list cell)
  : client :=
  let first := name_cell (row_get cols row fc) in
  let last := name_cell (row_get cols row lc) in
  {| first_name := first;
     last_name := last;
     full_name := first +:+ " " +:+ last;
     row_index := i |}.

(** The rows with their numbers, from [idx] on. *)
Definition numbered (idx : nat) (rws : list (list cell)) : list (nat * list cell) :=
  combine (seq idx (length rws)) rws.

(** The stored roster points into the stored table. *)
Definition roster_ok (p : processor) : Prop :=
  match excel_data p with
  | None => client_list p = []
  | Some df => Forall (fun c => (row_index c < length (rows df))%nat) (client_list p)
  end.

(** A file name the upload handler lets through. *)
Definition accepted_name (name : string) : bool :=
  negb (String.eqb name "") && (endswith ".xlsx" name || endswith ".xls" name).

(** The table has its name columns and no row with both names. *)
Definition yields_no_clients (df : DataFrame) : Prop :=
  exists fc fcs lc lcs,
    cols_containing "first" "name" (columns df) = Some (fc :: fcs)
    /\ cols_containing "last" "name" (columns df) = Some (lc :: lcs)
    /\ List.filter (qualifies (columns df) fc lc) (rows df) = [].

(** No client has been processed: the mapped data is the empty dict of
    startup, no output path is recorded, and no PDF file has been created. *)
Definition fresh (w : world) : Prop :=
  form_data (proc w) = PyDict []
  /\ filled_pdf_path (proc w) = None
  /\ Forall (fun f => f.2 = Spreadsheet) (files w).

Definition processed_or_fresh (w : world) : Prop :=
  fresh w \/ truthy (form_data (proc w)) = true.

(** The process after a sequence of requests. *)
Fixpoint run `{PyBuiltins} (requests : list request) (w : world) : world :=
  match requests with
  | [] => w
  | r :: rest => run rest (handle r w).1
  end.

Definition is_process_ok (r : response) : bool :=
  match r with
  | ProcessOk _ _ _ => true
  | _ => false
  end.

(** No request of the sequence ended in a processed client. *)
Fixpoint none_processed `{PyBuiltins} (requests : list request) (w : world) : bool :=
  match requests with
  | [] => true
  | r :: rest =>
      negb (is_process_ok (handle r w).2) && none_processed rest (handle r w).1
  end.

(** A value that counts as false. *)
Definition falsy_value (v : pyvalue) : Prop :=
  v = PyNone \/ v = PyBool false \/ v = PyInt 0
  \/ (exists f, v = PyFloat f /\ float_is_zero f = true)
  \/ v = PyStr "" \/ v = PyList [] \/ v = PyDict [].

(** The roster the loader builds from a table: the entries of its rows,
    under the first columns whose headers hold the words. *)
Definition roster_of (df : DataFrame) : list client :=
  match List.filter (header_has "first" "name") (columns df),
        List.filter (header_has "last" "name") (columns df) with
  | fc :: _, lc :: _ => iter_clients (columns df) fc lc 0 (rows df)
  | _, _ => []
  end.

(** The stored roster belongs to the stored table: it is empty, or it is
    the roster of that table. A stored table is never empty. *)
Definition roster_of_table (p : processor) : Prop :=
  match excel_data p with
  | None => client_list p = []
  | Some df =>
      df_empty df = false
      /\ (client_list p = [] \/ client_list p = roster_of df)
  end.

(** The temporary files carry numbers below the next one, each number once,
    and a recorded output path names a file that holds a filled form with
    at least one field. *)
Definition files_ok (w : world) : Prop :=
  Forall (fun f => (f.1 < next_file w)%nat) (files w)
  /\ NoDup (files w).*1
  /\ match filled_pdf_path (proc w) with
     | Some path =>
         exists written,
           written <> [] /\ In (path, FilledPdf written) (files w)
     | None => True
     end.

(** The value the cleaned row holds under [k]: that of the last column
    whose cleaned header is [k]. *)
Definition last_column_value (k : string) (items : list (label * cell))
  : option string :=
  option_map (fun kv => clean_value kv.2)
    (List.find (fun kv => String.eqb (clean_key kv.1) k) (rev items)).

(** The keys in the order in which they first occur. *)
Definition add_key (k : string) (seen : list string) : list string :=
  if existsb (String.eqb k) seen then seen else (seen ++ [k])%list.

Definition first_occurrences (ks : list string) : list string :=
  fold_left (fun seen k => add_key k seen) ks [].

(** One entry per column, in the order of the columns. *)
Definition cleaned_columns (items : list (label * cell)) : list (string * string) :=
  List.map (fun kv => (clean_key kv.1, clean_value kv.2)) items.

(** What a widget receives for the mapped value [x]: its text in a text
    field, its truth value in a checkbox. *)
Definition written_for `{PyBuiltins} (field : widget) (x : pyvalue) (v : field_value)
  : Prop :=
  (field_type field = WidgetText
   /\ exists text, py_str x = Some text /\ v = TextValue text)
  \/ (field_type field = WidgetCheckbox /\ v = CheckValue (truthy x)).

(** No key of the mapped data is a semantic name of the dictionary. *)
Definition no_known_key (items : list (string * pyvalue)) : Prop :=
  Forall (fun kv => known field_mapping kv.1 = false) items.

Definition is_generate_ok (r : response) : bool :=
  match r with
  | GenerateOk => true
  | _ => false
  end.

Definition is_upload_ok (r : response) : bool :=
  match r with
  | UploadOk _ _ => true
  | _ => false
  end.

(** The status of an error response. *)
Definition error_status (r : response) : option Z :=
  match r with
  | Error status _ => Some status
  | _ => None
  end.

(** Text that does not start with white space. *)
Definition headed (s : string) : Prop :=
  match s with
  | EmptyString => True
  | String c _ => isspace c = false
  end.

(** What cleaning does to one character of the trimmed header. *)
Definition clean_char (c : ascii) : ascii :=
  let l := lower_char c in
  let u := if Ascii.eqb l " " then "_"%char else l in
  if Ascii.eqb u "/" then "_"%char else u.

(** A backquote. *)
Definition is_tick (c : ascii) : bool := Ascii.eqb c "`".

(** [s] without the backquotes it ends with. *)
Fixpoint untick (s : string) : string :=
  match s with
  | EmptyString => EmptyString
  | String c s' =>
      match untick s' with
      | EmptyString => if is_tick c then EmptyString else String c EmptyString
      | r => String c r
      end
  end.

(** [s] after an opening fence with tag [tag] that nothing closes. *)
Definition open_fence_shape (tag pre w1 s post : string) : string :=
  pre +:+ ("```" +:+ tag) +:+ w1 +:+ s +:+ post.

End Props.

(** ** Sample data *)

Module Samples.
Import PyStr PyVal Excel W7 Json.

(** A sheet of three rows; the second has no last name, the third repeats
    the name of the first in another case. *)
Definition clients_sheet : DataFrame :=
  {| columns := [LStr "First Name"; LStr "Last Name"; LStr "ITIN"];
     rows := [[Val " Jane "; Val "Doe"; Val "900-70-1234"];
              [Val "Bob"; NA; NA];
              [Val "jane"; Val "DOE"; NA]] |}.

(** A sheet without name columns. *)
Definition other_sheet : DataFrame :=
  {| columns := [LStr "Customer"; LStr "ITIN"];
     rows := [[Val "Jane Doe"; Val "900-70-1234"]] |}.

(** A sheet with name columns and no complete name. *)
Definition nameless_sheet : DataFrame :=
  {| columns := [LStr "first_name"; LStr "last_name"];
     rows := [[Val "Bob"; NA]; [NA; Val "  "]] |}.

(** Headers without name columns, and no row. *)
Definition headers_only_sheet : DataFrame :=
  {| columns := [LStr "Customer"; LStr "ITIN"]; rows := [] |}.

(** The name columns, and no row. *)
Definition named_headers_sheet : DataFrame :=
  {| columns := [LStr "First Name"; LStr "Last Name"]; rows := [] |}.

Definition upload_of (df : DataFrame) : upload :=
  {| has_file := true; filename := "clients.xlsx"; sheet := Some df |}.

(** The process after the upload of [clients_sheet]. *)
Definition loaded : world := (handle (Upload (upload_of clients_sheet)) init_world).1.

Definition form_env : pdf_env :=
  {| template_exists := true;
     template :=
       Some [[ {| field_name := "topmostSubform[0].Page1[0].f1_07[0]";
                  field_type := WidgetText; update_ok := true |};
               {| field_name := "topmostSubform[0].Page1[0].c1_10[1]";
                  field_type := WidgetCheckbox; update_ok := true |} ]];
     save_ok := true |}.

Definition gender_box : widget :=
  {| field_name := "topmostSubform[0].Page1[0].c1_10[1]";
     field_type := WidgetCheckbox; update_ok := true |}.

(** The request that names Jane Doe, and a reply of the mapping service for
    her row, wrapped in a tagged fence. *)
Definition jane_request : pyvalue :=
  PyDict [("first_name", PyStr "jane "); ("last_name", PyStr "Doe")].

Definition jane_reply : string :=
  PyStr.replace "'" "034"
    "```json
{'first_name': 'Jane', 'last_name': 'Doe', 'previous_itin_yes': true,
 'previous_itin_first_3': '900', 'gender_female': 'false',
 'date_of_birth': '3/15/1985', 'nickname': 'JD'}
``` Let me know if anything is missing.".

(** A template with a text field, two checkboxes, a field of another kind
    and a field the dictionary does not name. *)
Definition w7_env : pdf_env :=
  {| template_exists := true;
     template :=
       Some [[ {| field_name := "topmostSubform[0].Page1[0].f1_07[0]";
                  field_type := WidgetText; update_ok := true |};
               {| field_name := "topmostSubform[0].Page1[0].c1_12[1]";
                  field_type := WidgetCheckbox; update_ok := true |};
               {| field_name := "topmostSubform[0].Page1[0].c1_10[1]";
                  field_type := WidgetCheckbox; update_ok := true |} ];
             [ {| field_name := "topmostSubform[0].Page1[0].Line4_ReadOrder[0].f1_17[0]";
                  field_type := WidgetText; update_ok := true |};
               {| field_name := "topmostSubform[0].Page1[0].f1_09[0]";
                  field_type := WidgetOther; update_ok := true |};
               {| field_name := "signature"; field_type := WidgetText;
                  update_ok := true |} ]];
     save_ok := true |}.

(** A sheet with the name columns and a column whose label is a number. *)
Definition numbered_sheet : DataFrame :=
  {| columns := [LStr "First Name"; LStr "Last Name"; LOther "2024"];
     rows := [[Val "Jane"; Val "Doe"; Val "900"]] |}.

(** The process after Jane Doe has been processed, and after her form has
    been generated. *)
Definition processed : world :=
  (handle (ProcessClient jane_request (Some jane_reply)) loaded).1.

Definition generated : world := (handle (GeneratePdf w7_env) processed).1.

(** A row under three headers, two of which clean to the same key. *)
Definition twin_headers_row : list (label * cell) :=
  [(LStr "Tax ID", Val "1"); (LStr "Phone", Val "555"); (LStr " tax/id ", Val "2")].

End Samples.

(** * Facts *)

(** ** Text *)

Module PyStrFacts.
Import PyStr.

Lemma app_cons c s t : String c s +:+ t = String c (s +:+ t).
Proof. reflexivity. Qed.

Lemma app_empty_l s : "" +:+ s = s.
Proof. reflexivity. Qed.

Lemma app_empty_r s : s +:+ "" = s.
Proof. induction s as [|c s IH]; [reflexivity|]. rewrite app_cons. now f_equal. Qed.

Lemma app_assoc s t u : (s +:+ t) +:+ u = s +:+ (t +:+ u).
Proof.
  induction s as [|c s IH]; [reflexivity|].
  rewrite !app_cons. now f_equal.
Qed.

Lemma length_app s t :
  String.length (s +:+ t) = (String.length s + String.length t)%nat.
Proof.
  induction s as [|c s IH]; [reflexivity|].
  rewrite app_cons. simpl. now rewrite IH.
Qed.

Lemma len_app s t : len (s +:+ t) = len s + len t.
Proof. unfold len. rewrite length_app. lia. Qed.

Lemma len_nonneg s : 0 <= len s.
Proof. unfold len. lia. Qed.

Lemma drop_app s t : drop (String.length s) (s +:+ t) = t.
Proof. induction s as [|c s IH]; [now destruct t|]. rewrite app_cons. exact IH. Qed.

Lemma take_app s t : take (String.length s) (s +:+ t) = s.
Proof.
  induction s as [|c s IH]; [now destruct t|].
  rewrite app_cons. simpl. now f_equal.
Qed.

Lemma drop_0 s : drop 0 s = s.
Proof. now destruct s. Qed.

Lemma prefix_cons c d s t :
  String.prefix (String c s) (String d t)
  = if Ascii.eqb c d then String.prefix s t else false.
Proof.
  simpl. destruct (ascii_dec c d) as [->|Hne].
  - now rewrite Ascii.eqb_refl.
  - destruct (Ascii.eqb_spec c d); [contradiction|reflexivity].
Qed.

Lemma prefix_empty s : String.prefix "" s = true.
Proof. now destruct s. Qed.

Lemma prefix_of_empty c s : String.prefix (String c s) "" = false.
Proof. reflexivity. Qed.

Lemma prefix_app s t : String.prefix s (s +:+ t) = true.
Proof.
  induction s as [|c s IH]; [apply prefix_empty|].
  rewrite app_cons, prefix_cons, Ascii.eqb_refl. exact IH.
Qed.

(** A prefix of a prefix. *)
Lemma prefix_trans s t u :
  String.prefix s t = true -> String.prefix t u = true -> String.prefix s u = true.
Proof.
  revert t u. induction s as [|c s IH]; intros t u Hst Htu; [apply prefix_empty|].
  destruct t as [|d t]; [discriminate|]. destruct u as [|e u]; [discriminate|].
  rewrite prefix_cons in *.
  destruct (Ascii.eqb_spec c d) as [->|]; [|discriminate].
  destruct (Ascii.eqb d e); [|discriminate]. eauto.
Qed.

Lemma index_from_eq sub s i :
  index_from sub s i
  = if String.prefix sub s then Some i
    else match s with
         | EmptyString => None
         | String _ s' => index_from sub s' (S i)
         end.
Proof. now destruct s. Qed.

(** The offset of a search only shifts its answer. *)
Lemma index_from_shift sub s i :
  index_from sub s i = (fun k => (i + k)%nat) <$> index_from sub s 0.
Proof.
  revert i. induction s as [|c s IH]; intros i.
  - rewrite !(index_from_eq sub "").
    destruct (String.prefix sub ""); simpl; f_equal; lia.
  - rewrite !(index_from_eq sub (String c s)).
    destruct (String.prefix sub (String c s)); simpl; [f_equal; lia|].
    rewrite (IH (S i)), (IH 1%nat).
    destruct (index_from sub s 0); simpl; f_equal; lia.
Qed.

Lemma index_from_none_shift sub s i j :
  index_from sub s i = None -> index_from sub s j = None.
Proof.
  rewrite (index_from_shift sub s i), (index_from_shift sub s j).
  now destruct (index_from sub s 0).
Qed.

(** No match can start on a character other than the first of [sub]. *)
Lemma index_from_skip c sub pre rest i :
  has_char c pre = false ->
  index_from (String c sub) (pre +:+ rest) i
  = index_from (String c sub) rest (i + String.length pre).
Proof.
  revert i. induction pre as [|d pre IH]; intros i Hno.
  - rewrite app_empty_l. simpl. f_equal. lia.
  - simpl in Hno. apply orb_false_elim in Hno as [Hd Hpre].
    rewrite app_cons.
    change (index_from (String c sub) (String d (pre +:+ rest)) i)
      with (if String.prefix (String c sub) (String d (pre +:+ rest)) then Some i
            else index_from (String c sub) (pre +:+ rest) (S i)).
    rewrite prefix_cons. rewrite Ascii.eqb_sym, Hd.
    rewrite (IH (S i) Hpre). simpl. f_equal. lia.
Qed.

Lemma index_from_absent c sub s i :
  has_char c s = false -> index_from (String c sub) s i = None.
Proof.
  intros Hno. rewrite <- (app_empty_r s), index_from_skip by exact Hno.
  reflexivity.
Qed.

Lemma index_from_here sub s i :
  String.prefix sub s = true -> index_from sub s i = Some i.
Proof. intros Hp. now rewrite index_from_eq, Hp. Qed.

Lemma index_from_next sub c s i :
  String.prefix sub (String c s) = false ->
  index_from sub (String c s) i = index_from sub s (S i).
Proof. intros Hp. now rewrite index_from_eq, Hp. Qed.

(** Where [index_from] answers, [sub] starts. *)
Lemma index_from_found sub s i k :
  index_from sub s i = Some k ->
  (i <= k)%nat /\ String.prefix sub (drop (k - i) s) = true.
Proof.
  revert i. induction s as [|c s IH]; intros i; rewrite index_from_eq.
  - destruct (String.prefix sub "") eqn:Hp; [|discriminate].
    intros [= <-]. now rewrite Nat.sub_diag.
  - destruct (String.prefix sub (String c s)) eqn:Hp.
    + intros [= <-]. now rewrite Nat.sub_diag.
    + intros Hk. destruct (IH _ Hk) as [Hle Hpre]. split; [lia|].
      replace (k - i)%nat with (S (k - S i)) by lia. exact Hpre.
Qed.

Lemma has_char_app c s t : has_char c (s +:+ t) = has_char c s || has_char c t.
Proof.
  induction s as [|d s IH]; [reflexivity|].
  rewrite app_cons. simpl. now rewrite IH, orb_assoc.
Qed.

Lemma rindex_from_cons sub c s i :
  rindex_from sub (String c s) i
  = match rindex_from sub s (S i) with
    | Some j => Some j
    | None => if String.prefix sub (String c s) then Some i else None
    end.
Proof. reflexivity. Qed.

Lemma rindex_from_absent c s i :
  has_char c s = false -> rindex_from (String c "") s i = None.
Proof.
  revert i. induction s as [|d s IH]; intros i Hno; [reflexivity|].
  simpl in Hno. apply orb_false_elim in Hno as [Hd Hs].
  rewrite rindex_from_cons, (IH _ Hs).
  rewrite prefix_cons, Ascii.eqb_sym, Hd. reflexivity.
Qed.

(** The last occurrence of a character followed by text without it. *)
Lemma rindex_from_last c s t i :
  has_char c t = false ->
  rindex_from (String c "") (s +:+ String c t) i = Some (i + String.length s)%nat.
Proof.
  intros Hno. revert i. induction s as [|d s IH]; intros i.
  - rewrite app_empty_l, rindex_from_cons.
    rewrite (rindex_from_absent _ _ _ Hno), prefix_cons, Ascii.eqb_refl, prefix_empty.
    simpl. f_equal. lia.
  - rewrite app_cons, rindex_from_cons, (IH (S i)). simpl. f_equal. lia.
Qed.

Lemma all_chars_app p s t :
  all_chars p (s +:+ t) = all_chars p s && all_chars p t.
Proof.
  induction s as [|c s IH]; [reflexivity|].
  rewrite app_cons. simpl. now rewrite IH, andb_assoc.
Qed.

(** *** [strip] *)

Lemma lstrip_ws w s : all_chars isspace w = true -> lstrip (w +:+ s) = lstrip s.
Proof.
  induction w as [|c w IH]; [reflexivity|]. simpl all_chars. intros Hw.
  apply andb_prop in Hw as [Hc Hw]. rewrite app_cons. simpl lstrip.
  rewrite Hc. auto.
Qed.

Lemma lstrip_head c s : isspace c = false -> lstrip (String c s) = String c s.
Proof. intros Hc. simpl. now rewrite Hc. Qed.

Lemma lstrip_app_keep pre c s :
  isspace c = false -> lstrip (pre +:+ String c s) = lstrip pre +:+ String c s.
Proof.
  intros Hc. induction pre as [|d pre IH].
  - rewrite app_empty_l. now rewrite lstrip_head.
  - rewrite app_cons. simpl. destruct (isspace d); [exact IH|reflexivity].
Qed.

Lemma rstrip_cons c s :
  rstrip (String c s)
  = match rstrip s with
    | EmptyString => if isspace c then EmptyString else String c EmptyString
    | r => String c r
    end.
Proof. reflexivity. Qed.

Lemma rstrip_all_ws w : all_chars isspace w = true -> rstrip w = "".
Proof.
  induction w as [|c w IH]; [reflexivity|]. simpl all_chars. intros Hw.
  apply andb_prop in Hw as [Hc Hw]. now rewrite rstrip_cons, (IH Hw), Hc.
Qed.

Lemma rstrip_ws x w : all_chars isspace w = true -> rstrip (x +:+ w) = rstrip x.
Proof.
  intros Hw. induction x as [|c x IH].
  - rewrite app_empty_l. now apply rstrip_all_ws.
  - now rewrite app_cons, !rstrip_cons, IH.
Qed.

Lemma rstrip_last t c :
  isspace c = false -> rstrip (t +:+ String c "") = t +:+ String c "".
Proof.
  intros Hc. induction t as [|d t IH].
  - rewrite app_empty_l, rstrip_cons. simpl. now rewrite Hc.
  - rewrite app_cons, rstrip_cons, IH. now destruct t.
Qed.

Lemma rstrip_app_keep t c post :
  isspace c = false ->
  rstrip ((t +:+ String c "") +:+ post) = (t +:+ String c "") +:+ rstrip post.
Proof.
  intros Hc. induction t as [|d t IH].
  - rewrite !app_empty_l, !app_cons, !app_empty_l, rstrip_cons.
    destruct (rstrip post); [now rewrite Hc|reflexivity].
  - rewrite !app_cons, rstrip_cons. rewrite <- app_cons, IH.
    now destruct t.
Qed.

Lemma has_char_lstrip c s : has_char c s = false -> has_char c (lstrip s) = false.
Proof.
  induction s as [|d s IH]; [easy|]. simpl. intros Hno.
  destruct (isspace d); [|exact Hno].
  apply orb_false_elim in Hno as [_ Hs]. auto.
Qed.

Lemma has_char_rstrip c s : has_char c s = false -> has_char c (rstrip s) = false.
Proof.
  induction s as [|d s IH]; [easy|]. simpl has_char. intros Hno.
  apply orb_false_elim in Hno as [Hd Hs].
  specialize (IH Hs). destruct (rstrip s).
  - destruct (isspace d); [reflexivity|]. simpl. now rewrite Hd.
  - simpl in *. now rewrite Hd.
Qed.

(** Stripping a reply keeps whatever stands between a first and a last
    character that are not white space. *)
Lemma strip_keep pre c t d post :
  isspace c = false -> isspace d = false ->
  strip (pre +:+ (String c t +:+ String d "") +:+ post)
  = lstrip pre +:+ (String c t +:+ String d "") +:+ rstrip post.
Proof.
  intros Hc Hd. unfold strip.
  rewrite !app_cons, lstrip_app_keep by exact Hc.
  rewrite <- !app_cons, <- !app_assoc.
  rewrite rstrip_app_keep by exact Hd. reflexivity.
Qed.

(** *** Slices and searches *)

Lemma clip_inside n k : (k <= n)%nat -> clip (Z.of_nat n) (Z.of_nat k) = k.
Proof.
  intros Hk. unfold clip.
  destruct (Z.ltb_spec (Z.of_nat k) 0); [lia|].
  rewrite Z.min_l by lia. apply Nat2Z.id.
Qed.

Lemma slice_middle x m y :
  slice (x +:+ m +:+ y) (len x) (len x + len m) = m.
Proof.
  unfold slice, len. rewrite <- Nat2Z.inj_add.
  rewrite !clip_inside by (rewrite !length_app; lia).
  replace (String.length x + String.length m - String.length x)%nat
    with (String.length m) by lia.
  now rewrite drop_app, take_app.
Qed.

Lemma find_from_nat sub s k :
  (k <= String.length s)%nat ->
  find_from sub s (Z.of_nat k) = pos_or_minus1 (index_from sub (drop k s) k).
Proof.
  intros Hk. unfold find_from, len.
  destruct (Z.ltb_spec (Z.of_nat k) 0); [lia|].
  destruct (Z.ltb_spec (Z.of_nat (String.length s)) (Z.of_nat k)); [lia|].
  now rewrite Nat2Z.id.
Qed.

Lemma find_nat sub s : find sub s = pos_or_minus1 (index_from sub s 0).
Proof.
  unfold find. change 0 with (Z.of_nat 0).
  rewrite find_from_nat by lia. now rewrite drop_0.
Qed.

Lemma contains_true sub s k : index_from sub s 0 = Some k -> contains sub s = true.
Proof. unfold contains. now intros ->. Qed.

Lemma contains_false sub s : index_from sub s 0 = None -> contains sub s = false.
Proof. unfold contains. now intros ->. Qed.

Lemma contains_false_inv sub s : contains sub s = false -> index_from sub s 0 = None.
Proof. unfold contains. now destruct (index_from sub s 0). Qed.

End PyStrFacts.

(** ** Extraction of the JSON text *)

Module ExtractFacts.
Import PyStr PyStrFacts PyVal W7 Props.

Lemma ws_has_no c w :
  isspace c = false -> all_chars isspace w = true -> has_char c w = false.
Proof.
  intros Hc. induction w as [|d w IH]; [reflexivity|]. simpl. intros Hw.
  apply andb_prop in Hw as [Hd Hw]. rewrite (IH Hw), orb_false_r.
  destruct (Ascii.eqb_spec d c) as [->|]; [congruence|reflexivity].
Qed.

(** Text that closes with a brace cannot end inside a fence: a fence that
    starts in it lies in it. *)
Lemma prefix_fence_closed a t tag y :
  String.prefix "```" (String a (t +:+ "}")) = false ->
  String.prefix (String "`" (String "`" (String "`" tag)))
    (String a (t +:+ "}") +:+ y) = false.
Proof.
  intros Hp. rewrite app_cons. rewrite prefix_cons in *.
  destruct (Ascii.eqb "`" a); [|reflexivity].
  destruct t as [|b t].
  { rewrite app_empty_l, app_cons. now rewrite prefix_cons. }
  rewrite !app_cons in *. rewrite prefix_cons in *.
  destruct (Ascii.eqb "`" b); [|reflexivity].
  destruct t as [|c t].
  { rewrite app_empty_l, app_cons. now rewrite prefix_cons. }
  rewrite !app_cons in *. rewrite prefix_cons in *.
  destruct (Ascii.eqb "`" c); [|reflexivity].
  now rewrite prefix_empty in Hp.
Qed.

(** A search for a fence runs past text that holds none and closes with a
    brace. *)
Lemma index_from_skip_closed tag t y i :
  index_from "```" (t +:+ "}") 0 = None ->
  index_from (String "`" (String "`" (String "`" tag))) ((t +:+ "}") +:+ y) i
  = index_from (String "`" (String "`" (String "`" tag))) y
      (i + String.length (t +:+ "}")).
Proof.
  revert i. induction t as [|a t IH]; intros i Hno.
  - rewrite app_empty_l, app_cons, app_empty_l.
    rewrite index_from_next by now rewrite prefix_cons.
    simpl String.length. f_equal. lia.
  - rewrite app_cons in Hno. rewrite index_from_eq in Hno.
    destruct (String.prefix "```" (String a (t +:+ "}"))) eqn:Hp; [discriminate|].
    apply (index_from_none_shift _ _ _ 0%nat) in Hno.
    rewrite (app_cons a t "}").
    rewrite (app_cons a (t +:+ "}") y).
    rewrite index_from_next
      by (rewrite <- app_cons; now apply prefix_fence_closed).
    rewrite (IH (S i) Hno). simpl String.length. f_equal. lia.
Qed.

Lemma index_from_prefix_some sub s i j :
  String.prefix sub (drop j s) = true -> index_from sub s i <> None.
Proof.
  revert i j. induction s as [|c s IH]; intros i j Hp; rewrite index_from_eq.
  - replace (drop j "") with "" in Hp by now destruct j.
    now rewrite Hp.
  - destruct (String.prefix sub (String c s)) eqn:Hq; [easy|].
    destruct j as [|j]; [rewrite drop_0 in Hp; congruence|].
    change (drop (S j) (String c s)) with (drop j s) in Hp. eauto.
Qed.

(** Where a longer marker is found, a marker it starts with is found too. *)
Lemma contains_prefix sub1 sub2 s :
  String.prefix sub1 sub2 = true ->
  contains sub1 s = false -> contains sub2 s = false.
Proof.
  intros Hp H1. apply contains_false_inv in H1. apply contains_false.
  destruct (index_from sub2 s 0) as [k|] eqn:H2; [|reflexivity].
  apply index_from_found in H2 as [_ H2].
  exfalso. eapply index_from_prefix_some; [|exact H1].
  eapply prefix_trans; eauto.
Qed.

Lemma unfence_no_fence content :
  contains "```" content = false -> unfence content = content.
Proof.
  intros Hno. unfold unfence.
  rewrite (contains_prefix "```" "```json" content eq_refl Hno).
  now rewrite Hno.
Qed.

(** The braces of an object text standing between brace-free text. *)
Lemma brace_span_object a mid b :
  has_char "{" a = false -> has_char "}" b = false ->
  brace_span (a +:+ String "{" (mid +:+ "}") +:+ b) = String "{" (mid +:+ "}").
Proof.
  intros Ha Hb. unfold brace_span.
  assert (Hfind : find "{" (a +:+ String "{" (mid +:+ "}") +:+ b) = len a).
  { rewrite find_nat, index_from_skip by exact Ha.
    rewrite app_cons, index_from_here by now rewrite prefix_cons, prefix_empty.
    unfold pos_or_minus1, len. f_equal. }
  assert (Hrfind : rfind "}" (a +:+ String "{" (mid +:+ "}") +:+ b)
                   = len a + 1 + len mid).
  { unfold rfind.
    replace (a +:+ String "{" (mid +:+ "}") +:+ b)
      with ((a +:+ String "{" mid) +:+ String "}" b)
      by now rewrite !app_cons, !app_assoc, !app_cons, ?app_empty_l.
    rewrite rindex_from_last by exact Hb.
    unfold pos_or_minus1, len. rewrite length_app. simpl String.length. lia. }
  rewrite Hfind, Hrfind.
  pose proof (len_nonneg a). pose proof (len_nonneg mid).
  destruct (Z.eqb_spec (len a) (-1)); [lia|].
  destruct (Z.eqb_spec (len a + 1 + len mid) (-1)); [lia|].
  destruct (Z.ltb_spec (len a) (len a + 1 + len mid)); [|lia].
  simpl negb. simpl andb.
  replace (len a + 1 + len mid + 1) with (len a + len (String "{" (mid +:+ "}"))).
  - apply slice_middle.
  - unfold len. simpl String.length. rewrite length_app. simpl String.length. lia.
Qed.

(** *** Quiet commentary *)

Lemma quiet_inv c :
  quiet c = true ->
  has_char "{" c = false /\ has_char "}" c = false /\ has_char "`" c = false.
Proof.
  unfold quiet. intros H. apply andb_prop in H as [H H3].
  apply andb_prop in H as [H1 H2].
  now rewrite (negb_true_iff _), (negb_true_iff _), (negb_true_iff _) in *.
Qed.

Lemma quiet_lstrip c : quiet c = true -> quiet (lstrip c) = true.
Proof.
  intros (H1 & H2 & H3)%quiet_inv. unfold quiet.
  now rewrite !has_char_lstrip.
Qed.

Lemma quiet_rstrip c : quiet c = true -> quiet (rstrip c) = true.
Proof.
  intros (H1 & H2 & H3)%quiet_inv. unfold quiet.
  now rewrite !has_char_rstrip.
Qed.

(** White space and an opening brace do not start with any other
    character. *)
Lemma head_ws_or_brace c sub w x y :
  isspace c = false -> Ascii.eqb c "{" = false ->
  all_chars isspace w = true ->
  String.prefix (String c sub) (w +:+ String "{" x +:+ y) = false.
Proof.
  intros Hc Hb Hw. destruct w as [|d w].
  - now rewrite app_empty_l, app_cons, prefix_cons, Hb.
  - rewrite app_cons, prefix_cons. simpl in Hw.
    apply andb_prop in Hw as [Hd _].
    destruct (Ascii.eqb_spec c d) as [->|]; [congruence|reflexivity].
Qed.

Lemma prefix_split a b :
  String.prefix a b = true -> b = a +:+ drop (String.length a) b.
Proof.
  revert b. induction a as [|c a IH]; intros b Hp.
  - now rewrite app_empty_l, drop_0.
  - destruct b as [|d b]; [discriminate|]. rewrite prefix_cons in Hp.
    destruct (Ascii.eqb_spec c d) as [->|]; [|discriminate].
    rewrite app_cons. simpl. f_equal. auto.
Qed.

(** A search for a tagged marker runs past a fence that is followed by
    text [r] which starts neither with a backquote nor with the tag. *)
Lemma index_from_over_fence c tag r i :
  (forall sub, String.prefix (String "`" sub) r = false) ->
  String.prefix (String c tag) r = false ->
  index_from (String "`" (String "`" (String "`" (String c tag)))) ("```" +:+ r) i
  = index_from (String "`" (String "`" (String "`" (String c tag)))) r (3 + i).
Proof.
  intros Hb Ht.
  change ("```" +:+ r) with (String "`" (String "`" (String "`" r))).
  rewrite index_from_next
    by (rewrite !prefix_cons; simpl Ascii.eqb; cbv iota; exact Ht).
  rewrite index_from_next
    by (rewrite !prefix_cons; simpl Ascii.eqb; cbv iota; apply Hb).
  rewrite index_from_next
    by (rewrite !prefix_cons; simpl Ascii.eqb; cbv iota; apply Hb).
  reflexivity.
Qed.

End ExtractFacts.

(** ** Fences in free commentary *)

Module FenceFacts.
Import PyStr PyStrFacts PyVal W7 Props ExtractFacts.

(** Appended text, nested to the right. *)
Ltac app_normal :=
  repeat first [rewrite app_assoc | rewrite app_cons | rewrite app_empty_l].

(** *** Text that does not hold a marker *)

Lemma no_sub_tail sub c s :
  index_from sub (String c s) 0 = None ->
  String.prefix sub (String c s) = false /\ index_from sub s 0 = None.
Proof.
  rewrite index_from_eq.
  destruct (String.prefix sub (String c s)); [discriminate|].
  intros Hn. split; [reflexivity|]. now apply (index_from_none_shift _ _ 1%nat).
Qed.

Lemma prefix_app_more sub a b :
  String.prefix sub a = true -> String.prefix sub (a +:+ b) = true.
Proof.
  revert a. induction sub as [|c sub IH]; intros a Hp; [apply prefix_empty|].
  destruct a as [|d a]; [discriminate|].
  rewrite app_cons, prefix_cons in *.
  destruct (Ascii.eqb c d); [auto|discriminate].
Qed.

(** A marker that a text does not hold is in none of its parts. *)
Lemma no_sub_app_l sub a b :
  index_from sub (a +:+ b) 0 = None -> index_from sub a 0 = None.
Proof.
  induction a as [|c a IH].
  - rewrite app_empty_l. intros Hb. rewrite index_from_eq.
    destruct (String.prefix sub "") eqn:Hp; [|reflexivity].
    pose proof (prefix_app_more sub "" b Hp) as Hq. rewrite app_empty_l in Hq.
    rewrite index_from_eq, Hq in Hb. discriminate.
  - rewrite app_cons. intros [Hp Hno]%no_sub_tail.
    rewrite index_from_eq.
    destruct (String.prefix sub (String c a)) eqn:Hq.
    + rewrite <- app_cons in Hp. now rewrite (prefix_app_more _ _ b Hq) in Hp.
    + apply (index_from_none_shift _ _ 0%nat). auto.
Qed.

Lemma no_sub_app_r sub a b :
  index_from sub (a +:+ b) 0 = None -> index_from sub b 0 = None.
Proof.
  induction a as [|c a IH]; [now rewrite app_empty_l|].
  rewrite app_cons. intros [_ Hno]%no_sub_tail. auto.
Qed.

Lemma lstrip_suffix s : exists w, s = w +:+ lstrip s.
Proof.
  induction s as [|c s (w & Hw)]; [now exists ""|]. simpl.
  destruct (isspace c).
  - exists (String c w). now rewrite app_cons, <- Hw.
  - now exists "".
Qed.

Lemma rstrip_prefix s : exists w, s = rstrip s +:+ w.
Proof.
  induction s as [|c s (w & Hw)]; [now exists ""|]. rewrite rstrip_cons.
  destruct (rstrip s) as [|d r].
  - rewrite app_empty_l in Hw. subst w. destruct (isspace c).
    + now exists (String c s).
    + now exists s.
  - exists w. now rewrite app_cons, <- Hw.
Qed.

Lemma contains_lstrip sub s :
  contains sub s = false -> contains sub (lstrip s) = false.
Proof.
  intros Hno%contains_false_inv. apply contains_false.
  destruct (lstrip_suffix s) as [w Hw]. rewrite Hw in Hno.
  now apply no_sub_app_r in Hno.
Qed.

Lemma contains_rstrip sub s :
  contains sub s = false -> contains sub (rstrip s) = false.
Proof.
  intros Hno%contains_false_inv. apply contains_false.
  destruct (rstrip_prefix s) as [w Hw]. rewrite Hw in Hno.
  now apply no_sub_app_l in Hno.
Qed.

(** *** Searching for a fence past text that holds none *)

(** A fence cannot start in text that holds none and is followed by a
    character other than a backquote. *)
Lemma prefix_fence_open a t c r tag :
  String.prefix "```" (String a t) = false ->
  Ascii.eqb "`" c = false ->
  String.prefix (String "`" (String "`" (String "`" tag)))
    (String a t +:+ String c r) = false.
Proof.
  intros Hp Hc. rewrite app_cons. rewrite prefix_cons in *.
  destruct (Ascii.eqb "`" a); [|reflexivity].
  destruct t as [|b t].
  { rewrite app_empty_l. now rewrite prefix_cons, Hc. }
  rewrite !app_cons in *. rewrite prefix_cons in *.
  destruct (Ascii.eqb "`" b); [|reflexivity].
  destruct t as [|d t].
  { rewrite app_empty_l. now rewrite prefix_cons, Hc. }
  rewrite !app_cons in *. rewrite prefix_cons in *.
  destruct (Ascii.eqb "`" d); [|reflexivity].
  now rewrite prefix_empty in Hp.
Qed.

Lemma index_from_skip_unfenced tag pre c r i :
  index_from "```" pre 0 = None ->
  Ascii.eqb "`" c = false ->
  index_from (String "`" (String "`" (String "`" tag))) (pre +:+ String c r) i
  = index_from (String "`" (String "`" (String "`" tag))) (String c r)
      (i + String.length pre).
Proof.
  revert i. induction pre as [|a pre IH]; intros i Hno Hc.
  - rewrite app_empty_l. simpl String.length. f_equal. lia.
  - apply no_sub_tail in Hno as [Hp Hno].
    rewrite app_cons.
    rewrite index_from_next
      by (rewrite <- app_cons; now apply prefix_fence_open).
    rewrite (IH (S i) Hno Hc). simpl String.length. f_equal. lia.
Qed.

(** Text without fence, then white space: still no fence. *)
Lemma no_fence_app_ws t w :
  index_from "```" t 0 = None -> all_chars isspace w = true ->
  index_from "```" (t +:+ w) 0 = None.
Proof.
  intros Ht Hw. destruct w as [|c r]; [now rewrite app_empty_r|].
  rewrite index_from_skip_unfenced; [|exact Ht|].
  - apply index_from_absent. now apply ws_has_no.
  - simpl in Hw. apply andb_prop in Hw as [Hc _].
    destruct (Ascii.eqb_spec "`" c) as [<-|]; [discriminate|reflexivity].
Qed.

(** The first fence after text [x] without fence, an object text and
    white space is the one that follows them. *)
Lemma fence_after_object x mid w2 post i :
  index_from "```" x 0 = None ->
  contains "```" (object_text mid) = false ->
  all_chars isspace w2 = true ->
  index_from "```" ((x +:+ object_text mid +:+ w2) +:+ "```" +:+ post) i
  = Some (i + String.length (x +:+ object_text mid +:+ w2))%nat.
Proof.
  intros Hx Hs Hw. unfold object_text in *.
  rewrite !app_assoc.
  rewrite (app_cons "{" (mid +:+ "}")).
  rewrite index_from_skip_unfenced by (exact Hx || reflexivity).
  rewrite <- (app_cons "{" (mid +:+ "}")).
  change (String "{" (mid +:+ "}") +:+ w2 +:+ "```" +:+ post)
    with ((String "{" mid +:+ "}") +:+ w2 +:+ "```" +:+ post).
  rewrite index_from_skip_closed by now apply contains_false_inv.
  rewrite index_from_skip by now apply ws_has_no.
  rewrite index_from_here by apply prefix_app.
  f_equal. change (String "{" mid +:+ "}") with (String "{" (mid +:+ "}")).
  rewrite !length_app. lia.
Qed.

(** *** The interior of a fenced block *)

Lemma strip_after x mid w2 :
  all_chars isspace w2 = true ->
  strip (x +:+ object_text mid +:+ w2) = lstrip x +:+ object_text mid.
Proof.
  intros Hw. unfold strip, object_text.
  rewrite (app_cons "{" (mid +:+ "}") w2).
  rewrite lstrip_app_keep by reflexivity.
  replace (lstrip x +:+ String "{" ((mid +:+ "}") +:+ w2))
    with (((lstrip x +:+ String "{" mid) +:+ String "}" "") +:+ w2)
    by (now app_normal).
  rewrite rstrip_ws by exact Hw. rewrite rstrip_last by reflexivity.
  now app_normal.
Qed.

(** When the opening fence [marker] is first met after [pre], and [x] after
    it holds no fence, the interior is [x], the object text and the white
    space, stripped. *)
Lemma fence_interior_at marker width pre x mid w2 post :
  width = len marker ->
  find marker (pre +:+ marker +:+ x +:+ object_text mid +:+ w2 +:+ "```" +:+ post)
  = len pre ->
  index_from "```" x 0 = None ->
  contains "```" (object_text mid) = false ->
  all_chars isspace w2 = true ->
  fence_interior marker width
    (pre +:+ marker +:+ x +:+ object_text mid +:+ w2 +:+ "```" +:+ post)
  = lstrip x +:+ object_text mid.
Proof.
  intros -> Hfind Hx Hs Hw.
  set (s := object_text mid) in *.
  set (content := pre +:+ marker +:+ x +:+ s +:+ w2 +:+ "```" +:+ post) in *.
  assert (Hshape : content = (pre +:+ marker) +:+ (x +:+ s +:+ w2) +:+ "```" +:+ post).
  { unfold content. now rewrite !app_assoc. }
  unfold fence_interior. rewrite Hfind, <- len_app.
  assert (Hend : find_from "```" content (len (pre +:+ marker))
                 = len (pre +:+ marker) + len (x +:+ s +:+ w2)).
  { unfold len at 1. rewrite find_from_nat
      by (rewrite Hshape, !length_app; lia).
    rewrite Hshape, drop_app. unfold s.
    rewrite fence_after_object by assumption.
    unfold pos_or_minus1, len. lia. }
  rewrite Hend.
  pose proof (len_nonneg (pre +:+ marker)). pose proof (len_nonneg (x +:+ s +:+ w2)).
  destruct (Z.eqb_spec (len (pre +:+ marker) + len (x +:+ s +:+ w2)) (-1)); [lia|].
  simpl negb. cbv iota. rewrite Hshape, slice_middle.
  now apply strip_after.
Qed.

Lemma brace_span_after x mid :
  has_char "{" x = false ->
  brace_span (lstrip x +:+ object_text mid) = object_text mid.
Proof.
  intros Hx. rewrite <- (app_empty_r (object_text mid)) at 1.
  unfold object_text. apply brace_span_object; [|reflexivity].
  now apply has_char_lstrip.
Qed.

(** *** Backquotes before a fence *)

Lemma ticks_commute ticks :
  all_chars is_tick ticks = true -> ticks +:+ "```" = "```" +:+ ticks.
Proof.
  induction ticks as [|c t IH]; [reflexivity|]. simpl. intros Ht.
  apply andb_prop in Ht as [Hc Ht]. unfold is_tick in Hc.
  apply Ascii.eqb_eq in Hc. subst c.
  rewrite app_cons, (IH Ht). reflexivity.
Qed.

Lemma ticks_no_char c ticks :
  Ascii.eqb "`" c = false -> all_chars is_tick ticks = true ->
  has_char c ticks = false.
Proof.
  intros Hc. induction ticks as [|d t IH]; [reflexivity|]. simpl. intros Ht.
  apply andb_prop in Ht as [Hd Ht]. unfold is_tick in Hd.
  apply Ascii.eqb_eq in Hd. subst d. now rewrite Hc, (IH Ht).
Qed.

Lemma untick_cons c s :
  untick (String c s)
  = match untick s with
    | EmptyString => if is_tick c then EmptyString else String c EmptyString
    | r => String c r
    end.
Proof. reflexivity. Qed.

(** Text is what is left without its last backquotes, then these. *)
Lemma untick_decomp s :
  exists ticks, s = untick s +:+ ticks /\ all_chars is_tick ticks = true.
Proof.
  induction s as [|c s (ticks & Hs & Ht)].
  - now exists "".
  - rewrite untick_cons. destruct (untick s) as [|e r] eqn:Hu.
    + rewrite app_empty_l in Hs. subst s. destruct (is_tick c) eqn:Hc.
      * exists (String c ticks). split; [reflexivity|]. simpl. now rewrite Hc.
      * exists ticks. now split.
    + exists ticks. split; [|exact Ht]. now rewrite app_cons, <- Hs.
Qed.

(** The first fence of text that holds none, followed by a fence: it starts
    where the backquotes start that the text ends with. *)
Lemma first_fence pre r i :
  index_from "```" pre 0 = None ->
  index_from "```" (pre +:+ "```" +:+ r) i
  = Some (i + String.length (untick pre))%nat.
Proof.
  revert i. induction pre as [|a pre IH]; intros i Hno.
  - rewrite app_empty_l, index_from_here by apply prefix_app.
    f_equal. simpl. lia.
  - apply no_sub_tail in Hno as [Hp Hno]. specialize (IH (S i) Hno).
    rewrite untick_cons. rewrite app_cons.
    destruct (untick pre) as [|e u] eqn:Hu.
    + destruct (untick_decomp pre) as (ticks & Hpre & Hticks).
      rewrite Hu, app_empty_l in Hpre. subst pre.
      destruct (is_tick a) eqn:Ha.
      * unfold is_tick in Ha. apply Ascii.eqb_eq in Ha. subst a.
        rewrite <- app_cons, <- app_assoc.
        rewrite (ticks_commute (String "`" ticks)) by (simpl; now rewrite Hticks).
        rewrite app_assoc, index_from_here by apply prefix_app.
        f_equal. simpl. lia.
      * rewrite index_from_next
          by (rewrite prefix_cons, Ascii.eqb_sym; unfold is_tick in Ha;
              now rewrite Ha).
        rewrite IH. f_equal. simpl. lia.
    + rewrite index_from_next; [rewrite IH; f_equal; simpl; lia|].
      rewrite prefix_cons in *. destruct (Ascii.eqb "`" a); [|reflexivity].
      destruct pre as [|b pre]; [discriminate Hu|].
      rewrite app_cons. rewrite prefix_cons in *.
      destruct (Ascii.eqb "`" b) eqn:Hb; [|reflexivity].
      destruct pre as [|d pre].
      * apply Ascii.eqb_eq in Hb. subst b. discriminate Hu.
      * rewrite app_cons. rewrite prefix_cons in *.
        destruct (Ascii.eqb "`" d); [|reflexivity].
        now rewrite prefix_empty in Hp.
Qed.

(** *** The tagged marker *)

(** The tagged marker does not overlap itself: it cannot start in text that
    does not hold it and end in a tagged marker that follows. *)
Lemma tag_border a t rest :
  String.prefix "```json" (String a t) = false ->
  String.prefix "```json" (String a t +:+ "```json" +:+ rest) = false.
Proof.
  intros Hp. rewrite app_cons. rewrite prefix_cons in *.
  destruct (Ascii.eqb "`" a); [|reflexivity].
  destruct t as [|c2 t]; [reflexivity|]. rewrite app_cons, prefix_cons in *.
  destruct (Ascii.eqb "`" c2); [|reflexivity].
  destruct t as [|c3 t]; [reflexivity|]. rewrite app_cons, prefix_cons in *.
  destruct (Ascii.eqb "`" c3); [|reflexivity].
  destruct t as [|c4 t]; [reflexivity|]. rewrite app_cons, prefix_cons in *.
  destruct (Ascii.eqb "j" c4); [|reflexivity].
  destruct t as [|c5 t]; [reflexivity|]. rewrite app_cons, prefix_cons in *.
  destruct (Ascii.eqb "s" c5); [|reflexivity].
  destruct t as [|c6 t]; [reflexivity|]. rewrite app_cons, prefix_cons in *.
  destruct (Ascii.eqb "o" c6); [|reflexivity].
  destruct t as [|c7 t]; [reflexivity|]. rewrite app_cons, prefix_cons in *.
  destruct (Ascii.eqb "n" c7); [|reflexivity].
  now rewrite prefix_empty in Hp.
Qed.

(** The first tagged marker of text that holds none, followed by one. *)
Lemma tag_first pre rest i :
  index_from "```json" pre 0 = None ->
  index_from "```json" (pre +:+ "```json" +:+ rest) i
  = Some (i + String.length pre)%nat.
Proof.
  revert i. induction pre as [|a pre IH]; intros i Hno.
  - rewrite app_empty_l, index_from_here by apply prefix_app.
    f_equal. simpl. lia.
  - apply no_sub_tail in Hno as [Hp Hno].
    rewrite app_cons.
    rewrite index_from_next by (rewrite <- app_cons; now apply tag_border).
    rewrite (IH (S i) Hno). f_equal. simpl. lia.
Qed.

(** *** The three wrapper shapes, in free commentary *)

(** Raw: no fence around the object text, no opening brace before it and
    no closing brace after it. *)
Lemma extract_raw_free pre mid post :
  contains "```" pre = false -> contains "```" post = false ->
  has_char "{" pre = false -> has_char "}" post = false ->
  contains "```" (object_text mid) = false ->
  extract_json (raw_shape pre (object_text mid) post) = object_text mid.
Proof.
  intros Hpre%contains_false_inv Hpost%contains_false_inv Hb1 Hb2 Hs.
  unfold extract_json, raw_shape.
  rewrite unfence_no_fence; [unfold object_text; now apply brace_span_object|].
  apply contains_false. unfold object_text in *.
  rewrite (app_cons "{" (mid +:+ "}") post).
  rewrite index_from_skip_unfenced by (exact Hpre || reflexivity).
  rewrite <- (app_cons "{" (mid +:+ "}") post).
  change (String "{" (mid +:+ "}") +:+ post)
    with ((String "{" mid +:+ "}") +:+ post).
  rewrite index_from_skip_closed by now apply contains_false_inv.
  now apply (index_from_none_shift _ _ 0%nat).
Qed.

(** Tagged: the block is the first that is tagged; what follows it is
    free. *)
Lemma extract_tagged_free pre v1 mid v2 post :
  contains "```json" pre = false ->
  all_chars isspace v1 = true -> all_chars isspace v2 = true ->
  contains "```" (object_text mid) = false ->
  extract_json (fenced_shape "```json" pre v1 (object_text mid) v2 post)
  = object_text mid.
Proof.
  intros Hpre%contains_false_inv H1 H2 Hs.
  unfold extract_json, unfence, fenced_shape.
  rewrite (contains_true "```json" _ (String.length pre))
    by now rewrite tag_first.
  rewrite (fence_interior_at "```json" 7 pre v1 mid v2 post); auto.
  - apply brace_span_after. now apply ws_has_no.
  - rewrite find_nat, tag_first by exact Hpre. reflexivity.
  - apply index_from_absent. now apply ws_has_no.
Qed.

(** Plain: the block is the first fence and no fence is tagged; what
    follows it is free. Backquotes that end the commentary before the block
    run into the opening fence and stay at the head of the interior. *)
Lemma extract_plain_free pre w1 mid w2 post :
  contains "```" pre = false ->
  contains "```json" (fenced_shape "```" pre w1 (object_text mid) w2 post) = false ->
  all_chars isspace w1 = true -> all_chars isspace w2 = true ->
  contains "```" (object_text mid) = false ->
  extract_json (fenced_shape "```" pre w1 (object_text mid) w2 post)
  = object_text mid.
Proof.
  intros Hpre%contains_false_inv Hnotag H1 H2 Hs.
  unfold extract_json, unfence. rewrite Hnotag.
  unfold fenced_shape in *.
  rewrite (contains_true "```" _ (String.length (untick pre)))
    by now rewrite first_fence.
  destruct (untick_decomp pre) as (ticks & Hdecomp & Hticks).
  assert (Hform : pre +:+ "```" +:+ w1 +:+ object_text mid +:+ w2 +:+ "```" +:+ post
                  = untick pre +:+ "```" +:+ (ticks +:+ w1) +:+ object_text mid
                    +:+ w2 +:+ "```" +:+ post).
  { rewrite Hdecomp at 1. rewrite app_assoc.
    rewrite <- (app_assoc ticks "```"), (ticks_commute ticks Hticks).
    now rewrite !app_assoc. }
  assert (Hfree : index_from "```" ticks 0 = None).
  { rewrite Hdecomp in Hpre. now apply no_sub_app_r in Hpre. }
  assert (Hfind : find "```" (untick pre +:+ "```" +:+ (ticks +:+ w1)
                              +:+ object_text mid +:+ w2 +:+ "```" +:+ post)
                  = len (untick pre)).
  { rewrite <- Hform, find_nat, first_fence by exact Hpre. reflexivity. }
  rewrite Hform.
  rewrite (fence_interior_at "```" 3 (untick pre) (ticks +:+ w1) mid w2 post);
    auto using no_fence_app_ws.
  apply brace_span_after. rewrite has_char_app.
  rewrite ticks_no_char by (reflexivity || exact Hticks).
  now apply ws_has_no.
Qed.

End FenceFacts.

(** ** The decoder *)

Module JsonFacts.
Import PyVal Json.

Lemma parse_value_object f s :
  parse_value (S f) (String "{" s)
  = match after "}" (skip_ws s) with
    | Some r1 => Some (PyDict [], r1)
    | None => parse_members f (skip_ws s) []
    end.
Proof. reflexivity. Qed.

Lemma parse_members_S f s acc :
  parse_members (S f) s acc
  = match after "034" s with
    | None => None
    | Some r =>
        match parse_string r with
        | None => None
        | Some (k, r1) =>
            match after ":" (skip_ws r1) with
            | None => None
            | Some r2 =>
                match parse_value f (skip_ws r2) with
                | None => None
                | Some (v, r3) =>
                    match after "}" (skip_ws r3), after "," (skip_ws r3) with
                    | Some r4, _ => Some (PyDict (dict_set k v acc), r4)
                    | None, Some r4 =>
                        parse_members f (skip_ws r4) (dict_set k v acc)
                    | None, None => None
                    end
                end
            end
        end
    end.
Proof. reflexivity. Qed.

(** The object reader answers with a [dict] or not at all. *)
Lemma parse_members_dict f : forall s acc v r,
  parse_members f s acc = Some (v, r) -> is_dict v = true.
Proof.
  induction f as [|f IH]; intros s acc v r; [discriminate|].
  rewrite parse_members_S.
  destruct (after "034" s) as [r0|]; [|discriminate].
  destruct (parse_string r0) as [[k r1]|]; [|discriminate].
  destruct (after ":" (skip_ws r1)) as [r2|]; [|discriminate].
  destruct (parse_value f (skip_ws r2)) as [[v0 r3]|]; [|discriminate].
  destruct (after "}" (skip_ws r3)) as [r4|].
  - now intros [= <- <-].
  - destruct (after "," (skip_ws r3)) as [r4|]; [|discriminate]. apply IH.
Qed.

(** Text that opens with a brace decodes to a [dict], or not at all. *)
Lemma loads_object s v : loads (String "{" s) = Some v -> is_dict v = true.
Proof.
  unfold loads. change (skip_ws (String "{" s)) with (String "{" s).
  destruct (2 * String.length (String "{" s) + 2)%nat as [|f]; [discriminate|].
  rewrite parse_value_object.
  destruct (after "}" (skip_ws s)) as [r1|].
  - destruct (skip_ws r1); [|discriminate]. now intros [= <-].
  - destruct (parse_members f (skip_ws s) []) as [[v0 r]|] eqn:Hm; [|discriminate].
    destruct (skip_ws r); [|discriminate]. intros [= <-].
    eapply parse_members_dict; eauto.
Qed.

End JsonFacts.

(** ** The External Mapping Client *)

Module MappingClient.
Import PyStr PyStrFacts PyVal W7 Props ExtractFacts FenceFacts.

Lemma drop_cons_lt i t c r : drop i t = String c r -> (i < String.length t)%nat.
Proof.
  revert t. induction i as [|i IH]; intros t Hd.
  - rewrite drop_0 in Hd. subst. simpl. lia.
  - destruct t as [|d t]; [discriminate|]. simpl in *. apply IH in Hd. lia.
Qed.

(** When the brace test passes, the candidate text opens with a brace. *)
Lemma brace_span_opens t :
  has_brace_pair t = true -> exists r, brace_span t = String "{" r.
Proof.
  unfold has_brace_pair, brace_span. intros Hb. rewrite Hb.
  apply andb_prop in Hb as [Hb Hlt]. apply andb_prop in Hb as [Hs He].
  apply Z.ltb_lt in Hlt.
  rewrite find_nat in *.
  destruct (index_from "{" t 0) as [i|] eqn:Hi; [|discriminate].
  apply index_from_found in Hi as [_ Hi]. rewrite Nat.sub_0_r in Hi.
  destruct (drop i t) as [|c r] eqn:Hd; [discriminate|].
  rewrite prefix_cons in Hi.
  destruct (Ascii.eqb_spec "{" c) as [<-|]; [|discriminate].
  pose proof (drop_cons_lt _ _ _ _ Hd) as Hlen.
  unfold pos_or_minus1 in *. unfold slice, len.
  rewrite clip_inside by lia.
  set (b := clip (Z.of_nat (String.length t)) (rfind "}" t + 1)).
  assert (Hb : (i < b)%nat).
  { unfold b, clip. destruct (Z.ltb_spec (rfind "}" t + 1) 0); lia. }
  rewrite Hd. destruct (b - i)%nat as [|k] eqn:Hk; [lia|].
  simpl. eauto.
Qed.

Section Client.
Context `{PyBuiltins}.

Lemma call_openai_api_parsed text :
  call_openai_api (Some text) = parsed (extract_json (strip text)).
Proof. reflexivity. Qed.

(** C1, as the code has it. The extraction step fails (Python's [None])
    whenever [json.loads] raises on the candidate text, and otherwise returns
    the decoded value as it is. When an opening brace stands before the last
    closing brace, the candidate opens with a brace, so the result is a JSON
    object or the failure value; when not, the whole unfenced text is the
    candidate, and a number, string, array or boolean it decodes to is
    returned as the mapped data. *)
Theorem json_extraction_outcome (text : string) :
  loads_object_law ->
  let unfenced := unfence (strip text) in
  let candidate := extract_json (strip text) in
  let result := call_openai_api (Some text) in
  (json_loads candidate = None -> result = PyNone)
  /\ (forall v, json_loads candidate = Some v -> result = v)
  /\ (has_brace_pair unfenced = true -> result = PyNone \/ is_dict result = true)
  /\ (has_brace_pair unfenced = false -> candidate = unfenced).
Proof.
  intros Hlaw unfenced candidate result.
  assert (Hres : result = parsed candidate) by reflexivity.
  repeat split.
  - intros Hnone. rewrite Hres. unfold parsed. now rewrite Hnone.
  - intros v Hv. rewrite Hres. unfold parsed. now rewrite Hv.
  - intros Hpair. rewrite Hres. unfold parsed, candidate, extract_json.
    fold unfenced. destruct (brace_span_opens _ Hpair) as [r ->].
    destruct (json_loads (String "{" r)) as [v|] eqn:Hv; [|now left].
    right. eapply Hlaw; eauto.
  - intros Hpair. unfold candidate, extract_json. fold unfenced.
    unfold brace_span. fold (has_brace_pair unfenced). now rewrite Hpair.
Qed.

Lemma strip_raw pre mid post :
  strip (raw_shape pre (object_text mid) post)
  = raw_shape (lstrip pre) (object_text mid) (rstrip post).
Proof.
  unfold raw_shape, object_text.
  change (String "{" (mid +:+ "}")) with (String "{" mid +:+ String "}" "").
  now apply strip_keep.
Qed.

Lemma strip_fenced tag pre w1 s w2 post :
  strip (fenced_shape (String "`" tag) pre w1 s w2 post)
  = fenced_shape (String "`" tag) (lstrip pre) w1 s w2 (rstrip post).
Proof.
  unfold fenced_shape.
  replace (String "`" tag +:+ w1 +:+ s +:+ w2 +:+ "```" +:+ post)
    with ((String "`" (tag +:+ w1 +:+ s +:+ w2 +:+ "``") +:+ String "`" "") +:+ post)
    by (rewrite !app_cons, !app_assoc; reflexivity).
  rewrite strip_keep by reflexivity.
  f_equal. rewrite !app_cons, !app_assoc. reflexivity.
Qed.

(** C6, as the code has it. An object text that holds no code fence is
    extracted, and so decoded, from each of the three wrapper shapes, under
    the conditions that make the shape what it is. Raw: the commentary holds
    no code fence, no opening brace stands before the object text and no
    closing brace after it. In a plain fenced block: the commentary before
    the block holds no code fence and no fence of the reply is tagged json.
    In a fenced block tagged json: the commentary before the block holds
    no tagged fence. Beyond that the commentary is free: braces and
    backquotes around a fenced block do no harm, nor does anything that
    follows a tagged block. White space may stand between the fences and
    the object text. *)
Theorem wrapper_shapes_agree (mid : string) :
  let O := object_text mid in
  contains "```" O = false ->
  (forall pre post,
      contains "```" pre = false -> contains "```" post = false ->
      has_char "{" pre = false -> has_char "}" post = false ->
      extract_json (strip (raw_shape pre O post)) = O
      /\ call_openai_api (Some (raw_shape pre O post)) = parsed O)
  /\ (forall pre w1 w2 post,
        all_chars isspace w1 = true -> all_chars isspace w2 = true ->
        contains "```" pre = false ->
        contains "```json" (fenced_shape "```" pre w1 O w2 post) = false ->
        extract_json (strip (fenced_shape "```" pre w1 O w2 post)) = O
        /\ call_openai_api (Some (fenced_shape "```" pre w1 O w2 post)) = parsed O)
  /\ (forall pre w1 w2 post,
        all_chars isspace w1 = true -> all_chars isspace w2 = true ->
        contains "```json" pre = false ->
        extract_json (strip (fenced_shape "```json" pre w1 O w2 post)) = O
        /\ call_openai_api (Some (fenced_shape "```json" pre w1 O w2 post))
           = parsed O).
Proof.
  intros O HO.
  assert (Hcall : forall text,
            extract_json (strip text) = O ->
            extract_json (strip text) = O
            /\ call_openai_api (Some text) = parsed O).
  { intros text Hx. split; [exact Hx|].
    now rewrite call_openai_api_parsed, Hx. }
  split; [|split].
  - intros pre post Hpre Hpost Hb1 Hb2. apply Hcall. unfold O.
    rewrite strip_raw. apply extract_raw_free;
      auto using contains_lstrip, contains_rstrip, has_char_lstrip, has_char_rstrip.
  - intros pre w1 w2 post Hw1 Hw2 Hpre Hnotag. apply Hcall. unfold O in *.
    apply contains_lstrip, contains_rstrip in Hnotag.
    fold (strip (fenced_shape "```" pre w1 (object_text mid) w2 post)) in Hnotag.
    rewrite strip_fenced in *.
    apply extract_plain_free; auto using contains_lstrip.
  - intros pre w1 w2 post Hw1 Hw2 Hpre. apply Hcall. unfold O.
    rewrite strip_fenced. apply extract_tagged_free; auto using contains_lstrip.
Qed.

End Client.

Import Json.

(** The decoder of this development obeys the law. *)
Lemma decoder_object_law : @loads_object_law Json.builtins.
Proof. intros s v. apply JsonFacts.loads_object. Qed.

Lemma json_extraction_outcome_witness :
  let text := dq "Sure: {'first_name': 'Jane'} Done." in
  has_brace_pair (unfence (strip text)) = true
  /\ (call_openai_api (Some text) = PyNone
      \/ is_dict (call_openai_api (Some text)) = true).
Proof.
  intros text. split; [reflexivity|].
  apply (json_extraction_outcome text decoder_object_law). reflexivity.
Defined.

(** C1 as stated fails: a reply that is a bare number is decoded and
    returned, though it is no JSON object. *)
Lemma non_object_returned :
  call_openai_api (Some "42") = PyInt 42
  /\ ~ (call_openai_api (Some "42") = PyNone
        \/ is_dict (call_openai_api (Some "42")) = true).
Proof.
  split; [reflexivity|]. intros [Hn|Hd]; [discriminate Hn|discriminate Hd].
Qed.

Lemma wrapper_shapes_agree_witness :
  let O := object_text (dq "'first_name': 'Jane'") in
  call_openai_api (Some (raw_shape "} see `a`: " O " { `b` done"))
  = PyDict [("first_name", PyStr "Jane")]
  /\ call_openai_api
       (Some (fenced_shape "```" "{x} `y`` " newline O newline " {z} ``` more }"))
     = PyDict [("first_name", PyStr "Jane")]
  /\ call_openai_api
       (Some (fenced_shape "```json" "``` plain {q} ``` then {x} ``" newline O
                newline " } ```json {} ``` {"))
     = PyDict [("first_name", PyStr "Jane")].
Proof.
  intros O.
  destruct (wrapper_shapes_agree (H := Json.builtins)
              (dq "'first_name': 'Jane'") eq_refl) as (Hraw & Hplain & Htagged).
  split; [|split].
  - exact (proj2 (Hraw "} see `a`: " " { `b` done"
                    eq_refl eq_refl eq_refl eq_refl)).
  - exact (proj2 (Hplain "{x} `y`` " newline newline " {z} ``` more }"
                    eq_refl eq_refl eq_refl eq_refl)).
  - exact (proj2 (Htagged "``` plain {q} ``` then {x} ``" newline newline
                    " } ```json {} ``` {" eq_refl eq_refl eq_refl)).
Defined.

(** C6 as stated fails: commentary that holds braces of its own breaks the
    raw shape and leaves the fenced shapes intact. *)
Lemma wrapper_shapes_differ :
  let O := object_text (dq "'a': 1") in
  call_openai_api (Some (raw_shape "{x} " O "")) = PyNone
  /\ call_openai_api (Some (fenced_shape "```json" "{x} " newline O newline ""))
     = PyDict [("a", PyInt 1)]
  /\ call_openai_api (Some (fenced_shape "```" "{x} " newline O newline ""))
     = PyDict [("a", PyInt 1)].
Proof. repeat split; reflexivity. Qed.

(** The fence steps carry the fenced shapes: in commentary with braces the
    brace search alone, on the whole reply, does not find the object text,
    and the interior of the block does. *)
Example fence_steps_needed :
  let O := object_text (dq "'a': 1") in
  let reply := fenced_shape "```json" "{x} " newline O newline "" in
  brace_span (strip reply) <> O /\ extract_json (strip reply) = O.
Proof. split; [discriminate|reflexivity]. Qed.

End MappingClient.

(** ** The Form Writer: translation *)

Module Translation.
Import PyStr PyStrFacts PyVal W7 Props.

Lemma field_mapping_keys_nodup : NoDup (field_mapping_items.*1).
Proof. apply (bool_decide_unpack _). vm_compute. exact I. Qed.

Lemma field_mapping_targets_nodup : NoDup (field_mapping_items.*2).
Proof. apply (bool_decide_unpack _). vm_compute. exact I. Qed.

Lemma nodup_snd_inj {A B : Type} (l : list (A * B)) k1 k2 t :
  NoDup (l.*1) -> NoDup (l.*2) -> (k1, t) ∈ l -> (k2, t) ∈ l -> k1 = k2.
Proof.
  induction l as [|[a b] l IH]; simpl; intros H1 H2 Ha Hb.
  - inversion Ha.
  - apply NoDup_cons in H1 as [Ha1 H1]. apply NoDup_cons in H2 as [Hb2 H2].
    apply elem_of_cons in Ha as [Ha|Ha]; apply elem_of_cons in Hb as [Hb|Hb].
    + congruence.
    + injection Ha as -> ->. exfalso. apply Hb2.
      apply list_elem_of_fmap. now exists (k2, b).
    + injection Hb as -> ->. exfalso. apply Hb2.
      apply list_elem_of_fmap. now exists (k1, b).
    + auto.
Qed.

(** The Field Dictionary of the program is injective. *)
Lemma field_mapping_injective : dict_injective field_mapping.
Proof.
  intros k1 k2 t H1 H2. unfold field_mapping in *.
  apply elem_of_list_to_map_2 in H1. apply elem_of_list_to_map_2 in H2.
  eapply nodup_snd_inj; eauto using field_mapping_keys_nodup,
    field_mapping_targets_nodup.
Qed.

Section Translate.
Context `{PyBuiltins}.

Lemma elem_of_translated fm items t x :
  (t, x) ∈ translated fm items
  <-> exists k v, (k, v) ∈ items /\ fm !! k = Some t /\ x = format_value k v.
Proof.
  unfold translated. rewrite list_elem_of_omap. split.
  - intros ([k v] & Hin & Hf). simpl in Hf.
    destruct (fm !! k) as [t'|] eqn:Hk; [|discriminate].
    injection Hf as <- <-. eauto.
  - intros (k & v & Hin & Hk & ->). exists (k, v). split; [exact Hin|].
    simpl. now rewrite Hk.
Qed.

Lemma translated_cons fm k v items :
  translated fm ((k, v) :: items)
  = match fm !! k with
    | Some t => (t, format_value k v) :: translated fm items
    | None => translated fm items
    end.
Proof. unfold translated. simpl. now destruct (fm !! k). Qed.

Lemma translated_nodup fm items :
  dict_injective fm -> NoDup (items.*1) -> NoDup ((translated fm items).*1).
Proof.
  intros Hinj. induction items as [|[k v] items IH]; intros Hnd.
  - constructor.
  - simpl in Hnd. apply NoDup_cons in Hnd as [Hk Hnd].
    rewrite translated_cons.
    destruct (fm !! k) as [t|] eqn:Hf; [|auto].
    simpl. apply NoDup_cons. split; [|auto].
    intros Hin. apply list_elem_of_fmap in Hin as ([t' x] & -> & Hin).
    apply elem_of_translated in Hin as (k' & v' & Hin & Hk' & _).
    simpl in Hk'. rewrite <- (Hinj _ _ _ Hk' Hf) in Hk.
    apply Hk. apply list_elem_of_fmap. now exists (k', v').
Qed.

Lemma translated_length fm items :
  length (translated fm items)
  = length (List.filter (fun kv => known fm kv.1) items).
Proof.
  induction items as [|[k v] items IH]; [reflexivity|].
  rewrite translated_cons. simpl. unfold known at 1. simpl.
  destruct (fm !! k); simpl; now rewrite IH.
Qed.

(** The loop builds the map of the translated entries. *)
Lemma transform_items_map fm items pdf_data :
  NoDup ((translated fm items).*1) ->
  transform_items fm items pdf_data
  = list_to_map (translated fm items) ∪ pdf_data.
Proof.
  revert pdf_data. induction items as [|[k v] items IH]; intros pdf_data Hnd.
  - simpl. now rewrite (left_id ∅ (∪)).
  - rewrite translated_cons in *. simpl transform_items.
    destruct (fm !! k) as [t|] eqn:Hf; [|auto].
    simpl in Hnd. apply NoDup_cons in Hnd as [Ht Hnd].
    rewrite IH by exact Hnd. simpl list_to_map.
    rewrite <- insert_union_l. symmetry. apply insert_union_r.
    now apply not_elem_of_list_to_map_1.
Qed.

(** What the translation holds, for any injective dictionary. *)
Lemma translate_exact fm items :
  dict_injective fm -> NoDup (items.*1) ->
  let pdf_data := transform_items fm items ∅ in
  (forall t x, pdf_data !! t = Some x
     <-> exists k v, (k, v) ∈ items /\ fm !! k = Some t /\ x = format_value k v)
  /\ size pdf_data = length (List.filter (fun kv => known fm kv.1) items).
Proof.
  intros Hinj Hnd pdf_data.
  pose proof (translated_nodup fm items Hinj Hnd) as Hnd'.
  unfold pdf_data. rewrite transform_items_map by exact Hnd'.
  replace (list_to_map (translated fm items) ∪ ∅)
    with (list_to_map (translated fm items) : gmap string pyvalue)
    by (symmetry; apply (right_id_L ∅ (∪))).
  split.
  - intros t x. etrans; [|apply elem_of_translated].
    symmetry. now apply elem_of_list_to_map.
  - rewrite map_size_list_to_map by exact Hnd'. apply translated_length.
Qed.

(** C5. Translating a Mapped Form Data object against the Field Dictionary
    never fails and yields exactly one entry per input key that the
    dictionary knows, under that key's PDF field name; keys the dictionary
    does not know leave no entry. So it is for the input of the spec's
    example, against the dictionary of the program as against one that holds
    [first_name] alone. *)
Theorem translation_keeps_known_keys (items : list (string * pyvalue)) :
  NoDup (items.*1) ->
  exists pdf_data,
    transform_data_to_pdf_format field_mapping (PyDict items) = Some pdf_data
    /\ (forall k v t, (k, v) ∈ items -> field_mapping !! k = Some t ->
          pdf_data !! t = Some (format_value k v))
    /\ (forall t x, pdf_data !! t = Some x ->
          exists k v, (k, v) ∈ items /\ field_mapping !! k = Some t
                      /\ x = format_value k v)
    /\ size pdf_data
       = length (List.filter (fun kv => known field_mapping kv.1) items)
    /\ (forall target,
          size (transform_items {[ "first_name" := target ]}
                  [("unknown_key", PyStr "x"); ("first_name", PyStr "Jane")] ∅)
          = 1%nat).
Proof.
  intros Hnd. eexists. split; [reflexivity|].
  destruct (translate_exact field_mapping items
              field_mapping_injective Hnd) as [Hlook Hsize].
  repeat split.
  - intros k v t Hin Hk. apply Hlook. eauto.
  - intros t x Hx. now apply Hlook.
  - exact Hsize.
  - intros target.
    assert (Hinj : dict_injective ({[ "first_name" := target ]} : gmap string string)).
    { intros k1 k2 t [-> _]%lookup_singleton_Some [-> _]%lookup_singleton_Some.
      reflexivity. }
    assert (Hkeys : NoDup ([("unknown_key", PyStr "x"); ("first_name", PyStr "Jane")].*1)).
    { apply (bool_decide_unpack _). vm_compute. exact I. }
    destruct (translate_exact _ _ Hinj Hkeys) as [_ ->].
    simpl. unfold known. simpl.
    rewrite lookup_singleton_ne by discriminate.
    now rewrite lookup_singleton_eq.
Qed.

End Translate.

Import Json.

Lemma translation_keeps_known_keys_witness :
  exists pdf_data,
    transform_data_to_pdf_format field_mapping
      (PyDict [("unknown_key", PyStr "x"); ("first_name", PyStr "Jane")])
    = Some pdf_data
    /\ size pdf_data = 1%nat
    /\ pdf_data !! "topmostSubform[0].Page1[0].f1_07[0]" = Some (PyStr "Jane").
Proof.
  assert (Hkeys : NoDup ([("unknown_key", PyStr "x"); ("first_name", PyStr "Jane")].*1)).
  { apply (bool_decide_unpack _). vm_compute. exact I. }
  destruct (translation_keeps_known_keys (H := Json.builtins) _ Hkeys)
    as (pdf_data & Heq & Hin & _ & Hsize & _).
  exists pdf_data. split; [exact Heq|]. split.
  - rewrite Hsize. vm_compute. reflexivity.
  - apply (Hin "first_name" (PyStr "Jane")).
    + apply elem_of_cons; right; apply elem_of_cons; now left.
    + vm_compute. reflexivity.
Defined.

End Translation.

(** ** The Form Writer: date normalisation *)

Module Dates.
Import PyStr PyStrFacts PyVal W7 Props.

Lemma contains_char c s : contains (String c "") s = has_char c s.
Proof.
  unfold contains. induction s as [|d s IH]; [reflexivity|].
  rewrite index_from_eq, prefix_cons, prefix_empty. simpl has_char.
  rewrite (Ascii.eqb_sym d c).
  destruct (Ascii.eqb c d); [reflexivity|].
  rewrite (index_from_shift _ s 1). simpl orb.
  destruct (index_from (String c "") s 0); exact IH.
Qed.

Lemma split_cons sep c s :
  split sep (String c s)
  = if Ascii.eqb c sep then EmptyString :: split sep s
    else match split sep s with
         | p :: ps => String c p :: ps
         | [] => [String c EmptyString]
         end.
Proof. reflexivity. Qed.

Lemma split_absent sep s : has_char sep s = false -> split sep s = [s].
Proof.
  induction s as [|c s IH]; [reflexivity|]. simpl has_char. intros Hno.
  apply orb_false_elim in Hno as [Hc Hs].
  now rewrite split_cons, Hc, (IH Hs).
Qed.

(** A part without separator, a separator, the rest. *)
Lemma split_app sep a b :
  has_char sep a = false ->
  split sep (a +:+ String sep b) = a :: split sep b.
Proof.
  induction a as [|c a IH]; intros Hno.
  - now rewrite app_empty_l, split_cons, Ascii.eqb_refl.
  - simpl in Hno. apply orb_false_elim in Hno as [Hc Ha].
    now rewrite app_cons, split_cons, Hc, (IH Ha).
Qed.

Lemma split_three sep a b c :
  has_char sep a = false -> has_char sep b = false -> has_char sep c = false ->
  split sep (a +:+ String sep (b +:+ String sep c)) = [a; b; c].
Proof.
  intros Ha Hb Hc. now rewrite !split_app, split_absent.
Qed.

(** One digit is padded to two; two characters are left as they are. *)
Lemma zfill_one_digit c :
  is_digit c = true -> zfill 2 (String c "") = String "0" (String c "").
Proof.
  intros Hd. unfold zfill. simpl.
  destruct (Ascii.eqb_spec c "+") as [->|]; [discriminate|].
  destruct (Ascii.eqb_spec c "-") as [->|]; [discriminate|].
  reflexivity.
Qed.

Lemma zfill_two c d : zfill 2 (String c (String d "")) = String c (String d "").
Proof. reflexivity. Qed.

Section Normalize.
Context `{PyBuiltins}.

Lemma normalize_slash m d y :
  str_of_str_law ->
  has_char "/" m = false -> has_char "/" d = false -> has_char "/" y = false ->
  normalize_date (PyStr (m +:+ "/" +:+ d +:+ "/" +:+ y))
  = PyStr (zfill 2 m +:+ zfill 2 d +:+ y).
Proof.
  intros Hstr Hm Hd Hy. unfold normalize_date, try_normalize_date.
  rewrite Hstr, contains_char.
  change (m +:+ "/" +:+ d +:+ "/" +:+ y)
    with (m +:+ String "/" (d +:+ String "/" y)).
  rewrite has_char_app. simpl has_char. rewrite orb_true_r.
  now rewrite split_three.
Qed.

Lemma normalize_dash y m d :
  str_of_str_law ->
  has_char "/" y = false -> has_char "/" m = false -> has_char "/" d = false ->
  has_char "-" y = false -> has_char "-" m = false -> has_char "-" d = false ->
  normalize_date (PyStr (y +:+ "-" +:+ m +:+ "-" +:+ d))
  = PyStr (zfill 2 m +:+ zfill 2 d +:+ y).
Proof.
  intros Hstr Hy Hm Hd Hy' Hm' Hd'. unfold normalize_date, try_normalize_date.
  rewrite Hstr, !contains_char.
  change (y +:+ "-" +:+ m +:+ "-" +:+ d)
    with (y +:+ String "-" (m +:+ String "-" d)).
  rewrite !has_char_app. simpl has_char. rewrite !has_char_app. simpl has_char.
  rewrite Hy, Hm, Hd. simpl orb. rewrite orb_true_r.
  now rewrite split_three.
Qed.

Lemma normalize_other v text :
  py_str v = Some text ->
  has_char "/" text = false -> has_char "-" text = false ->
  normalize_date v = v.
Proof.
  intros Hv Hs Hd. unfold normalize_date, try_normalize_date.
  now rewrite Hv, !contains_char, Hs, Hd.
Qed.

(** C2. The value written for the birth date depends on nothing but the
    value: a text of three parts separated by slashes becomes month and day
    padded with zeros to two characters, then the year; a text of three
    parts separated by dashes (year first) becomes the same; a value whose
    text holds neither slash nor dash is left as it is; so is a value on
    which the attempt raises. Other fields are never rewritten. *)
Theorem date_normalization :
  (str_of_str_law ->
   (forall m d y,
       has_char "/" m = false -> has_char "/" d = false -> has_char "/" y = false ->
       format_value "date_of_birth" (PyStr (m +:+ "/" +:+ d +:+ "/" +:+ y))
       = PyStr (zfill 2 m +:+ zfill 2 d +:+ y))
   /\ (forall y m d,
       has_char "/" y = false -> has_char "/" m = false -> has_char "/" d = false ->
       has_char "-" y = false -> has_char "-" m = false -> has_char "-" d = false ->
       format_value "date_of_birth" (PyStr (y +:+ "-" +:+ m +:+ "-" +:+ d))
       = PyStr (zfill 2 m +:+ zfill 2 d +:+ y))
   /\ format_value "date_of_birth" (PyStr "03/15/1985") = PyStr "03151985"
   /\ format_value "date_of_birth" (PyStr "1985-03-15") = PyStr "03151985"
   /\ format_value "date_of_birth" (PyStr "03151985") = PyStr "03151985")
  /\ (forall v text,
      py_str v = Some text ->
      has_char "/" text = false -> has_char "-" text = false ->
      format_value "date_of_birth" v = v)
  /\ (forall v, try_normalize_date v = None -> format_value "date_of_birth" v = v)
  /\ (forall c, is_digit c = true ->
      zfill 2 (String c "") = String "0" (String c ""))
  /\ (forall c d, zfill 2 (String c (String d "")) = String c (String d ""))
  /\ (forall k v, k <> "date_of_birth" -> format_value k v = v).
Proof.
  assert (Hfmt : forall v, format_value "date_of_birth" v = v
                           \/ format_value "date_of_birth" v = normalize_date v).
  { intros v. unfold format_value. simpl.
    destruct (truthy v); [now right|now left]. }
  assert (Hpos : forall s, s <> "" ->
            format_value "date_of_birth" (PyStr s) = normalize_date (PyStr s)).
  { intros s Hs. unfold format_value. simpl.
    destruct (String.eqb_spec s ""); [contradiction|reflexivity]. }
  split; [|split; [|split; [|split; [|split]]]].
  - intros Hstr. split; [|split; [|split; [|split]]].
    + intros m d y Hm Hd Hy. rewrite Hpos; [now apply normalize_slash|].
      destruct m; discriminate.
    + intros y m d Hy Hm Hd Hy' Hm' Hd'.
      rewrite Hpos; [now apply normalize_dash|]. destruct y; discriminate.
    + rewrite Hpos by discriminate.
      apply (normalize_slash "03" "15" "1985" Hstr); reflexivity.
    + rewrite Hpos by discriminate.
      apply (normalize_dash "1985" "03" "15" Hstr); reflexivity.
    + rewrite Hpos by discriminate.
      apply (normalize_other _ "03151985"); [apply Hstr|reflexivity|reflexivity].
  - intros v text Hv Hs Hd. destruct (Hfmt v) as [->| ->]; [reflexivity|].
    eapply normalize_other; eauto.
  - intros v Hraise. destruct (Hfmt v) as [->| ->]; [reflexivity|].
    unfold normalize_date. now rewrite Hraise.
  - apply zfill_one_digit.
  - apply zfill_two.
  - intros k v Hk. unfold format_value.
    destruct (String.eqb_spec k "date_of_birth"); [contradiction|reflexivity].
Qed.

End Normalize.

Import Json.

Lemma decoder_str_law : @str_of_str_law Json.builtins.
Proof. intros s. reflexivity. Qed.

Lemma date_normalization_witness :
  @format_value Json.builtins "date_of_birth" (PyStr "3/5/1985") = PyStr "03051985"
  /\ @format_value Json.builtins "date_of_birth" (PyStr "1985-3-5") = PyStr "03051985"
  /\ @format_value Json.builtins "date_of_birth" (PyInt 3151985) = PyInt 3151985
  /\ @format_value raising_str "date_of_birth" (PyStr "3/5/1985") = PyStr "3/5/1985".
Proof.
  destruct (date_normalization (H := Json.builtins)) as (Hparts & Hother & _).
  destruct (Hparts decoder_str_law) as (Hslash & Hdash & _).
  destruct (date_normalization (H := raising_str)) as (_ & _ & Hraise & _).
  split; [|split; [|split]].
  - apply (Hslash "3" "5" "1985"); reflexivity.
  - apply (Hdash "1985" "3" "5"); reflexivity.
  - apply (Hother (PyInt 3151985) "3151985"); reflexivity.
  - apply Hraise. reflexivity.
Defined.

End Dates.

(** ** The Spreadsheet Loader *)

Module Loader.
Import PyStr PyVal Excel W7 Props.

Lemma cols_containing_filter w1 w2 cols found :
  cols_containing w1 w2 cols = Some found ->
  found = List.filter (header_has w1 w2) cols.
Proof.
  revert found. induction cols as [|c cols IH]; intros found; simpl.
  - now intros [= <-].
  - destruct c as [s|t]; simpl; [|discriminate].
    destruct (cols_containing w1 w2 cols) as [l|]; [|discriminate].
    intros [= <-]. rewrite (IH l eq_refl).
    now destruct (contains w1 (lower s) && contains w2 (lower s)).
Qed.

Lemma filter_nil_existsb {A : Type} (f : A -> bool) l :
  existsb f l = false -> List.filter f l = [].
Proof.
  induction l as [|x l IH]; [reflexivity|]. simpl. intros Hex.
  apply orb_false_elim in Hex as [-> Hl]. auto.
Qed.

(** Without a matching header the search finds nothing, if it returns. *)
Lemma cols_containing_absent w1 w2 cols :
  existsb (header_has w1 w2) cols = false ->
  cols_containing w1 w2 cols = None \/ cols_containing w1 w2 cols = Some [].
Proof.
  intros Hex. destruct (cols_containing w1 w2 cols) as [l|] eqn:Hc; [|now left].
  right. apply cols_containing_filter in Hc. subst.
  now rewrite filter_nil_existsb.
Qed.

Lemma iter_clients_numbered cols fc lc idx rws :
  iter_clients cols fc lc idx rws
  = List.map (fun ir => entry cols fc lc ir.1 ir.2)
      (List.filter (fun ir => qualifies cols fc lc ir.2) (numbered idx rws)).
Proof.
  revert idx. induction rws as [|row rws IH]; intros idx; [reflexivity|].
  unfold numbered in *. simpl. unfold qualifies at 1. simpl.
  destruct (nonempty (name_cell (row_get cols row fc))
            && nonempty (name_cell (row_get cols row lc))); simpl;
    now rewrite IH.
Qed.

Lemma filter_numbered_length {A : Type} (f : A -> bool) idx (l : list A) :
  length (List.filter (fun ir : nat * A => f ir.2) (combine (seq idx (length l)) l))
  = length (List.filter f l).
Proof.
  revert idx. induction l as [|x l IH]; intros idx; [reflexivity|].
  simpl. destruct (f x); simpl; now rewrite IH.
Qed.

Lemma numbered_bounds idx rws i row :
  In (i, row) (numbered idx rws) ->
  (idx <= i < idx + length rws)%nat /\ nth_error rws (i - idx) = Some row.
Proof.
  revert idx. induction rws as [|r rws IH]; intros idx; [intros []|].
  unfold numbered in *. simpl. intros [[= <- <-]|Hin].
  - rewrite Nat.sub_diag. split; [lia|reflexivity].
  - apply IH in Hin as [Hb Hn]. split; [lia|].
    replace (i - idx)%nat with (S (i - S idx)) by lia. exact Hn.
Qed.

(** Row numbers grow along the numbered rows. *)
Lemma numbered_sorted idx rws :
  StronglySorted lt (List.map fst (numbered idx rws)).
Proof.
  revert idx. induction rws as [|r rws IH]; intros idx; [constructor|].
  unfold numbered in *. simpl. constructor; [apply IH|].
  apply List.Forall_forall. intros i Hin. apply in_map_iff in Hin as ([j row] & <- & Hin).
  apply numbered_bounds in Hin as [Hb _]. simpl. lia.
Qed.

Lemma filter_sorted {A : Type} (f : nat * A -> bool) l :
  StronglySorted lt (List.map fst l) ->
  StronglySorted lt (List.map fst (List.filter f l)).
Proof.
  induction l as [|x l IH]; [constructor|]. simpl. intros Hs.
  apply StronglySorted_inv in Hs as [Hs Hx].
  destruct (f x); [|auto]. simpl. constructor; [auto|].
  rewrite List.Forall_forall in *. intros i Hin. apply Hx.
  apply in_map_iff in Hin as (y & <- & Hin). apply in_map.
  now apply List.filter_In in Hin as [Hin _].
Qed.

(** What a load of a table that is not empty leaves behind. *)
Lemma load_stores_table df p :
  df_empty df = false ->
  excel_data (process_excel_data (Some df) p).1 = Some df
  /\ form_data (process_excel_data (Some df) p).1 = form_data p
  /\ filled_pdf_path (process_excel_data (Some df) p).1 = filled_pdf_path p
  /\ match (process_excel_data (Some df) p).2 with
     | None => client_list (process_excel_data (Some df) p).1 = []
     | Some roster => client_list (process_excel_data (Some df) p).1 = roster
     end.
Proof.
  intros Hne. unfold process_excel_data. rewrite Hne.
  destruct (cols_containing "first" "name" (columns df)) as [[|fc fcs]|];
    destruct (cols_containing "last" "name" (columns df)) as [[|lc lcs]|];
    simpl; auto.
Qed.

Lemma numbered_complete idx rws i row :
  nth_error rws i = Some row -> In ((idx + i)%nat, row) (numbered idx rws).
Proof.
  revert idx i. induction rws as [|r rws IH]; intros idx i; [now destruct i|].
  unfold numbered in *. destruct i as [|i]; simpl.
  - intros [= ->]. left. f_equal. lia.
  - intros Hn. right. replace (idx + S i)%nat with (S idx + i)%nat by lia. auto.
Qed.

Lemma filter_cons_existsb {A : Type} (f : A -> bool) l x xs :
  x :: xs = List.filter f l -> existsb f l = true.
Proof.
  intros Hf. apply existsb_exists. exists x.
  apply List.filter_In. rewrite <- Hf. now left.
Qed.

(** The loader on a table whose name columns are found. *)
Lemma load_detected df p fc fcs lc lcs :
  df_empty df = false ->
  cols_containing "first" "name" (columns df) = Some (fc :: fcs) ->
  cols_containing "last" "name" (columns df) = Some (lc :: lcs) ->
  process_excel_data (Some df) p
  = ({| form_data := form_data p;
        excel_data := Some df;
        client_list := iter_clients (columns df) fc lc 0 (rows df);
        filled_pdf_path := filled_pdf_path p |},
     Some (iter_clients (columns df) fc lc 0 (rows df))).
Proof.
  intros Hne Hf Hl. unfold process_excel_data. now rewrite Hne, Hf, Hl.
Qed.

(** The loader on a table that lacks a name column. *)
Lemma load_undetected df p :
  df_empty df = false -> lacks_name_columns df = true ->
  process_excel_data (Some df) p
  = ({| form_data := form_data p;
        excel_data := Some df;
        client_list := [];
        filled_pdf_path := filled_pdf_path p |},
     None).
Proof.
  intros Hne Hlack. unfold process_excel_data. rewrite Hne.
  destruct (cols_containing "first" "name" (columns df)) as [[|fc fcs]|] eqn:Hf;
    destruct (cols_containing "last" "name" (columns df)) as [[|lc lcs]|] eqn:Hl;
    try reflexivity.
  apply cols_containing_filter, filter_cons_existsb in Hf.
  apply cols_containing_filter, filter_cons_existsb in Hl.
  unfold lacks_name_columns in Hlack. now rewrite Hf, Hl in Hlack.
Qed.

(** The upload handler, once the file name is let through. *)
Lemma upload_accepted u w :
  has_file u = true -> accepted_name (filename u) = true ->
  upload_file u w
  = let w1 := (create_file Spreadsheet w).2 in
    let pr := process_excel_data (sheet u) (proc w) in
    match pr.2 with
    | None | Some [] =>
        (set_proc pr.1 w1,
         Error 400 "Failed to process Excel file or no clients found")
    | Some roster =>
        (unlink (next_file w) (set_proc pr.1 w1), UploadOk roster (length roster))
    end.
Proof.
  intros Hfile Hname. unfold upload_file, accepted_name in *. rewrite Hfile.
  apply andb_prop in Hname as [Hn He].
  apply negb_true_iff in Hn. rewrite Hn, He. simpl.
  now destruct (process_excel_data (sheet u) (proc w)) as [p' [[|c l]|]].
Qed.

(** The loader returns a roster only for a table that is not empty and has
    both name columns. *)
Lemma load_returns_detected df p roster :
  (process_excel_data (Some df) p).2 = Some roster ->
  df_empty df = false
  /\ exists fc fcs lc lcs,
       cols_containing "first" "name" (columns df) = Some (fc :: fcs)
       /\ cols_containing "last" "name" (columns df) = Some (lc :: lcs).
Proof.
  unfold process_excel_data.
  destruct (df_empty df); [discriminate|].
  destruct (cols_containing "first" "name" (columns df)) as [[|fc fcs]|];
    destruct (cols_containing "last" "name" (columns df)) as [[|lc lcs]|];
    try discriminate.
  intros _. split; [reflexivity|]. now exists fc, fcs, lc, lcs.
Qed.

(** The loader on an empty sheet or an unreadable file. *)
Lemma load_refused sheet p :
  match sheet with Some df => df_empty df = true | None => True end ->
  process_excel_data sheet p = (p, None).
Proof.
  unfold process_excel_data. destruct sheet as [df|]; [|reflexivity].
  now intros ->.
Qed.

(** C3. When the loader detects the name columns of a table, that is
    when it returns a roster, the roster is the one it stores, and it holds
    exactly one Client Entry for each row whose two trimmed name cells are
    non-empty (a missing cell counting as empty), in the order of the rows:
    it is the image of the qualifying rows, its length is their number, its
    row numbers grow, and each entry carries the trimmed names of the row it
    points to. The columns used are the first ones whose header holds the
    words. *)
Theorem roster_of_rows (df : DataFrame) (p : processor) (roster : list client) :
  (process_excel_data (Some df) p).2 = Some roster ->
  exists fc fcs lc lcs,
    List.filter (header_has "first" "name") (columns df) = fc :: fcs
    /\ List.filter (header_has "last" "name") (columns df) = lc :: lcs
    /\ client_list (process_excel_data (Some df) p).1 = roster
    /\ roster
       = List.map (fun ir => entry (columns df) fc lc ir.1 ir.2)
           (List.filter (fun ir => qualifies (columns df) fc lc ir.2)
              (numbered 0 (rows df)))
    /\ length roster = length (List.filter (qualifies (columns df) fc lc) (rows df))
    /\ StronglySorted lt (List.map row_index roster)
    /\ (forall c, In c roster ->
          exists row, nth_error (rows df) (row_index c) = Some row
                      /\ qualifies (columns df) fc lc row = true
                      /\ c = entry (columns df) fc lc (row_index c) row)
    /\ (forall i row, nth_error (rows df) i = Some row ->
          qualifies (columns df) fc lc row = true ->
          In (entry (columns df) fc lc i row) roster).
Proof.
  intros Hret.
  destruct (load_returns_detected df p roster Hret)
    as (Hne & fc & fcs & lc & lcs & Hf & Hl).
  exists fc, fcs, lc, lcs.
  rewrite (load_detected df p fc fcs lc lcs Hne Hf Hl) in *. simpl in *.
  injection Hret as Hret. rewrite iter_clients_numbered in Hret.
  split; [symmetry; now apply cols_containing_filter|].
  split; [symmetry; now apply cols_containing_filter|].
  split; [now rewrite iter_clients_numbered|].
  split; [now symmetry|]. subst roster.
  split; [|split; [|split]].
  - rewrite length_map. apply filter_numbered_length.
  - rewrite List.map_map. simpl.
    apply (filter_sorted (fun ir => qualifies (columns df) fc lc ir.2)).
    apply numbered_sorted.
  - intros c Hc. apply in_map_iff in Hc as ([i row] & <- & Hin).
    apply List.filter_In in Hin as [Hin Hq]. simpl in *.
    apply numbered_bounds in Hin as [_ Hn]. rewrite Nat.sub_0_r in Hn.
    exists row. auto.
  - intros i row Hn Hq.
    apply in_map_iff. exists (i, row). split; [reflexivity|].
    apply List.filter_In. split; [|exact Hq].
    apply (numbered_complete 0 _ _ _ Hn).
Qed.

(** C4, as the code has it. A table that lacks a column whose header holds
    both first and name, or one whose header holds both last and name, is
    refused: the loader returns nothing and the upload is answered with the
    400 error. No partial roster results: the stored roster is empty when
    the table has a row and a column, and is left as it was (with the rest
    of the state) when the table is empty. *)
Theorem no_name_columns_no_roster (df : DataFrame) (p : processor) :
  lacks_name_columns df = true ->
  (process_excel_data (Some df) p).2 = None
  /\ (df_empty df = false ->
      client_list (process_excel_data (Some df) p).1 = []
      /\ excel_data (process_excel_data (Some df) p).1 = Some df)
  /\ (df_empty df = true -> (process_excel_data (Some df) p).1 = p)
  /\ (forall u w,
        has_file u = true -> accepted_name (filename u) = true ->
        sheet u = Some df ->
        (upload_file u w).2
        = Error 400 "Failed to process Excel file or no clients found"
        /\ (client_list (proc (upload_file u w).1) = []
            \/ proc (upload_file u w).1 = proc w)).
Proof.
  intros Hlack.
  assert (Hcases : forall q,
            (df_empty df = false /\
             process_excel_data (Some df) q
             = ({| form_data := form_data q; excel_data := Some df;
                   client_list := []; filled_pdf_path := filled_pdf_path q |},
                None))
            \/ (df_empty df = true /\ process_excel_data (Some df) q = (q, None))).
  { intros q. destruct (df_empty df) eqn:Hne.
    - right. split; [reflexivity|]. apply load_refused. exact Hne.
    - left. split; [reflexivity|]. now apply load_undetected. }
  split; [|split; [|split]].
  - destruct (Hcases p) as [[_ ->]|[_ ->]]; reflexivity.
  - intros Hne. destruct (Hcases p) as [[_ ->]|[Hemp _]]; [auto|congruence].
  - intros Hemp. destruct (Hcases p) as [[Hne _]|[_ ->]]; [congruence|reflexivity].
  - intros u w Hfile Hname Hsheet.
    rewrite (upload_accepted u w Hfile Hname), Hsheet.
    destruct (Hcases (proc w)) as [[_ ->]|[_ ->]]; simpl; auto.
Qed.

(** C9, as the code has it. A failed load is not atomic once the table is
    past the emptiness guard: when the uploaded table has a row and a column
    and lacks its name columns, or has them and no row with both names, the
    upload is answered with the 400 error, and yet the stored roster is now
    empty and the stored table is the new one, whatever was loaded before.
    An empty sheet and an unreadable file are refused before the state is
    touched: roster and table stay as they were. *)
Theorem failed_load_overwrites (u : upload) (w : world) :
  has_file u = true -> accepted_name (filename u) = true ->
  (forall df,
      sheet u = Some df ->
      df_empty df = false ->
      lacks_name_columns df = true \/ yields_no_clients df ->
      (upload_file u w).2
      = Error 400 "Failed to process Excel file or no clients found"
      /\ client_list (proc (upload_file u w).1) = []
      /\ excel_data (proc (upload_file u w).1) = Some df)
  /\ (match sheet u with Some df => df_empty df = true | None => True end ->
      (upload_file u w).2
      = Error 400 "Failed to process Excel file or no clients found"
      /\ proc (upload_file u w).1 = proc w).
Proof.
  intros Hfile Hname. split.
  - intros df Hsheet Hne [Hlack|(fc & fcs & lc & lcs & Hf & Hl & Hnone)];
      rewrite (upload_accepted u w Hfile Hname), Hsheet.
    + rewrite (load_undetected df (proc w) Hne Hlack). simpl. auto.
    + rewrite (load_detected df (proc w) fc fcs lc lcs Hne Hf Hl). simpl.
      assert (Hempty : iter_clients (columns df) fc lc 0 (rows df) = []).
      { apply length_zero_iff_nil.
        rewrite iter_clients_numbered, length_map.
        unfold numbered. rewrite filter_numbered_length. now rewrite Hnone. }
      rewrite Hempty. simpl. auto.
  - intros Hrefused. rewrite (upload_accepted u w Hfile Hname).
    rewrite (load_refused (sheet u) (proc w) Hrefused). simpl.
    split; [reflexivity|]. now destruct (proc w).
Qed.

End Loader.

(** ** Session state and the request handlers *)

Module Session.
Import PyStr PyVal Excel W7 Props Loader.

Lemma iter_clients_in_range cols fc lc rws :
  Forall (fun c => (row_index c < length rws)%nat) (iter_clients cols fc lc 0 rws).
Proof.
  rewrite iter_clients_numbered. apply List.Forall_forall. intros c Hc.
  apply in_map_iff in Hc as ([i row] & <- & Hin).
  apply List.filter_In in Hin as [Hin _].
  apply numbered_bounds in Hin as [Hb _]. simpl. lia.
Qed.

Lemma load_keeps_roster_ok sheet p :
  roster_ok p -> roster_ok (process_excel_data sheet p).1.
Proof.
  intros Hok. unfold process_excel_data.
  destruct sheet as [df|]; [|exact Hok].
  destruct (df_empty df); [exact Hok|].
  destruct (cols_containing "first" "name" (columns df)) as [[|fc fcs]|];
    destruct (cols_containing "last" "name" (columns df)) as [[|lc lcs]|];
    unfold roster_ok; simpl; try constructor.
  apply iter_clients_in_range.
Qed.

Lemma load_keeps_form sheet p :
  form_data (process_excel_data sheet p).1 = form_data p
  /\ filled_pdf_path (process_excel_data sheet p).1 = filled_pdf_path p.
Proof.
  unfold process_excel_data.
  destruct sheet as [df|]; [|auto].
  destruct (df_empty df); [auto|].
  destruct (cols_containing "first" "name" (columns df)) as [[|fc fcs]|];
    destruct (cols_containing "last" "name" (columns df)) as [[|lc lcs]|];
    simpl; auto.
Qed.

Lemma filter_keeps_forall {A : Type} (P : A -> Prop) (f : A -> bool) l :
  Forall P l -> Forall P (List.filter f l).
Proof.
  rewrite !List.Forall_forall. intros HP x Hx.
  apply List.filter_In in Hx as [Hx _]. auto.
Qed.

(** An upload touches the table and the roster only, through the loader, and
    creates no PDF file. *)
Lemma upload_effect u w :
  (proc (upload_file u w).1 = proc w
   \/ proc (upload_file u w).1 = (process_excel_data (sheet u) (proc w)).1)
  /\ (Forall (fun f => f.2 = Spreadsheet) (files w) ->
      Forall (fun f => f.2 = Spreadsheet) (files (upload_file u w).1)).
Proof.
  unfold upload_file.
  destruct (negb (has_file u)); [auto|].
  destruct (String.eqb (filename u) ""); [auto|].
  destruct (negb (endswith ".xlsx" (filename u) || endswith ".xls" (filename u)));
    [auto|].
  simpl.
  destruct (process_excel_data (sheet u) (proc w)) as [p' [[|c l]|]]; simpl;
    (split; [now right|]); intros Hf.
  - constructor; auto.
  - rewrite Nat.eqb_refl. simpl. now apply filter_keeps_forall.
  - constructor; auto.
Qed.

Section Handlers.
Context `{PyBuiltins}.

(** Processing a client touches the mapped data only, and stores nothing but
    a value that counts as true. *)
Lemma process_client_effect body reply w :
  (process_client body reply w).1 = w
  \/ exists v, truthy v = true
       /\ (process_client body reply w).1
          = set_proc {| form_data := v;
                        excel_data := excel_data (proc w);
                        client_list := client_list (proc w);
                        filled_pdf_path := filled_pdf_path (proc w) |} w.
Proof.
  unfold process_client.
  destruct (negb (truthy body)); [now left|].
  destruct (get_stripped "first_name" body) as [first|]; [|now left].
  destruct (get_stripped "last_name" body) as [last|]; [|now left].
  destruct (negb (nonempty first) || negb (nonempty last)); [now left|].
  destruct (get_client_data (proc w) first last) as [[|kv l]|]; [now left| |now left].
  destruct (truthy (call_openai_api reply)) eqn:Ht; simpl; [|now left].
  right. eauto.
Qed.

(** Filling the form touches the output path and the files only. *)
Lemma fill_w7_pdf_effect env data w :
  form_data (proc (fill_w7_pdf env data w).1) = form_data (proc w)
  /\ excel_data (proc (fill_w7_pdf env data w).1) = excel_data (proc w)
  /\ client_list (proc (fill_w7_pdf env data w).1) = client_list (proc w).
Proof.
  unfold fill_w7_pdf.
  destruct (negb (template_exists env)); [auto|].
  destruct (transform_data_to_pdf_format field_mapping data) as [pdf_data|];
    [|auto].
  simpl. destruct (template env) as [pages|]; [|auto].
  destruct (fill_fields pdf_data pages) as [written [|]]; [|auto].
  destruct (save_ok env); simpl; auto.
Qed.

Lemma generate_pdf_effect env w :
  (generate_pdf env w).1 = w
  \/ (truthy (form_data (proc w)) = true
      /\ form_data (proc (generate_pdf env w).1) = form_data (proc w)
      /\ excel_data (proc (generate_pdf env w).1) = excel_data (proc w)
      /\ client_list (proc (generate_pdf env w).1) = client_list (proc w)).
Proof.
  unfold generate_pdf.
  destruct (truthy (form_data (proc w))) eqn:Ht; simpl; [|now left].
  right. split; [reflexivity|].
  pose proof (fill_w7_pdf_effect env (form_data (proc w)) w) as Heff.
  now destruct (fill_w7_pdf env (form_data (proc w)) w) as [w1 [path|]].
Qed.

Lemma download_pdf_effect w : (download_pdf w).1 = w.
Proof.
  unfold download_pdf. destruct (filled_pdf_path (proc w)) as [path|]; [|reflexivity].
  now destruct (file_exists path w).
Qed.

(** What holds of the process after any sequence of requests. *)
Lemma reachable_invariant w :
  reachable w -> processed_or_fresh w /\ roster_ok (proc w).
Proof.
  induction 1 as [|r w Hr [Hpf Hok]].
  - split; [|reflexivity]. left. repeat split. constructor.
  - destruct r as [u|body reply|env|]; simpl.
    + destruct (upload_effect u w) as [Hproc Hfiles].
      pose proof (load_keeps_form (sheet u) (proc w)) as [Hform Hpath].
      pose proof (load_keeps_roster_ok (sheet u) (proc w) Hok) as Hok'.
      unfold processed_or_fresh, fresh in *.
      destruct Hproc as [Hproc|Hproc]; rewrite Hproc.
      * split; [|exact Hok].
        destruct Hpf as [(Hf & Hp & Hfs)|Ht]; [left; auto|now right].
      * rewrite Hform, Hpath. split; [|exact Hok'].
        destruct Hpf as [(Hf & Hp & Hfs)|Ht]; [left; auto|now right].
    + destruct (process_client_effect body reply w) as [-> |(v & Hv & ->)];
        [now split|].
      split; [now right|exact Hok].
    + destruct (generate_pdf_effect env w) as [-> |(Ht & Hf & He & Hc)];
        [now split|].
      split; [right; congruence|].
      unfold roster_ok in *. now rewrite He, Hc.
    + rewrite download_pdf_effect. now split.
Qed.

Lemma run_reachable requests w : reachable w -> reachable (run requests w).
Proof.
  revert w. induction requests as [|r rest IH]; intros w Hw; [exact Hw|].
  simpl. apply IH. now apply reach_step.
Qed.

(** A request that does not end in a processed client leaves the mapped
    data as it was. *)
Lemma unprocessed_keeps_form r w :
  is_process_ok (handle r w).2 = false ->
  form_data (proc (handle r w).1) = form_data (proc w).
Proof.
  destruct r as [u|body reply|env|]; simpl.
  - intros _. destruct (upload_effect u w) as [[-> | ->] _]; [reflexivity|].
    apply load_keeps_form.
  - unfold process_client.
    destruct (negb (truthy body)); [reflexivity|].
    destruct (get_stripped "first_name" body) as [first|]; [|reflexivity].
    destruct (get_stripped "last_name" body) as [last|]; [|reflexivity].
    destruct (negb (nonempty first) || negb (nonempty last)); [reflexivity|].
    destruct (get_client_data (proc w) first last) as [[|kv l]|];
      [reflexivity| |reflexivity].
    destruct (negb (truthy (call_openai_api reply))); [reflexivity|discriminate].
  - intros _. destruct (generate_pdf_effect env w) as [-> |(_ & -> & _)];
      reflexivity.
  - intros _. now rewrite download_pdf_effect.
Qed.

Lemma none_processed_keeps_form requests w :
  none_processed requests w = true ->
  form_data (proc (run requests w)) = form_data (proc w).
Proof.
  revert w. induction requests as [|r rest IH]; intros w; [reflexivity|].
  simpl. intros Hnone. apply andb_prop in Hnone as [Hr Hrest].
  apply negb_true_iff in Hr.
  rewrite (IH _ Hrest). now apply unprocessed_keeps_form.
Qed.

(** C7. While no client has been processed, the stored mapped data counts
    as false: it is the empty dict of startup. Then generate-pdf answers with
    the 400 error and leaves the process as it was: no file is created, the
    output path stays unset, no PDF file exists, and there is nothing to
    download. *)
Theorem generate_before_processing (env : pdf_env) (w : world) :
  reachable w ->
  (truthy (form_data (proc w)) = false ->
   generate_pdf env w
   = (w, Error 400 "No form data available. Please process a client first.")
   /\ form_data (proc w) = PyDict []
   /\ filled_pdf_path (proc w) = None
   /\ Forall (fun f => f.2 = Spreadsheet) (files w)
   /\ download_pdf w
      = (w, Error 400 "No PDF available. Please generate PDF first."))
  /\ (forall requests,
        w = run requests init_world ->
        none_processed requests init_world = true ->
        truthy (form_data (proc w)) = false).
Proof.
  intros Hr. split.
  - intros Hfalse.
    destruct (reachable_invariant w Hr) as [[(Hform & Hpath & Hfiles)|Ht] _];
      [|congruence].
    split; [|split; [|split; [|split]]]; auto.
    + unfold generate_pdf. now rewrite Hfalse.
    + unfold download_pdf. now rewrite Hpath.
  - intros requests -> Hnone.
    now rewrite (none_processed_keeps_form requests init_world Hnone).
Qed.

Lemma find_first {A : Type} (f : A -> bool) l c :
  List.find f l = Some c ->
  exists before after,
    l = (before ++ c :: after)%list
    /\ Forall (fun x => f x = false) before /\ f c = true.
Proof.
  induction l as [|x l IH]; [discriminate|]. simpl.
  destruct (f x) eqn:Hx.
  - intros [= <-]. exists [], l. auto.
  - intros Hfind. destruct (IH Hfind) as (before & after & -> & Hb & Hc).
    exists (x :: before), after. auto.
Qed.

Lemma find_nowhere {A : Type} (f : A -> bool) l :
  List.find f l = None -> Forall (fun x => f x = false) l.
Proof.
  induction l as [|x l IH]; [constructor|]. simpl.
  destruct (f x) eqn:Hx; [discriminate|]. auto.
Qed.

(** C8. After any sequence of requests, looking up a client by first and
    last name compares lower-cased names, takes the first roster entry that
    matches (every entry before it does not), and returns the cleaned row of
    the stored table that this entry points to. When no entry matches, the
    lookup returns nothing and process-client answers 404. *)
Theorem client_lookup_first_match (w : world) (first last : string) :
  reachable w ->
  (forall c, names_match first last c = true
             <-> lower (first_name c) = lower first
                 /\ lower (last_name c) = lower last)
  /\ (forall c,
        List.find (names_match first last) (client_list (proc w)) = Some c ->
        (exists before after,
            client_list (proc w) = (before ++ c :: after)%list
            /\ Forall (fun c' => names_match first last c' = false) before
            /\ names_match first last c = true)
        /\ exists df row,
             excel_data (proc w) = Some df
             /\ nth_error (rows df) (row_index c) = Some row
             /\ get_client_data (proc w) first last
                = Some (clean_items (combine (columns df) row) []))
  /\ (List.find (names_match first last) (client_list (proc w)) = None ->
        Forall (fun c' => names_match first last c' = false) (client_list (proc w))
        /\ get_client_data (proc w) first last = None
        /\ forall body reply,
             truthy body = true ->
             get_stripped "first_name" body = Some first ->
             get_stripped "last_name" body = Some last ->
             first <> "" -> last <> "" ->
             process_client body reply w
             = (w, Error 404 ("Client " +:+ String "034" (first +:+ " " +:+ last)
                              +:+ String "034" " not found"))).
Proof.
  intros Hr. destruct (reachable_invariant w Hr) as [_ Hok].
  split; [|split].
  - intros c. unfold names_match. rewrite andb_true_iff, !String.eqb_eq. tauto.
  - intros c Hfind. split; [now apply find_first|].
    unfold roster_ok, get_client_data in *.
    destruct (excel_data (proc w)) as [df|] eqn:Hdf.
    + rewrite Hfind.
      apply find_some in Hfind as [Hin _].
      rewrite List.Forall_forall in Hok. apply Hok in Hin.
      destruct (nth_error (rows df) (row_index c)) as [row|] eqn:Hrow.
      * exists df, row. auto.
      * apply nth_error_None in Hrow. lia.
    + rewrite Hok in Hfind. discriminate.
  - intros Hnone. split; [now apply find_nowhere|].
    assert (Hget : get_client_data (proc w) first last = None).
    { unfold get_client_data.
      destruct (excel_data (proc w)); [|reflexivity]. now rewrite Hnone. }
    split; [exact Hget|].
    intros body reply Hbody Hf Hl Hfne Hlne. unfold process_client.
    rewrite Hbody, Hf, Hl, Hget. simpl.
    unfold nonempty.
    destruct (String.eqb_spec first ""); [contradiction|].
    destruct (String.eqb_spec last ""); [contradiction|]. reflexivity.
Qed.

Lemma truthy_false_iff v : truthy v = false <-> falsy_value v.
Proof.
  unfold falsy_value. split.
  - destruct v as [|b|z|f|s|l|d]; simpl; intros Hv.
    + now left.
    + subst. right. now left.
    + apply negb_false_iff, Z.eqb_eq in Hv. subst. right. right. now left.
    + apply negb_false_iff in Hv. right. right. right. left. eauto.
    + apply negb_false_iff, String.eqb_eq in Hv. subst. do 4 right. now left.
    + destruct l; [|discriminate]. do 5 right. now left.
    + destruct d; [|discriminate]. do 6 right. reflexivity.
  - intros [->|[->|[->|[(f & -> & Hf)|[->|[->| ->]]]]]]; simpl; try reflexivity.
    now rewrite Hf.
Qed.

(** C10. A checkbox is written with the truth value of the mapped value,
    not with a parse of it: every non-empty string checks the box, the
    string false among them, and the box stays unchecked exactly for the
    values that count as false (None, False, zero, the empty string, the
    empty list and the empty dict). *)
Theorem checkbox_truthiness (field_data : gmap string pyvalue) (field : widget)
  (value : pyvalue) :
  field_data !! field_name field = Some value ->
  field_type field = WidgetCheckbox ->
  update_ok field = true ->
  fill_widget field_data field = Some (field_name field, CheckValue (truthy value))
  /\ (forall page pages,
        In field page -> In page pages ->
        In (field_name field, CheckValue (truthy value))
          (fill_fields field_data pages).1
        /\ (fill_fields field_data pages).2 = true)
  /\ (forall s, truthy (PyStr s) = true <-> s <> "")
  /\ truthy (PyStr "false") = true
  /\ (truthy value = false <-> falsy_value value).
Proof.
  intros Hval Htype Hupd.
  assert (Hw : fill_widget field_data field
               = Some (field_name field, CheckValue (truthy value))).
  { unfold fill_widget. now rewrite Hval, Htype, Hupd. }
  split; [exact Hw|]. split; [|split; [|split]].
  - intros page pages Hfield Hpage.
    assert (Hin : In (field_name field, CheckValue (truthy value))
                    (fill_pages field_data pages)).
    { unfold fill_pages. apply list_elem_of_In, list_elem_of_omap.
      exists field. split; [|exact Hw].
      apply list_elem_of_In, in_concat. eauto. }
    unfold fill_fields. destruct pages as [|pg pages]; [destruct Hpage|].
    simpl. split; [exact Hin|].
    destruct (fill_pages field_data (pg :: pages)); [destruct Hin|reflexivity].
  - intros s. simpl. rewrite negb_true_iff.
    destruct (String.eqb_spec s ""); split; congruence.
  - reflexivity.
  - apply truthy_false_iff.
Qed.

End Handlers.

End Session.

(** ** A session, step by step *)

Module Scenario.
Import PyStr PyVal Excel W7 Props Samples Loader Session Json.

Lemma loaded_reachable : reachable loaded.
Proof. apply reach_step, reach_init. Qed.

Lemma roster_of_rows_witness :
  let roster := client_list (process_excel_data (Some clients_sheet) init_processor).1 in
  length roster = 2%nat
  /\ List.map row_index roster = [0%nat; 2%nat]
  /\ List.map full_name roster = ["Jane Doe"; "jane DOE"]
  /\ StronglySorted lt (List.map row_index roster).
Proof.
  destruct (roster_of_rows clients_sheet init_processor _ eq_refl)
    as (fc & fcs & lc & lcs & _ & _ & Hstored & _ & _ & Hsorted & _).
  rewrite Hstored. repeat split; try reflexivity. exact Hsorted.
Defined.

Lemma no_name_columns_no_roster_witness :
  (process_excel_data (Some other_sheet) (proc loaded)).2 = None
  /\ client_list (process_excel_data (Some other_sheet) (proc loaded)).1 = [].
Proof.
  destruct (no_name_columns_no_roster other_sheet (proc loaded) eq_refl)
    as (Hret & Hroster & _).
  split; [exact Hret|]. now destruct (Hroster eq_refl).
Defined.

(** C4 as stated fails: a sheet of headers alone, without name columns, is
    refused by the emptiness guard, and the roster loaded before stays. *)
Lemma headers_only_keeps_roster :
  lacks_name_columns headers_only_sheet = true
  /\ (upload_file (upload_of headers_only_sheet) loaded).2
     = Error 400 "Failed to process Excel file or no clients found"
  /\ List.map full_name
       (client_list (proc (upload_file (upload_of headers_only_sheet) loaded).1))
     = ["Jane Doe"; "jane DOE"].
Proof. repeat split; reflexivity. Qed.

Lemma failed_load_overwrites_witness :
  length (client_list (proc loaded)) = 2%nat
  /\ client_list (proc (upload_file (upload_of other_sheet) loaded).1) = []
  /\ excel_data (proc (upload_file (upload_of other_sheet) loaded).1)
     = Some other_sheet
  /\ client_list (proc (upload_file (upload_of nameless_sheet) loaded).1) = []
  /\ excel_data (proc (upload_file (upload_of nameless_sheet) loaded).1)
     = Some nameless_sheet
  /\ proc (upload_file (upload_of named_headers_sheet) loaded).1 = proc loaded.
Proof.
  split; [reflexivity|].
  destruct (failed_load_overwrites (upload_of other_sheet) loaded eq_refl eq_refl)
    as (Hover & _).
  destruct (Hover other_sheet eq_refl eq_refl (or_introl eq_refl))
    as (_ & Hroster & Htable).
  assert (Hnone : yields_no_clients nameless_sheet).
  { exists (LStr "first_name"), [], (LStr "last_name"), []. repeat split. }
  destruct (failed_load_overwrites (upload_of nameless_sheet) loaded eq_refl eq_refl)
    as (Hover' & _).
  destruct (Hover' nameless_sheet eq_refl eq_refl (or_intror Hnone))
    as (_ & Hroster' & Htable').
  destruct (failed_load_overwrites (upload_of named_headers_sheet) loaded
              eq_refl eq_refl) as (_ & Hkeep).
  destruct (Hkeep eq_refl) as (_ & Hsame).
  auto 10.
Defined.

(** C9 as stated fails: a sheet that has the name columns and no row yields
    no clients, its upload fails, and the roster loaded before survives. *)
Lemma empty_table_keeps_roster :
  yields_no_clients named_headers_sheet
  /\ (upload_file (upload_of named_headers_sheet) loaded).2
     = Error 400 "Failed to process Excel file or no clients found"
  /\ List.map full_name
       (client_list (proc (upload_file (upload_of named_headers_sheet) loaded).1))
     = ["Jane Doe"; "jane DOE"]
  /\ excel_data (proc (upload_file (upload_of named_headers_sheet) loaded).1)
     = Some clients_sheet.
Proof.
  split; [|repeat split; reflexivity].
  exists (LStr "First Name"), [], (LStr "Last Name"), []. repeat split.
Qed.

Lemma generate_before_processing_witness :
  generate_pdf form_env loaded
  = (loaded, Error 400 "No form data available. Please process a client first.")
  /\ filled_pdf_path (proc loaded) = None
  /\ files loaded = []
  /\ truthy (form_data (proc (run [Upload (upload_of clients_sheet);
                                   GeneratePdf form_env; DownloadPdf]
                                init_world))) = false.
Proof.
  destruct (generate_before_processing form_env loaded loaded_reachable)
    as (Hgen & _).
  destruct (Hgen eq_refl) as (Hgen' & _ & Hpath & _).
  destruct (generate_before_processing form_env
              (run [Upload (upload_of clients_sheet); GeneratePdf form_env;
                    DownloadPdf] init_world)
              (run_reachable _ _ reach_init)) as (_ & Htrace).
  split; [exact Hgen'|]. split; [exact Hpath|]. split; [reflexivity|].
  apply (Htrace _ eq_refl). reflexivity.
Defined.

Lemma client_lookup_first_match_witness :
  get_client_data (proc loaded) "JANE" "doe"
  = Some [("first_name", " Jane "); ("last_name", "Doe"); ("itin", "900-70-1234")]
  /\ get_client_data (proc loaded) "Bob" "Doe" = None.
Proof.
  split.
  - destruct (client_lookup_first_match loaded "JANE" "doe" loaded_reachable)
      as (_ & Hfound & _).
    destruct (Hfound {| first_name := "Jane"; last_name := "Doe";
                        full_name := "Jane Doe"; row_index := 0 |} eq_refl)
      as (_ & df & row & Hdf & Hrow & ->).
    injection Hdf as <-. injection Hrow as <-. reflexivity.
  - destruct (client_lookup_first_match loaded "Bob" "Doe" loaded_reachable)
      as (_ & _ & Hnone).
    now destruct (Hnone eq_refl) as (_ & Hget & _).
Defined.

Lemma checkbox_truthiness_witness :
  fill_widget {[ "topmostSubform[0].Page1[0].c1_10[1]" := PyStr "false" ]} gender_box
  = Some ("topmostSubform[0].Page1[0].c1_10[1]", CheckValue true).
Proof.
  destruct (checkbox_truthiness
              {[ "topmostSubform[0].Page1[0].c1_10[1]" := PyStr "false" ]}
              gender_box (PyStr "false")
              (lookup_singleton_eq _ _) eq_refl eq_refl) as (Hw & _).
  exact Hw.
Defined.

(** The replies that are no JSON object, as they come back from the
    client: an array, a string, a boolean; [null] is Python's [None]. *)
Example non_object_kinds :
  call_openai_api (Some "[1, 2]") = PyList [PyInt 1; PyInt 2]
  /\ call_openai_api (Some (dq "'ok'")) = PyStr "ok"
  /\ call_openai_api (Some "true") = PyBool true
  /\ call_openai_api (Some "null") = PyNone.
Proof. repeat split; reflexivity. Qed.

(** Such a reply is stored as the mapped data of the client; generate-pdf
    then fails on it, creating no file. *)
Example non_object_processed :
  let w := (process_client jane_request (Some "42") loaded).1 in
  (process_client jane_request (Some "42") loaded).2
  = ProcessOk "jane Doe"
      [("first_name", " Jane "); ("last_name", "Doe"); ("itin", "900-70-1234")]
      (PyInt 42)
  /\ form_data (proc w) = PyInt 42
  /\ generate_pdf w7_env w = (w, Error 500 "Failed to generate PDF").
Proof. repeat split; reflexivity. Qed.

(** Upload, process, generate, download. *)
Example session_end_to_end :
  let w1 := (process_client jane_request (Some jane_reply) loaded).1 in
  let w2 := (generate_pdf w7_env w1).1 in
  (generate_pdf w7_env w1).2 = GenerateOk
  /\ filled_pdf_path (proc w2) = Some 1%nat
  /\ download_pdf w2
     = (w2, DownloadOk 1
              (Some (FilledPdf
                 [("topmostSubform[0].Page1[0].f1_07[0]", TextValue "Jane");
                  ("topmostSubform[0].Page1[0].c1_12[1]", CheckValue true);
                  ("topmostSubform[0].Page1[0].c1_10[1]", CheckValue true);
                  ("topmostSubform[0].Page1[0].Line4_ReadOrder[0].f1_17[0]",
                   TextValue "03151985")]))).
Proof. repeat split; vm_compute; reflexivity. Qed.

End Scenario.

(** * Further properties of the program *)

(** ** What every reachable state satisfies *)

Module SessionFacts.
Import PyStr PyStrFacts PyVal Excel W7 Props Loader Session.

Lemma filter_all {A : Type} (f : A -> bool) l :
  Forall (fun x => f x = true) l -> List.filter f l = l.
Proof.
  induction 1 as [|x l Hx _ IH]; [reflexivity|]. simpl. now rewrite Hx, IH.
Qed.

(** Removing a number that no file carries removes nothing. *)
Lemma filter_fresh (fs : list (nat * tmp_content)) n :
  Forall (fun f => (f.1 < n)%nat) fs ->
  List.filter (fun f => negb (f.1 =? n)%nat) fs = fs.
Proof.
  intros Hb. apply filter_all. eapply Forall_impl; [exact Hb|].
  intros f Hf. simpl in *. apply negb_true_iff, Nat.eqb_neq. lia.
Qed.

Lemma bound_not_in (fs : list (nat * tmp_content)) n :
  Forall (fun f => (f.1 < n)%nat) fs -> n ∉ fs.*1.
Proof.
  intros Hb Hin. apply list_elem_of_fmap in Hin as (f & -> & Hin).
  rewrite Forall_forall in Hb. apply Hb in Hin. lia.
Qed.

Lemma bound_weaken (fs : list (nat * tmp_content)) n :
  Forall (fun f => (f.1 < n)%nat) fs -> Forall (fun f => (f.1 < S n)%nat) fs.
Proof.
  intros Hb. eapply Forall_impl; [exact Hb|]. intros f Hf. simpl in *. lia.
Qed.

Lemma files_ok_fresh w : files_ok w -> file_exists (next_file w) w = false.
Proof.
  intros (Hb & _ & _). unfold file_exists.
  apply not_true_is_false. intros Hex. apply existsb_exists in Hex as (f & Hin & Hf).
  apply Nat.eqb_eq in Hf. rewrite List.Forall_forall in Hb. apply Hb in Hin. lia.
Qed.

(** The loader answers with the roster of the table, or stores none. *)
Lemma load_roster_of df p :
  df_empty df = false ->
  match (process_excel_data (Some df) p).2 with
  | Some roster =>
      roster = roster_of df
      /\ (process_excel_data (Some df) p).1
         = {| form_data := form_data p; excel_data := Some df;
              client_list := roster; filled_pdf_path := filled_pdf_path p |}
  | None =>
      (process_excel_data (Some df) p).1
      = {| form_data := form_data p; excel_data := Some df;
           client_list := []; filled_pdf_path := filled_pdf_path p |}
  end.
Proof.
  intros Hne. unfold process_excel_data, roster_of. rewrite Hne.
  destruct (cols_containing "first" "name" (columns df)) as [fcs|] eqn:Hf;
    [|reflexivity].
  destruct (cols_containing "last" "name" (columns df)) as [lcs|] eqn:Hl;
    [|reflexivity].
  apply cols_containing_filter in Hf, Hl. rewrite <- Hf, <- Hl.
  destruct fcs as [|fc fcs]; [reflexivity|].
  destruct lcs as [|lc lcs]; [reflexivity|].
  simpl. auto.
Qed.

Lemma load_keeps_roster_of_table sheet p :
  roster_of_table p -> roster_of_table (process_excel_data sheet p).1.
Proof.
  intros Hok. destruct sheet as [df|]; [|exact Hok].
  destruct (df_empty df) eqn:Hne.
  { now rewrite (load_refused (Some df) p Hne). }
  pose proof (load_roster_of df p Hne) as Hload.
  destruct (process_excel_data (Some df) p) as [p' [roster|]]; simpl in *.
  - destruct Hload as [-> ->]. unfold roster_of_table. simpl. auto.
  - rewrite Hload. unfold roster_of_table. simpl. auto.
Qed.

(** What an accepted upload does to the files. *)
Lemma upload_files u w :
  files (upload_file u w).1 = files w /\ next_file (upload_file u w).1 = next_file w
  \/ next_file (upload_file u w).1 = S (next_file w)
     /\ (files (upload_file u w).1 = (next_file w, Spreadsheet) :: files w
         \/ files (upload_file u w).1
            = List.filter (fun f => negb (f.1 =? next_file w)%nat) (files w)).
Proof.
  unfold upload_file.
  destruct (negb (has_file u)); [now left|].
  destruct (String.eqb (filename u) ""); [now left|].
  destruct (negb (endswith ".xlsx" (filename u) || endswith ".xls" (filename u)));
    [now left|].
  right. simpl.
  destruct (process_excel_data (sheet u) (proc w)) as [p' [[|c l]|]]; simpl;
    (split; [reflexivity|]); auto.
  right. now rewrite Nat.eqb_refl.
Qed.

Lemma upload_keeps_files_ok u w : files_ok w -> files_ok (upload_file u w).1.
Proof.
  intros (Hb & Hnd & Hpath).
  assert (Hproc : filled_pdf_path (proc (upload_file u w).1) = filled_pdf_path (proc w)).
  { destruct (upload_effect u w) as [[-> | ->] _]; [reflexivity|].
    apply load_keeps_form. }
  unfold files_ok. rewrite Hproc.
  destruct (upload_files u w) as [[-> ->]|[-> [-> | ->]]].
  - auto.
  - split; [|split].
    + constructor; [simpl; lia|now apply bound_weaken].
    + simpl. apply NoDup_cons. split; [now apply bound_not_in|exact Hnd].
    + destruct (filled_pdf_path (proc w)) as [path|]; [|exact I].
      destruct Hpath as (written & Hne & Hin). exists written. split; [exact Hne|].
      now right.
  - rewrite filter_fresh by exact Hb. split; [|split]; auto.
    now apply bound_weaken.
Qed.

Section Handlers.
Context `{PyBuiltins}.

Lemma process_client_files body reply w :
  files (process_client body reply w).1 = files w
  /\ next_file (process_client body reply w).1 = next_file w
  /\ filled_pdf_path (proc (process_client body reply w).1) = filled_pdf_path (proc w)
  /\ excel_data (proc (process_client body reply w).1) = excel_data (proc w)
  /\ client_list (proc (process_client body reply w).1) = client_list (proc w).
Proof.
  destruct (process_client_effect body reply w) as [-> |(v & _ & ->)]; auto.
Qed.

(** The outcomes of [fill_w7_pdf]: nothing happens; an empty file is left
    behind; or the filled form is written to a new file, whose number is
    recorded. *)
Lemma fill_w7_pdf_cases env data w :
  fill_w7_pdf env data w = (w, None)
  \/ (template_exists env = true /\ is_dict data = true
      /\ fill_w7_pdf env data w = ((create_file EmptyPdf w).2, None))
  \/ exists items pages written,
       data = PyDict items
       /\ template_exists env = true
       /\ template env = Some pages
       /\ save_ok env = true
       /\ written = fill_pages (transform_items field_mapping items ∅) pages
       /\ written <> []
       /\ fill_w7_pdf env data w
          = ({| proc := {| form_data := form_data (proc w);
                           excel_data := excel_data (proc w);
                           client_list := client_list (proc w);
                           filled_pdf_path := Some (next_file w) |};
                files := (next_file w, FilledPdf written)
                         :: List.filter (fun f => negb (f.1 =? next_file w)%nat)
                              (files w);
                next_file := S (next_file w) |},
             Some (next_file w)).
Proof.
  unfold fill_w7_pdf.
  destruct (template_exists env); [|now left]. simpl negb. cbv iota.
  destruct data as [| | | | | |items]; try now left.
  simpl transform_data_to_pdf_format. cbv iota.
  destruct (template env) as [pages|] eqn:Hpages; [|right; left; auto].
  change (create_file EmptyPdf w)
    with (next_file w,
          {| proc := proc w; files := (next_file w, EmptyPdf) :: files w;
             next_file := S (next_file w) |}).
  cbv iota beta.
  unfold fill_fields.
  destruct pages as [|pg pages]; [right; left; auto|].
  set (written := fill_pages (transform_items field_mapping items ∅) (pg :: pages)).
  cbv iota beta.
  destruct written as [|x written'] eqn:Hw; simpl Nat.ltb; cbv iota;
    [right; left; auto|].
  destruct (save_ok env) eqn:Hsave; [|right; left; auto].
  right. right. exists items, (pg :: pages), (x :: written').
  repeat split; try easy.
  unfold write_file, set_proc. simpl. now rewrite Nat.eqb_refl.
Qed.

Lemma generate_pdf_cases env w :
  generate_pdf env w = (w, Error 400 "No form data available. Please process a client first.")
     /\ truthy (form_data (proc w)) = false
  \/ truthy (form_data (proc w)) = true
     /\ generate_pdf env w
        = ((fill_w7_pdf env (form_data (proc w)) w).1,
           match (fill_w7_pdf env (form_data (proc w)) w).2 with
           | None => Error 500 "Failed to generate PDF"
           | Some _ => GenerateOk
           end).
Proof.
  unfold generate_pdf. destruct (truthy (form_data (proc w))); simpl; [right|now left].
  split; [reflexivity|].
  now destruct (fill_w7_pdf env (form_data (proc w)) w) as [w1 [path|]].
Qed.

Lemma in_filter_other (fs : list (nat * tmp_content)) n path c :
  path <> n -> In (path, c) fs ->
  In (path, c) (List.filter (fun f => negb (f.1 =? n)%nat) fs).
Proof.
  intros Hne Hin. apply List.filter_In. split; [exact Hin|].
  simpl. now apply negb_true_iff, Nat.eqb_neq.
Qed.

Lemma fill_w7_pdf_keeps_files_ok env data w :
  files_ok w -> files_ok (fill_w7_pdf env data w).1.
Proof.
  intros Hok. pose proof Hok as (Hb & Hnd & Hpath).
  destruct (fill_w7_pdf_cases env data w)
    as [-> |[(_ & _ & ->)|(items & pages & written & _ & _ & _ & _ & _ & Hne & ->)]].
  - exact Hok.
  - unfold files_ok. simpl. split; [|split].
    + constructor; [simpl; lia|now apply bound_weaken].
    + apply NoDup_cons. split; [now apply bound_not_in|exact Hnd].
    + destruct (filled_pdf_path (proc w)) as [path|]; [|exact I].
      destruct Hpath as (wr & Hwr & Hin). exists wr. split; [exact Hwr|]. now right.
  - unfold files_ok. simpl. rewrite filter_fresh by exact Hb. split; [|split].
    + constructor; [simpl; lia|now apply bound_weaken].
    + apply NoDup_cons. split; [now apply bound_not_in|exact Hnd].
    + exists written. split; [exact Hne|]. now left.
Qed.

Lemma generate_pdf_keeps_files_ok env w :
  files_ok w -> files_ok (generate_pdf env w).1.
Proof.
  intros Hok. destruct (generate_pdf_cases env w) as [[-> _]|[_ ->]]; [exact Hok|].
  now apply fill_w7_pdf_keeps_files_ok.
Qed.

Lemma handle_keeps_files_ok r w : files_ok w -> files_ok (handle r w).1.
Proof.
  intros Hok. destruct r as [u|body reply|env|]; simpl.
  - now apply upload_keeps_files_ok.
  - destruct (process_client_files body reply w) as (Hf & Hn & Hp & _).
    destruct Hok as (Hb & Hnd & Hpath). unfold files_ok. now rewrite Hf, Hn, Hp.
  - now apply generate_pdf_keeps_files_ok.
  - now rewrite download_pdf_effect.
Qed.

Lemma reachable_files_ok w : reachable w -> files_ok w.
Proof.
  induction 1 as [|r w _ IH].
  - repeat split; constructor.
  - now apply handle_keeps_files_ok.
Qed.

Lemma handle_keeps_roster_of_table r w :
  roster_of_table (proc w) -> roster_of_table (proc (handle r w).1).
Proof.
  intros Hok. destruct r as [u|body reply|env|]; simpl.
  - destruct (upload_effect u w) as [[-> | ->] _]; [exact Hok|].
    now apply load_keeps_roster_of_table.
  - destruct (process_client_files body reply w) as (_ & _ & _ & He & Hc).
    unfold roster_of_table. now rewrite He, Hc.
  - destruct (generate_pdf_effect env w) as [-> |(_ & _ & He & Hc)]; [exact Hok|].
    unfold roster_of_table. now rewrite He, Hc.
  - now rewrite download_pdf_effect.
Qed.

Lemma reachable_roster_of_table w : reachable w -> roster_of_table (proc w).
Proof.
  induction 1 as [|r w _ IH]; [reflexivity|].
  now apply handle_keeps_roster_of_table.
Qed.

End Handlers.

End SessionFacts.

(** ** The upload handler *)

Module Intake.
Import PyStr PyStrFacts PyVal Excel W7 Props Loader Session SessionFacts.

Lemma prefix_exists p s : String.prefix p s = true <-> exists r, s = p +:+ r.
Proof.
  split.
  - intros Hp. exists (drop (String.length p) s).
    now apply ExtractFacts.prefix_split.
  - intros [r ->]. apply prefix_app.
Qed.

Lemma rev_app_acc s acc : String.rev_app s acc = String.rev s +:+ acc.
Proof.
  unfold String.rev. revert acc. induction s as [|c s IH]; intros acc.
  - reflexivity.
  - change (String.rev_app (String c s) acc) with (String.rev_app s (String c acc)).
    change (String.rev_app (String c s) "") with (String.rev_app s (String c "")).
    now rewrite (IH (String c acc)), (IH (String c "")), app_assoc.
Qed.

Lemma rev_cons c s : String.rev (String c s) = String.rev s +:+ String c "".
Proof. unfold String.rev at 1. apply (rev_app_acc s (String c "")). Qed.

Lemma rev_app s t : String.rev (s +:+ t) = String.rev t +:+ String.rev s.
Proof.
  induction s as [|c s IH].
  - now rewrite app_empty_l, app_empty_r.
  - now rewrite app_cons, !rev_cons, IH, app_assoc.
Qed.

Lemma rev_involutive s : String.rev (String.rev s) = s.
Proof.
  induction s as [|c s IH]; [reflexivity|]. now rewrite rev_cons, rev_app, IH.
Qed.

(** [endswith] holds of the texts that are a stem followed by the suffix. *)
Lemma endswith_app suffix s :
  endswith suffix s = true <-> exists stem, s = stem +:+ suffix.
Proof.
  unfold endswith. rewrite prefix_exists. split.
  - intros [r Hr]. exists (String.rev r).
    now rewrite <- (rev_involutive s), Hr, rev_app, rev_involutive.
  - intros [stem ->]. exists (String.rev stem). apply rev_app.
Qed.

Lemma app_not_empty stem c suffix : stem +:+ String c suffix <> "".
Proof. now destruct stem. Qed.

(** X1. The upload handler passes a request on to the loader exactly when
    it carries a file part whose name is a stem followed by .xlsx or .xls,
    in these very letters. Every other request is answered 400 and leaves
    the process as it was; a request passed on takes a new temporary
    file number. *)
Theorem upload_name_gate (u : upload) (w : world) :
  (accepted_name (filename u) = true
   <-> exists stem,
         filename u = stem +:+ ".xlsx" \/ filename u = stem +:+ ".xls")
  /\ (has_file u = false \/ accepted_name (filename u) = false ->
      (upload_file u w).1 = w
      /\ exists message, (upload_file u w).2 = Error 400 message)
  /\ (has_file u = true -> accepted_name (filename u) = true ->
      next_file (upload_file u w).1 = S (next_file w)).
Proof.
  split; [|split].
  - unfold accepted_name.
    rewrite andb_true_iff, orb_true_iff, negb_true_iff, !endswith_app. split.
    + intros [_ [[stem Hs]|[stem Hs]]]; exists stem; auto.
    + intros [stem Hs]. split; [|destruct Hs; eauto].
      apply String.eqb_neq. destruct Hs as [-> | ->]; apply app_not_empty.
  - intros Hbad. unfold upload_file, accepted_name in *.
    destruct (has_file u); simpl; [|eauto].
    destruct Hbad as [Hbad|Hbad]; [discriminate|].
    destruct (String.eqb (filename u) ""); simpl in *; [eauto|].
    rewrite Hbad. simpl. eauto.
  - intros Hfile Hname. rewrite (upload_accepted u w Hfile Hname).
    now destruct (process_excel_data (sheet u) (proc w)) as [p' [[|c l]|]].
Qed.

(** X3. An upload that succeeds answers with the roster of the uploaded
    table, which is not empty, and with its length; the table and this
    roster are stored, and the mapped data and the output path stay as they
    were. *)
Theorem upload_success (u : upload) (w : world) (roster : list client) (n : nat) :
  (upload_file u w).2 = UploadOk roster n ->
  n = length roster
  /\ roster <> []
  /\ exists df,
       sheet u = Some df
       /\ df_empty df = false
       /\ roster = roster_of df
       /\ proc (upload_file u w).1
          = {| form_data := form_data (proc w);
               excel_data := Some df;
               client_list := roster;
               filled_pdf_path := filled_pdf_path (proc w) |}.
Proof.
  unfold upload_file.
  destruct (negb (has_file u)); [discriminate|].
  destruct (String.eqb (filename u) ""); [discriminate|].
  destruct (negb (endswith ".xlsx" (filename u) || endswith ".xls" (filename u)));
    [discriminate|].
  simpl.
  destruct (sheet u) as [df|] eqn:Hsheet; [|discriminate].
  destruct (df_empty df) eqn:Hne.
  { rewrite (load_refused (Some df) (proc w) Hne). discriminate. }
  pose proof (load_roster_of df (proc w) Hne) as Hload.
  destruct (process_excel_data (Some df) (proc w)) as [p' [[|c l]|]];
    try discriminate.
  simpl in *. intros [= <- <-]. destruct Hload as [Hr ->].
  split; [reflexivity|]. split; [discriminate|].
  exists df. auto.
Qed.

Lemma cols_containing_other w1 w2 cols t :
  In (LOther t) cols -> cols_containing w1 w2 cols = None.
Proof.
  induction cols as [|c cols IH]; [intros []|]. intros [->|Hin]; simpl.
  - reflexivity.
  - destruct (label_lower c); [|reflexivity]. now rewrite IH.
Qed.

(** X5. A column label that is no text (a number, a date) makes the load
    of a table that is not empty fail, whatever its other columns: the
    search for the name columns raises on it. The table is stored by then
    and the roster emptied, and the upload is answered 400. *)
Theorem non_text_header_fails (df : DataFrame) (p : processor) (t : string) :
  df_empty df = false ->
  In (LOther t) (columns df) ->
  process_excel_data (Some df) p
  = ({| form_data := form_data p;
        excel_data := Some df;
        client_list := [];
        filled_pdf_path := filled_pdf_path p |},
     None)
  /\ forall u w,
       has_file u = true -> accepted_name (filename u) = true ->
       sheet u = Some df ->
       (upload_file u w).2
       = Error 400 "Failed to process Excel file or no clients found"
       /\ client_list (proc (upload_file u w).1) = [].
Proof.
  intros Hne Hin.
  assert (Hload : forall q,
            process_excel_data (Some df) q
            = ({| form_data := form_data q; excel_data := Some df;
                  client_list := []; filled_pdf_path := filled_pdf_path q |},
               None)).
  { intros q. unfold process_excel_data.
    now rewrite Hne, (cols_containing_other _ _ _ t Hin). }
  split; [apply Hload|].
  intros u w Hfile Hname Hsheet.
  rewrite (upload_accepted u w Hfile Hname), Hsheet, Hload. simpl. auto.
Qed.

Section Handlers.
Context `{PyBuiltins}.

(** X2. The temporary file of an upload: it is new, a successful upload
    removes it again and leaves the files as they were, and an upload that
    fails in the loader leaves it behind. *)
Theorem upload_temp_file (u : upload) (w : world) :
  reachable w ->
  has_file u = true -> accepted_name (filename u) = true ->
  file_exists (next_file w) w = false
  /\ (if is_upload_ok (upload_file u w).2
      then files (upload_file u w).1 = files w
      else files (upload_file u w).1 = (next_file w, Spreadsheet) :: files w).
Proof.
  intros Hr Hfile Hname. apply reachable_files_ok in Hr.
  split; [now apply files_ok_fresh|].
  destruct Hr as (Hb & _ & _).
  rewrite (upload_accepted u w Hfile Hname).
  destruct (process_excel_data (sheet u) (proc w)) as [p' [[|c l]|]]; simpl;
    try reflexivity.
  rewrite Nat.eqb_refl. simpl. now apply filter_fresh.
Qed.

End Handlers.

End Intake.

(** ** Trimmed text *)

Module TrimFacts.
Import PyStr PyStrFacts Props.

Lemma lstrip_headed s : headed (lstrip s).
Proof.
  induction s as [|c s IH]; [exact I|]. simpl.
  destruct (isspace c) eqn:Hc; [exact IH|exact Hc].
Qed.

Lemma headed_lstrip s : headed s -> lstrip s = s.
Proof. destruct s as [|c s]; [reflexivity|]. simpl. now intros ->. Qed.

Lemma headed_rstrip s : headed s -> headed (rstrip s).
Proof.
  destruct s as [|c s]; [intros; exact I|]. intros Hc. simpl in Hc.
  rewrite rstrip_cons, Hc. now destruct (rstrip s).
Qed.

Lemma rstrip_idem s : rstrip (rstrip s) = rstrip s.
Proof.
  induction s as [|c s IH]; [reflexivity|]. rewrite rstrip_cons.
  destruct (rstrip s) as [|d r] eqn:Hr.
  - destruct (isspace c) eqn:Hc; [reflexivity|].
    now rewrite rstrip_cons, Hc.
  - rewrite rstrip_cons, IH. reflexivity.
Qed.

Lemma strip_idem s : strip (strip s) = strip s.
Proof.
  unfold strip. rewrite (headed_lstrip (rstrip (lstrip s))).
  - apply rstrip_idem.
  - apply headed_rstrip, lstrip_headed.
Qed.

(** Text is trimmed when white space neither starts nor ends it. *)
Lemma strip_fixed s : headed s -> rstrip s = s -> strip s = s.
Proof. intros Hh Hr. unfold strip. now rewrite headed_lstrip. Qed.

Lemma strip_headed s : headed (strip s).
Proof. apply headed_rstrip, lstrip_headed. Qed.

Lemma map_cons f c s : PyStr.map f (String c s) = String (f c) (PyStr.map f s).
Proof. reflexivity. Qed.

(** A change of characters that turns none into white space keeps trimmed
    text trimmed. *)
Lemma headed_map f s :
  (forall c, isspace c = false -> isspace (f c) = false) ->
  headed s -> headed (PyStr.map f s).
Proof. intros Hf. destruct s as [|c s]; [intros; exact I|]. simpl. auto. Qed.

Lemma rstrip_map f s :
  (forall c, isspace c = false -> isspace (f c) = false) ->
  rstrip s = s -> rstrip (PyStr.map f s) = PyStr.map f s.
Proof.
  intros Hf. induction s as [|c s IH]; [reflexivity|].
  rewrite rstrip_cons, map_cons, rstrip_cons.
  destruct (rstrip s) as [|d r] eqn:Hr.
  - destruct (isspace c) eqn:Hc; [discriminate|]. intros [= <-].
    simpl. now rewrite (Hf c Hc).
  - intros [= Hs]. rewrite IH by congruence.
    rewrite <- Hs. reflexivity.
Qed.

Lemma strip_map f s :
  (forall c, isspace c = false -> isspace (f c) = false) ->
  strip s = s -> strip (PyStr.map f s) = PyStr.map f s.
Proof.
  intros Hf Hs. apply strip_fixed.
  - apply headed_map; [exact Hf|]. rewrite <- Hs. apply strip_headed.
  - apply rstrip_map; [exact Hf|]. rewrite <- Hs. unfold strip. apply rstrip_idem.
Qed.

Lemma map_empty f s : PyStr.map f s = "" <-> s = "".
Proof. destruct s; split; intros Heq; try reflexivity; discriminate. Qed.

End TrimFacts.

(** ** The roster and the lookup of a client *)

Module Roster.
Import PyStr PyStrFacts PyVal Excel W7 Props Loader Session SessionFacts TrimFacts.

Lemma name_cell_trimmed x : strip (name_cell x) = name_cell x.
Proof. destruct x; [reflexivity|apply strip_idem]. Qed.

Lemma row_get_nil cols col : row_get cols [] col = NA.
Proof. now destruct cols. Qed.

(** An entry of the roster of a table: the row it points to, and its
    names. *)
Lemma roster_of_entry df c :
  In c (roster_of df) ->
  (exists row, nth_error (rows df) (row_index c) = Some row /\ row <> [])
  /\ first_name c <> "" /\ last_name c <> ""
  /\ strip (first_name c) = first_name c
  /\ strip (last_name c) = last_name c
  /\ full_name c = first_name c +:+ " " +:+ last_name c.
Proof.
  unfold roster_of.
  destruct (List.filter (header_has "first" "name") (columns df)) as [|fc fcs];
    [intros []|].
  destruct (List.filter (header_has "last" "name") (columns df)) as [|lc lcs];
    [intros []|].
  rewrite iter_clients_numbered. intros Hc.
  apply in_map_iff in Hc as ([i row] & <- & Hin).
  apply List.filter_In in Hin as [Hin Hq]. simpl in *.
  apply numbered_bounds in Hin as [_ Hn]. rewrite Nat.sub_0_r in Hn.
  unfold qualifies, nonempty in Hq. apply andb_prop in Hq as [Hf Hl].
  apply negb_true_iff, String.eqb_neq in Hf, Hl.
  split.
  { exists row. split; [exact Hn|]. intros ->. rewrite row_get_nil in Hf.
    now apply Hf. }
  repeat split; auto using name_cell_trimmed.
Qed.

Lemma roster_of_sorted df : StronglySorted lt (List.map row_index (roster_of df)).
Proof.
  unfold roster_of.
  destruct (List.filter (header_has "first" "name") (columns df)) as [|fc fcs];
    [constructor|].
  destruct (List.filter (header_has "last" "name") (columns df)) as [|lc lcs];
    [constructor|].
  rewrite iter_clients_numbered, List.map_map. simpl.
  apply (filter_sorted (fun ir => qualifies (columns df) fc lc ir.2)).
  apply numbered_sorted.
Qed.

(** In a sorted roster, the entries after one carry greater row numbers. *)
Lemma sorted_after (before : list client) c0 after c :
  StronglySorted lt (List.map row_index (before ++ c0 :: after)%list) ->
  In c (c0 :: after) -> (row_index c0 <= row_index c)%nat.
Proof.
  induction before as [|x before IH]; simpl.
  - intros Hs [->|Hin]; [lia|].
    apply StronglySorted_inv in Hs as [_ Hall].
    rewrite List.Forall_forall in Hall.
    specialize (Hall (row_index c) (in_map row_index _ _ Hin)). lia.
  - intros Hs. apply StronglySorted_inv in Hs as [Hs _]. now apply IH.
Qed.

Lemma dict_set_not_nil {V : Type} k (v : V) d : dict_set k v d <> [].
Proof. destruct d as [|[k' v'] d]; simpl; [|destruct (String.eqb k' k)]; discriminate. Qed.

Lemma clean_items_not_nil items cleaned :
  items <> [] \/ cleaned <> [] -> clean_items items cleaned <> [].
Proof.
  revert cleaned. induction items as [|[key value] items IH]; intros cleaned Hne.
  - simpl. now destruct Hne.
  - simpl. apply IH. right. apply dict_set_not_nil.
Qed.

Lemma names_match_lower first last c :
  lower first = lower (first_name c) -> lower last = lower (last_name c) ->
  names_match first last c = true.
Proof. intros Hf Hl. unfold names_match. now rewrite Hf, Hl, !String.eqb_refl. Qed.

Lemma lower_not_empty s t : lower s = lower t -> t <> "" -> s <> "".
Proof. intros Heq Ht ->. destruct t; [now apply Ht|discriminate]. Qed.

Section Handlers.
Context `{PyBuiltins}.

(** What holds of the roster of the process after any sequence of
    requests. *)
Lemma reachable_roster w c :
  reachable w -> In c (client_list (proc w)) ->
  exists df,
    excel_data (proc w) = Some df
    /\ df_empty df = false
    /\ client_list (proc w) = roster_of df.
Proof.
  intros Hr Hc. apply reachable_roster_of_table in Hr.
  unfold roster_of_table in Hr.
  destruct (excel_data (proc w)) as [df|].
  - destruct Hr as [Hne [Hnil|Hros]]; [rewrite Hnil in Hc; destruct Hc|eauto].
  - rewrite Hr in Hc. destruct Hc.
Qed.

(** X6. After any sequence of requests the stored roster belongs to the
    stored table: it is empty, or it is the roster the loader builds from
    that table, which is never an empty one. Its row numbers grow, and each
    entry points to a row of the table that is not empty and carries two
    names that are trimmed and not empty, with the full name made of
    them. *)
Theorem roster_belongs_to_table (w : world) :
  reachable w ->
  roster_of_table (proc w)
  /\ StronglySorted lt (List.map row_index (client_list (proc w)))
  /\ forall c, In c (client_list (proc w)) ->
       (exists df row,
           excel_data (proc w) = Some df
           /\ nth_error (rows df) (row_index c) = Some row /\ row <> [])
       /\ first_name c <> "" /\ last_name c <> ""
       /\ strip (first_name c) = first_name c
       /\ strip (last_name c) = last_name c
       /\ full_name c = first_name c +:+ " " +:+ last_name c.
Proof.
  intros Hr. split; [now apply reachable_roster_of_table|]. split.
  - destruct (client_list (proc w)) as [|c l] eqn:Hl; [constructor|].
    destruct (reachable_roster w c Hr) as (df & _ & _ & Hros);
      [rewrite Hl; now left|].
    rewrite <- Hl, Hros. apply roster_of_sorted.
  - intros c Hc. destruct (reachable_roster w c Hr Hc) as (df & Hdf & _ & Hros).
    rewrite Hros in Hc.
    destruct (roster_of_entry df c Hc) as ((row & Hrow & Hne) & Hrest).
    split; [|exact Hrest]. now exists df, row.
Qed.

(** X7. A client of the stored roster is always found: a lookup by its
    names, in any case of the letters, returns the cleaned row of the first
    roster entry of these names, which is that client or one of an earlier
    row, and the data returned is not empty. So process-client never
    answers 404 for a listed client, and a client whose names repeat those
    of an earlier row is never the one processed. *)
Theorem listed_client_is_found (w : world) (c : client) (first last : string) :
  reachable w ->
  In c (client_list (proc w)) ->
  lower first = lower (first_name c) -> lower last = lower (last_name c) ->
  exists c0 data,
    List.find (names_match first last) (client_list (proc w)) = Some c0
    /\ (row_index c0 <= row_index c)%nat
    /\ get_client_data (proc w) first last = Some data
    /\ data <> []
    /\ forall body reply,
         truthy body = true ->
         get_stripped "first_name" body = Some first ->
         get_stripped "last_name" body = Some last ->
         (process_client body reply w).2
         = if truthy (call_openai_api reply)
           then ProcessOk (first +:+ " " +:+ last) data (call_openai_api reply)
           else Error 500 "Failed to process data with OpenAI".
Proof.
  intros Hr Hc Hf Hl.
  destruct (reachable_roster w c Hr Hc) as (df & Hdf & Hne & Hros).
  pose proof (names_match_lower first last c Hf Hl) as Hmatch.
  destruct (List.find (names_match first last) (client_list (proc w)))
    as [c0|] eqn:Hfind.
  2:{ apply find_nowhere in Hfind. rewrite List.Forall_forall in Hfind.
      specialize (Hfind c Hc). congruence. }
  destruct (find_first _ _ _ Hfind) as (before & after & Hsplit & Hbefore & Hc0).
  assert (Hle : (row_index c0 <= row_index c)%nat).
  { apply (sorted_after before c0 after).
    - rewrite <- Hsplit, Hros. apply roster_of_sorted.
    - rewrite Hsplit in Hc. apply in_app_or in Hc as [Hc|Hc]; [|exact Hc].
      rewrite List.Forall_forall in Hbefore. specialize (Hbefore c Hc). congruence. }
  assert (Hin0 : In c0 (roster_of df)).
  { rewrite <- Hros. now apply find_some in Hfind as [? _]. }
  destruct (roster_of_entry df c0 Hin0) as ((row & Hrow & Hrne) & _).
  destruct (roster_of_entry df c) as (_ & Hfne & Hlne & _); [now rewrite <- Hros|].
  set (data := clean_items (combine (columns df) row) []).
  assert (Hget : get_client_data (proc w) first last = Some data).
  { unfold get_client_data. now rewrite Hdf, Hfind, Hrow. }
  assert (Hdata : data <> []).
  { apply clean_items_not_nil. left.
    unfold df_empty in Hne. apply orb_false_elim in Hne as [Hcols _].
    apply Nat.eqb_neq in Hcols.
    destruct (columns df); [now destruct Hcols|].
    destruct row; [now destruct Hrne|]. discriminate. }
  exists c0, data. repeat split; auto.
  intros body reply Hbody Hgf Hgl. unfold process_client.
  rewrite Hbody, Hgf, Hgl, Hget. simpl negb. cbv iota.
  unfold nonempty.
  destruct (String.eqb_spec first "") as [He|_];
    [now apply (lower_not_empty _ _ Hf Hfne) in He|].
  destruct (String.eqb_spec last "") as [He|_];
    [now apply (lower_not_empty _ _ Hl Hlne) in He|].
  simpl. destruct data as [|kv data']; [now destruct Hdata|].
  now destruct (truthy (call_openai_api reply)).
Qed.

End Handlers.

End Roster.

(** ** The cleaned row of a client *)

Module Cleaning.
Import PyStr PyStrFacts PyVal Excel W7 Props TrimFacts.

Lemma map_map f g s : PyStr.map f (PyStr.map g s) = PyStr.map (fun c => f (g c)) s.
Proof. induction s as [|c s IH]; [reflexivity|]. simpl. now rewrite IH. Qed.

Lemma map_ext f g s : (forall c, f c = g c) -> PyStr.map f s = PyStr.map g s.
Proof. intros Hfg. induction s as [|c s IH]; [reflexivity|]. simpl. now rewrite Hfg, IH. Qed.

Lemma has_char_map c f s :
  (forall x, Ascii.eqb (f x) c = false) -> has_char c (PyStr.map f s) = false.
Proof. intros Hf. induction s as [|x s IH]; [reflexivity|]. simpl. now rewrite Hf, IH. Qed.

Lemma clean_key_map c : clean_key c = PyStr.map clean_char (strip (label_text c)).
Proof. unfold clean_key, replace, lower. now rewrite !map_map. Qed.

Lemma clean_char_idem c : clean_char (clean_char c) = clean_char c.
Proof. destruct c as [[] [] [] [] [] [] [] []]; reflexivity. Qed.

Lemma clean_char_lower c : lower_char (clean_char c) = clean_char c.
Proof. destruct c as [[] [] [] [] [] [] [] []]; reflexivity. Qed.

Lemma clean_char_not_space c : Ascii.eqb (clean_char c) " " = false.
Proof. destruct c as [[] [] [] [] [] [] [] []]; reflexivity. Qed.

Lemma clean_char_not_slash c : Ascii.eqb (clean_char c) "/" = false.
Proof. destruct c as [[] [] [] [] [] [] [] []]; reflexivity. Qed.

Lemma clean_char_keeps_text c : isspace c = false -> isspace (clean_char c) = false.
Proof. destruct c as [[] [] [] [] [] [] [] []]; intros Hc; try reflexivity; discriminate. Qed.

(** X8. A cleaned key is in normal form: it holds no space and no slash,
    it is in lower case and trimmed, and cleaning it again changes
    nothing. *)
Theorem clean_key_normal_form (c : label) :
  has_char " " (clean_key c) = false
  /\ has_char "/" (clean_key c) = false
  /\ lower (clean_key c) = clean_key c
  /\ strip (clean_key c) = clean_key c
  /\ clean_key (LStr (clean_key c)) = clean_key c.
Proof.
  assert (Hstrip : strip (clean_key c) = clean_key c).
  { rewrite clean_key_map.
    apply strip_map; [apply clean_char_keeps_text|apply strip_idem]. }
  split; [|split; [|split; [|split]]].
  - rewrite clean_key_map. apply has_char_map, clean_char_not_space.
  - rewrite clean_key_map. apply has_char_map, clean_char_not_slash.
  - rewrite clean_key_map. unfold lower. rewrite map_map.
    apply map_ext, clean_char_lower.
  - exact Hstrip.
  - rewrite (clean_key_map (LStr _)). simpl label_text. rewrite Hstrip.
    rewrite clean_key_map, map_map. apply map_ext, clean_char_idem.
Qed.

(** *** Columns whose headers clean to the same key *)

Lemma dict_get_set_eq {V : Type} k (v : V) d : dict_get k (dict_set k v d) = Some v.
Proof.
  induction d as [|[k' v'] d IH]; simpl.
  - now rewrite String.eqb_refl.
  - destruct (String.eqb k' k) eqn:Hk; simpl; now rewrite Hk.
Qed.

Lemma dict_get_set_ne {V : Type} k k' (v : V) d :
  k <> k' -> dict_get k' (dict_set k v d) = dict_get k' d.
Proof.
  intros Hne. induction d as [|[k0 v0] d IH]; simpl.
  - destruct (String.eqb_spec k k'); [contradiction|reflexivity].
  - destruct (String.eqb_spec k0 k) as [->|]; simpl.
    + destruct (String.eqb_spec k k'); [contradiction|reflexivity].
    + now rewrite IH.
Qed.

(** Setting a key keeps the keys, or adds the new key at the end. *)
Lemma dict_set_keys {V : Type} k (v : V) d :
  ((k ∈ d.*1) /\ (dict_set k v d).*1 = d.*1)
  \/ ((k ∉ d.*1) /\ dict_set k v d = (d ++ [(k, v)])%list).
Proof.
  induction d as [|[k' v'] d IH].
  - right. split; [apply not_elem_of_nil|reflexivity].
  - cbn [dict_set]. rewrite fmap_cons. cbn [fst].
    destruct (String.eqb_spec k' k) as [->|Hne].
    + left. split; [apply list_elem_of_here|now rewrite fmap_cons].
    + destruct IH as [[Hin Hk]|[Hout Hk]].
      * left. split; [now apply list_elem_of_further|].
        rewrite fmap_cons. cbn [fst]. now rewrite Hk.
      * right. split; [|now rewrite Hk].
        intros [Heq|Hin]%elem_of_cons; [now apply Hne|now apply Hout].
Qed.

Lemma dict_set_nodup {V : Type} k (v : V) d :
  NoDup d.*1 -> NoDup (dict_set k v d).*1.
Proof.
  intros Hnd. destruct (dict_set_keys k v d) as [[_ ->]|[Hout ->]]; [exact Hnd|].
  rewrite fmap_app. apply NoDup_app. split; [exact Hnd|]. split.
  - intros x Hx [->|[]%elem_of_nil]%elem_of_cons. now apply Hout.
  - apply NoDup_singleton.
Qed.

Lemma dict_set_length {V : Type} k (v : V) d :
  (length (dict_set k v d) <= S (length d))%nat.
Proof.
  induction d as [|[k' v'] d IH]; simpl; [lia|].
  destruct (String.eqb k' k); simpl; lia.
Qed.

Lemma clean_items_nodup items cleaned :
  NoDup cleaned.*1 -> NoDup (clean_items items cleaned).*1.
Proof.
  revert cleaned. induction items as [|[key value] items IH]; intros cleaned Hnd.
  - exact Hnd.
  - simpl. apply IH. now apply dict_set_nodup.
Qed.

Lemma clean_items_length items cleaned :
  (length (clean_items items cleaned) <= length items + length cleaned)%nat.
Proof.
  revert cleaned. induction items as [|[key value] items IH]; intros cleaned.
  - simpl. lia.
  - simpl. pose proof (IH (dict_set (clean_key key) (clean_value value) cleaned)).
    pose proof (dict_set_length (clean_key key) (clean_value value) cleaned). lia.
Qed.

Lemma find_app {A : Type} (f : A -> bool) l1 l2 :
  List.find f (l1 ++ l2)%list
  = match List.find f l1 with Some x => Some x | None => List.find f l2 end.
Proof.
  induction l1 as [|x l1 IH]; [reflexivity|]. simpl. now destruct (f x).
Qed.

Lemma clean_items_get k items cleaned :
  dict_get k (clean_items items cleaned)
  = match last_column_value k items with
    | Some v => Some v
    | None => dict_get k cleaned
    end.
Proof.
  revert cleaned. induction items as [|[key value] items IH]; intros cleaned.
  - reflexivity.
  - simpl clean_items. rewrite IH. unfold last_column_value.
    simpl rev. rewrite find_app.
    destruct (List.find (fun kv => String.eqb (clean_key kv.1) k) (rev items));
      [reflexivity|].
    simpl. destruct (String.eqb_spec (clean_key key) k) as [<-|Hne]; simpl.
    + apply dict_get_set_eq.
    + now apply dict_get_set_ne.
Qed.

Lemma clean_items_distinct items cleaned :
  NoDup (cleaned.*1 ++ List.map (fun kv => clean_key kv.1) items)%list ->
  clean_items items cleaned = (cleaned ++ cleaned_columns items)%list.
Proof.
  revert cleaned. induction items as [|[key value] items IH]; intros cleaned Hnd.
  - simpl. now rewrite app_nil_r.
  - simpl in *.
    destruct (dict_set_keys (clean_key key) (clean_value value) cleaned)
      as [[Hin _]|[_ Hset]].
    + exfalso. apply NoDup_app in Hnd as (_ & Hdisj & _).
      apply (Hdisj _ Hin). apply list_elem_of_here.
    + rewrite Hset, IH.
      * now rewrite <- List.app_assoc.
      * rewrite fmap_app. simpl. now rewrite <- List.app_assoc.
Qed.

Lemma existsb_eqb k (ks : list string) :
  existsb (String.eqb k) ks = true <-> k ∈ ks.
Proof.
  rewrite existsb_exists. split.
  - intros (x & Hin & ->%String.eqb_eq). now apply list_elem_of_In.
  - intros Hin. exists k. split; [now apply list_elem_of_In|apply String.eqb_refl].
Qed.

Lemma dict_set_add_key {V : Type} k (v : V) d :
  (dict_set k v d).*1 = add_key k d.*1.
Proof.
  unfold add_key.
  destruct (dict_set_keys k v d) as [[Hin ->]|[Hout ->]].
  - now rewrite (proj2 (existsb_eqb k d.*1) Hin).
  - destruct (existsb (String.eqb k) d.*1) eqn:Hex.
    + now apply existsb_eqb in Hex.
    + now rewrite fmap_app.
Qed.

Lemma clean_items_keys items cleaned :
  (clean_items items cleaned).*1
  = fold_left (fun seen k => add_key k seen)
      (List.map (fun kv => clean_key kv.1) items) cleaned.*1.
Proof.
  revert cleaned. induction items as [|[key value] items IH]; intros cleaned.
  - reflexivity.
  - cbn [clean_items List.map fold_left fst]. now rewrite IH, dict_set_add_key.
Qed.

Lemma find_rev_some {A : Type} (f : A -> bool) l x :
  In x l -> f x = true -> List.find f (rev l) <> None.
Proof.
  intros Hin Hx Hnone. apply find_none with (x := x) in Hnone; [congruence|].
  now apply in_rev in Hin.
Qed.

(** X9. The cleaned row of a client holds each cleaned key once, in the
    order in which the keys first occur among the columns. Under a key it
    holds the value of the last column whose header cleans to that key: of
    two such columns the later one wins, at the place of the earlier one.
    Every column has its cleaned key in the row. When no two headers clean
    to the same key, the row holds one entry per column, in the order of
    the columns. *)
Theorem cleaned_row_last_column_wins (items : list (label * cell)) :
  NoDup (clean_items items []).*1
  /\ (clean_items items []).*1
     = first_occurrences (List.map (fun kv => clean_key kv.1) items)
  /\ (forall k, dict_get k (clean_items items []) = last_column_value k items)
  /\ (forall key value, In (key, value) items ->
        exists v, dict_get (clean_key key) (clean_items items []) = Some v)
  /\ (length (clean_items items []) <= length items)%nat
  /\ (NoDup (List.map (fun kv => clean_key kv.1) items) ->
      clean_items items [] = cleaned_columns items).
Proof.
  assert (Hget : forall k, dict_get k (clean_items items [])
                           = last_column_value k items).
  { intros k. rewrite clean_items_get. now destruct (last_column_value k items). }
  split; [|split; [|split; [|split; [|split]]]].
  - apply clean_items_nodup. constructor.
  - apply clean_items_keys.
  - exact Hget.
  - intros key value Hin. rewrite Hget. unfold last_column_value.
    destruct (List.find (fun kv => String.eqb (clean_key kv.1) (clean_key key))
                (rev items)) as [kv|] eqn:Hfind; [simpl; eauto|].
    exfalso. revert Hfind.
    apply (find_rev_some _ _ (key, value) Hin). apply String.eqb_refl.
  - pose proof (clean_items_length items []). simpl in *. lia.
  - intros Hnd. now rewrite clean_items_distinct.
Qed.

End Cleaning.

(** ** Processing a client *)

Module Processing.
Import PyStr PyStrFacts PyVal Excel W7 Props Loader Session SessionFacts.

Section Handlers.
Context `{PyBuiltins}.

(** X10. A process-client request that succeeds: both names of the body
    are text that is not blank, the trimmed names find a row of the stored
    table, the reply of the mapping service decodes to a value that counts
    as true, and that very value is returned and stored as the mapped data;
    nothing else of the process changes. *)
Theorem process_client_success (body : pyvalue) (reply : option string)
  (w : world) (name : string) (row : list (string * string)) (mapped : pyvalue) :
  (process_client body reply w).2 = ProcessOk name row mapped ->
  exists first last,
    get_stripped "first_name" body = Some first
    /\ get_stripped "last_name" body = Some last
    /\ first <> "" /\ last <> ""
    /\ name = first +:+ " " +:+ last
    /\ get_client_data (proc w) first last = Some row
    /\ row <> []
    /\ mapped = call_openai_api reply
    /\ truthy mapped = true
    /\ (process_client body reply w).1
       = set_proc {| form_data := mapped;
                     excel_data := excel_data (proc w);
                     client_list := client_list (proc w);
                     filled_pdf_path := filled_pdf_path (proc w) |} w.
Proof.
  unfold process_client.
  destruct (negb (truthy body)); [discriminate|].
  destruct (get_stripped "first_name" body) as [first|]; [|discriminate].
  destruct (get_stripped "last_name" body) as [last|]; [|discriminate].
  unfold nonempty.
  destruct (String.eqb_spec first "") as [|Hf]; [discriminate|].
  destruct (String.eqb_spec last "") as [|Hl]; [discriminate|]. simpl.
  destruct (get_client_data (proc w) first last) as [[|kv l]|] eqn:Hget;
    try discriminate.
  destruct (truthy (call_openai_api reply)) eqn:Ht; simpl; [|discriminate].
  intros Heq. injection Heq as <- <- <-. exists first, last.
  repeat split; auto.
Qed.

(** X11. A process-client request that fails leaves the process as it
    was, and its status tells why: 400 for a body that counts as false or a
    name that is missing or blank, 404 for names that find no row, 500 for a
    name that is no text and for a reply of the mapping service that does
    not decode or decodes to a value that counts as false. *)
Theorem process_client_failure (body : pyvalue) (reply : option string)
  (w : world) (status : Z) (message : string) :
  (process_client body reply w).2 = Error status message ->
  (process_client body reply w).1 = w
  /\ ((status = 400
       /\ (truthy body = false
           \/ exists first last,
                get_stripped "first_name" body = Some first
                /\ get_stripped "last_name" body = Some last
                /\ (first = "" \/ last = "")))
      \/ (status = 404
          /\ exists first last,
               get_stripped "first_name" body = Some first
               /\ get_stripped "last_name" body = Some last
               /\ first <> "" /\ last <> ""
               /\ (get_client_data (proc w) first last = None
                   \/ get_client_data (proc w) first last = Some []))
      \/ (status = 500
          /\ truthy body = true
          /\ (get_stripped "first_name" body = None
              \/ get_stripped "last_name" body = None
              \/ truthy (call_openai_api reply) = false))).
Proof.
  unfold process_client.
  destruct (truthy body) eqn:Hbody; simpl;
    [|intros [= <- <-]; split; [reflexivity|]; left; auto].
  destruct (get_stripped "first_name" body) as [first|];
    [|intros [= <- <-]; split; [reflexivity|]; right; right; auto].
  destruct (get_stripped "last_name" body) as [last|];
    [|intros [= <- <-]; split; [reflexivity|]; right; right; auto].
  unfold nonempty.
  destruct (String.eqb_spec first "") as [Hf|Hf]; simpl;
    [intros [= <- <-]; split; [reflexivity|]; left; split; [reflexivity|];
     right; exists first, last; auto|].
  destruct (String.eqb_spec last "") as [Hl|Hl]; simpl;
    [intros [= <- <-]; split; [reflexivity|]; left; split; [reflexivity|];
     right; exists first, last; auto|].
  destruct (get_client_data (proc w) first last) as [[|kv l]|] eqn:Hget;
    try (intros [= <- <-]; split; [reflexivity|]; right; left;
         split; [reflexivity|]; exists first, last; auto 10).
  destruct (truthy (call_openai_api reply)) eqn:Ht; simpl; [discriminate|].
  intros [= <- <-]. split; [reflexivity|]. right. right. auto.
Qed.

Lemma handle_keeps_processed r w :
  truthy (form_data (proc w)) = true ->
  truthy (form_data (proc (handle r w).1)) = true.
Proof.
  intros Ht. destruct r as [u|body reply|env|]; simpl.
  - destruct (upload_effect u w) as [[-> | ->] _]; [exact Ht|].
    now rewrite (proj1 (load_keeps_form (sheet u) (proc w))).
  - now destruct (process_client_effect body reply w) as [-> |(v & Hv & ->)].
  - destruct (generate_pdf_effect env w) as [-> |(_ & -> & _)]; exact Ht.
  - now rewrite download_pdf_effect.
Qed.

(** X12. Once a client has been processed the mapped data counts as true
    for good: no later request empties it, so generate-pdf never again
    answers that no form data is available. *)
Theorem processed_stays_processed (requests : list request) (w : world) :
  truthy (form_data (proc w)) = true ->
  truthy (form_data (proc (run requests w))) = true
  /\ forall env, error_status (generate_pdf env (run requests w)).2 <> Some 400.
Proof.
  intros Ht.
  assert (Hrun : truthy (form_data (proc (run requests w))) = true).
  { revert w Ht. induction requests as [|r rest IH]; intros w Ht; [exact Ht|].
    simpl. apply IH. now apply handle_keeps_processed. }
  split; [exact Hrun|]. intros env.
  destruct (generate_pdf_cases env (run requests w)) as [[_ Hf]|[_ ->]];
    [congruence|].
  simpl. now destruct (fill_w7_pdf _ _ _).2.
Qed.

(** Whether the form is filled depends on the template and the mapped data,
    not on the state of the process. *)
Lemma fill_w7_pdf_answer env data w1 w2 :
  (fill_w7_pdf env data w1).2 = None <-> (fill_w7_pdf env data w2).2 = None.
Proof.
  unfold fill_w7_pdf.
  destruct (negb (template_exists env)); [easy|].
  destruct (transform_data_to_pdf_format field_mapping data) as [pdf_data|];
    [|easy].
  simpl. destruct (template env) as [pages|]; [|easy].
  destruct (fill_fields pdf_data pages) as [written [|]]; [|easy].
  now destruct (save_ok env).
Qed.

Lemma generate_answer env w1 w2 :
  form_data (proc w1) = form_data (proc w2) ->
  (generate_pdf env w1).2 = (generate_pdf env w2).2.
Proof.
  intros Hform.
  destruct (generate_pdf_cases env w1) as [[-> Ht1]|[Ht1 ->]];
    destruct (generate_pdf_cases env w2) as [[-> Ht2]|[Ht2 ->]];
    try congruence; [reflexivity|].
  simpl. rewrite Hform.
  pose proof (fill_w7_pdf_answer env (form_data (proc w2)) w1 w2) as Hans.
  destruct (fill_w7_pdf env (form_data (proc w2)) w1).2;
    destruct (fill_w7_pdf env (form_data (proc w2)) w2).2; try reflexivity.
  - discriminate (proj2 Hans eq_refl).
  - discriminate (proj1 Hans eq_refl).
Qed.

(** X4. An upload, failed or not, touches neither the mapped data nor the
    output path: after it generate-pdf answers as it would have before it,
    still for the client processed last, of the table loaded before. *)
Theorem upload_keeps_mapped_data (u : upload) (w : world) :
  form_data (proc (upload_file u w).1) = form_data (proc w)
  /\ filled_pdf_path (proc (upload_file u w).1) = filled_pdf_path (proc w)
  /\ forall env, (generate_pdf env (upload_file u w).1).2 = (generate_pdf env w).2.
Proof.
  assert (Hkeep : form_data (proc (upload_file u w).1) = form_data (proc w)
                  /\ filled_pdf_path (proc (upload_file u w).1)
                     = filled_pdf_path (proc w)).
  { destruct (upload_effect u w) as [[-> | ->] _]; [auto|].
    apply load_keeps_form. }
  destruct Hkeep as [Hform Hpath]. repeat split; auto.
  intros env. now apply generate_answer.
Qed.

End Handlers.

End Processing.

(** ** The form writer and the download *)

Module Output.
Import PyStr PyStrFacts PyVal Excel W7 Props Loader Session SessionFacts.

Lemma in_filter_fresh (fs : list (nat * tmp_content)) n f :
  Forall (fun g => (g.1 < n)%nat) fs -> In f fs ->
  In f (List.filter (fun g => negb (g.1 =? n)%nat) fs).
Proof. intros Hb Hin. now rewrite filter_fresh. Qed.

(** The file of a number, when each number is carried once. *)
Lemma find_file (fs : list (nat * tmp_content)) path c :
  NoDup fs.*1 -> In (path, c) fs ->
  List.find (fun f => (f.1 =? path)%nat) fs = Some (path, c).
Proof.
  induction fs as [|[n d] fs IH]; [intros _ []|].
  rewrite fmap_cons. cbn [fst]. intros [Hn Hnd]%NoDup_cons [Heq|Hin]; simpl.
  - injection Heq as -> ->. now rewrite Nat.eqb_refl.
  - destruct (Nat.eqb_spec n path) as [->|_]; [|auto].
    exfalso. apply Hn. apply list_elem_of_fmap. exists (path, c).
    split; [reflexivity|]. now apply list_elem_of_In.
Qed.

Lemma download_of_file w path c :
  NoDup (files w).*1 -> filled_pdf_path (proc w) = Some path ->
  In (path, c) (files w) ->
  download_pdf w = (w, DownloadOk path (Some c)).
Proof.
  intros Hnd Hpath Hin. unfold download_pdf, file_exists. rewrite Hpath.
  rewrite (find_file _ _ _ Hnd Hin).
  replace (existsb (fun f => (f.1 =? path)%nat) (files w)) with true; [reflexivity|].
  symmetry. apply existsb_exists. exists (path, c). split; [exact Hin|].
  apply Nat.eqb_refl.
Qed.

Section Handlers.
Context `{PyBuiltins}.

Lemma transform_items_unknown fm items pdf_data :
  Forall (fun kv => known fm kv.1 = false) items ->
  transform_items fm items pdf_data = pdf_data.
Proof.
  induction 1 as [|[k v] items Hk _ IH]; [reflexivity|].
  simpl. unfold known in Hk. simpl in Hk.
  now destruct (fm !! k).
Qed.

Lemma fill_pages_empty pages : fill_pages ∅ pages = [].
Proof.
  unfold fill_pages. induction (concat pages) as [|field l IH]; [reflexivity|].
  simpl. unfold fill_widget at 1. now rewrite lookup_empty.
Qed.

(** X13. Mapped data that is no dict, or a dict none of whose keys the
    field dictionary knows, cannot be written: generate-pdf answers 500 and
    records no output, whatever the template. For data that is no dict the
    process stays as it was. *)
Theorem unmapped_data_fails (env : pdf_env) (w : world) :
  truthy (form_data (proc w)) = true ->
  is_dict (form_data (proc w)) = false
  \/ (exists items, form_data (proc w) = PyDict items /\ no_known_key items) ->
  (generate_pdf env w).2 = Error 500 "Failed to generate PDF"
  /\ proc (generate_pdf env w).1 = proc w
  /\ (is_dict (form_data (proc w)) = false -> (generate_pdf env w).1 = w).
Proof.
  intros Ht Hdata.
  destruct (generate_pdf_cases env w) as [[_ Hf]|[_ ->]]; [congruence|].
  cbn [fst snd].
  destruct (fill_w7_pdf_cases env (form_data (proc w)) w)
    as [-> |[(_ & Hd & ->)|(items & pages & written & Hi & _ & _ & _ & Hw & Hne & _)]].
  - auto.
  - cbn [fst snd]. split; [reflexivity|]. split; [reflexivity|]. congruence.
  - exfalso. destruct Hdata as [Hnd|(items' & Hitems & Hunk)].
    + rewrite Hi in Hnd. discriminate.
    + rewrite Hi in Hitems. injection Hitems as <-.
      unfold no_known_key in Hunk.
      rewrite (transform_items_unknown _ _ _ Hunk), fill_pages_empty in Hw.
      now apply Hne.
Qed.

Lemma transform_items_sound fm items pdf_data t x :
  transform_items fm items pdf_data !! t = Some x ->
  pdf_data !! t = Some x
  \/ exists k v, In (k, v) items /\ fm !! k = Some t
                 /\ x = format_value k v.
Proof.
  revert pdf_data. induction items as [|[k v] items IH]; intros pdf_data; [now left|].
  simpl. destruct (fm !! k) as [t'|] eqn:Hk.
  - intros [Hx|(k0 & v0 & Hin & Hk0 & ->)]%IH.
    + destruct (decide (t' = t)) as [->|Hne].
      * rewrite lookup_insert_eq in Hx. injection Hx as <-.
        right. exists k, v. auto.
      * rewrite lookup_insert_ne in Hx by exact Hne. now left.
    + right. exists k0, v0. auto.
  - intros [Hx|(k0 & v0 & Hin & Hk0 & ->)]%IH; [now left|].
    right. exists k0, v0. auto.
Qed.

Lemma fill_widget_some field_data field e :
  fill_widget field_data field = Some e ->
  exists value,
    field_data !! field_name field = Some value
    /\ update_ok field = true
    /\ e.1 = field_name field
    /\ written_for field value e.2.
Proof.
  unfold fill_widget, written_for.
  destruct (field_data !! field_name field) as [value|]; [|discriminate].
  destruct (field_type field); [| |discriminate].
  - destruct (py_str value) as [text|] eqn:Hstr; [|discriminate].
    destruct (update_ok field); [|discriminate].
    intros [= <-]. exists value. repeat split. left.
    split; [reflexivity|]. now exists text.
  - destruct (update_ok field); [|discriminate].
    intros [= <-]. exists value. repeat split. now right.
Qed.

(** X14. What reaches the form comes from the mapped data, through the
    field dictionary: every field written is a widget of the template named
    by the PDF field of a key of the data that the dictionary knows, and
    the value written is the text of the formatted value of that key in a
    text field, its truth value in a checkbox. *)
Theorem filled_fields_provenance (items : list (string * pyvalue))
  (pages : list (list widget)) (t : string) (v : field_value) :
  In (t, v) (fill_fields (transform_items field_mapping items ∅) pages).1 ->
  exists k x field,
    In (k, x) items
    /\ field_mapping !! k = Some t
    /\ In field (concat pages)
    /\ field_name field = t
    /\ update_ok field = true
    /\ written_for field (format_value k x) v.
Proof.
  intros Hin.
  assert (Hin' : In (t, v) (fill_pages (transform_items field_mapping items ∅) pages)).
  { unfold fill_fields in Hin. now destruct pages. }
  unfold fill_pages in Hin'.
  apply list_elem_of_In, list_elem_of_omap in Hin' as (field & Hfield & Hw).
  apply fill_widget_some in Hw as (value & Hval & Hupd & Hname & Hfor).
  simpl in Hname, Hfor. subst t.
  apply transform_items_sound in Hval as [Hval|(k & x & Hk & Hmap & ->)];
    [now rewrite lookup_empty in Hval|].
  exists k, x, field. repeat split; auto. now apply list_elem_of_In.
Qed.

(** X16. From generate to download. When generate-pdf succeeds, the mapped
    data is a dict, the template was opened and saved, and the fields
    written, at least one, are those the filler writes for the translated
    data; they are in a new file whose number is recorded, and the download
    that follows serves exactly this file. *)
Theorem generated_pdf_downloadable (env : pdf_env) (w : world) :
  reachable w ->
  (generate_pdf env w).2 = GenerateOk ->
  exists items pages written,
    form_data (proc w) = PyDict items
    /\ template env = Some pages
    /\ written = fill_pages (transform_items field_mapping items ∅) pages
    /\ written <> []
    /\ file_exists (next_file w) w = false
    /\ filled_pdf_path (proc (generate_pdf env w).1) = Some (next_file w)
    /\ files (generate_pdf env w).1 = (next_file w, FilledPdf written) :: files w
    /\ download_pdf (generate_pdf env w).1
       = ((generate_pdf env w).1,
          DownloadOk (next_file w) (Some (FilledPdf written))).
Proof.
  intros Hr Hok. pose proof (reachable_files_ok w Hr) as Hfiles.
  pose proof (generate_pdf_keeps_files_ok env w Hfiles) as (_ & Hnd' & _).
  destruct Hfiles as (Hb & Hnd & _).
  destruct (generate_pdf_cases env w) as [[Hg _]|[_ Hg]];
    [rewrite Hg in Hok; discriminate|].
  rewrite Hg in *. cbn [fst snd] in Hok, Hnd' |- *.
  destruct (fill_w7_pdf_cases env (form_data (proc w)) w)
    as [Hf|[(_ & _ & Hf)|(items & pages & written & Hi & _ & Hp & _ & Hw & Hne & Hf)]];
    rewrite Hf in *; try discriminate Hok.
  cbn [fst snd proc files next_file filled_pdf_path] in Hnd' |- *.
  rewrite filter_fresh in * by exact Hb.
  exists items, pages, written. repeat split; auto.
  - apply files_ok_fresh. now apply reachable_files_ok.
  - apply download_of_file; [exact Hnd'|reflexivity|now left].
Qed.

(** A file of the process is still there, with its content, after any
    request. *)
Lemma handle_keeps_file r w f :
  files_ok w -> In f (files w) -> In f (files (handle r w).1).
Proof.
  intros (Hb & _ & _) Hin. destruct r as [u|body reply|env|]; simpl.
  - destruct (upload_files u w) as [[-> _]|[_ [-> | ->]]]; [exact Hin|now right|].
    now apply in_filter_fresh.
  - now rewrite (proj1 (process_client_files body reply w)).
  - destruct (generate_pdf_cases env w) as [[-> _]|[_ ->]]; [exact Hin|].
    simpl.
    destruct (fill_w7_pdf_cases env (form_data (proc w)) w)
      as [-> |[(_ & _ & ->)|(items & pages & written & _ & _ & _ & _ & _ & _ & ->)]];
      simpl; [exact Hin|now right|].
    right. now apply in_filter_fresh.
  - now rewrite download_pdf_effect.
Qed.

Lemma reachable_step r w : reachable w -> reachable (handle r w).1.
Proof. apply reach_step. Qed.

(** X19. No request removes or changes a temporary file: the files left
    behind by failed uploads and failed generations, and every generated
    form, stay as they are for the life of the process. *)
Theorem files_only_accumulate (requests : list request) (w : world)
  (path : nat) (content : tmp_content) :
  reachable w ->
  In (path, content) (files w) ->
  In (path, content) (files (run requests w))
  /\ List.find (fun f => (f.1 =? path)%nat) (files (run requests w))
     = Some (path, content).
Proof.
  intros Hr Hin.
  assert (Hrun : In (path, content) (files (run requests w))).
  { revert w Hr Hin. induction requests as [|r rest IH]; intros w Hr Hin;
      [exact Hin|].
    simpl. apply IH; [now apply reach_step|].
    apply handle_keeps_file; [now apply reachable_files_ok|exact Hin]. }
  split; [exact Hrun|]. apply find_file; [|exact Hrun].
  now apply (reachable_files_ok (run requests w)), run_reachable.
Qed.

(** X17. What download-pdf serves after any sequence of requests: nothing,
    with status 400, as long as no generation has succeeded; from then on
    the form that the recorded path names, which exists and holds at least
    one written field. *)
Theorem download_serves_generated (w : world) :
  reachable w ->
  match filled_pdf_path (proc w) with
  | None =>
      download_pdf w
      = (w, Error 400 "No PDF available. Please generate PDF first.")
  | Some path =>
      exists written,
        written <> []
        /\ download_pdf w = (w, DownloadOk path (Some (FilledPdf written)))
  end.
Proof.
  intros Hr. destruct (reachable_files_ok w Hr) as (_ & Hnd & Hpath).
  destruct (filled_pdf_path (proc w)) as [path|] eqn:Hp.
  - destruct Hpath as (written & Hne & Hin). exists written.
    split; [exact Hne|]. now apply download_of_file.
  - unfold download_pdf. now rewrite Hp.
Qed.

(** X23. A generation that fails after the template was found leaves a
    file behind: when the template exists and the mapped data is a dict,
    generate-pdf creates a new temporary file before it opens the form, and
    an answer of 500 (the form does not open, no field is written, or the
    save fails) leaves this file, empty, among the files, with the
    processor as it was. *)
Theorem failed_generation_leaves_file (env : pdf_env) (w : world)
  (items : list (string * pyvalue)) :
  template_exists env = true ->
  form_data (proc w) = PyDict items -> items <> [] ->
  is_generate_ok (generate_pdf env w).2 = false ->
  (generate_pdf env w).2 = Error 500 "Failed to generate PDF"
  /\ files (generate_pdf env w).1 = (next_file w, EmptyPdf) :: files w
  /\ next_file (generate_pdf env w).1 = S (next_file w)
  /\ proc (generate_pdf env w).1 = proc w.
Proof.
  intros Hex Hform Hne Hno.
  assert (Ht : truthy (form_data (proc w)) = true).
  { rewrite Hform. destruct items; [now destruct Hne|reflexivity]. }
  destruct (generate_pdf_cases env w) as [[_ Hf]|[_ Hg]]; [congruence|].
  rewrite Hg in *. cbn [fst snd] in *.
  assert (Hfill : fill_w7_pdf env (form_data (proc w)) w
                  = ((create_file EmptyPdf w).2, None)
                  \/ exists path, (fill_w7_pdf env (form_data (proc w)) w).2
                                  = Some path).
  { rewrite Hform. unfold fill_w7_pdf. rewrite Hex.
    cbn [negb transform_data_to_pdf_format].
    change (create_file EmptyPdf w)
      with (next_file w,
            {| proc := proc w; files := (next_file w, EmptyPdf) :: files w;
               next_file := S (next_file w) |}).
    cbv iota beta.
    destruct (template env) as [pages|]; [|now left].
    destruct (fill_fields (transform_items field_mapping items ∅) pages)
      as [written [|]]; [|now left].
    destruct (save_ok env); [right; eexists; reflexivity|now left]. }
  destruct Hfill as [Hfill|[path Hpath]].
  - rewrite Hfill. cbn [fst snd create_file files next_file proc]. auto.
  - rewrite Hpath in Hno. discriminate.
Qed.

Lemma handle_keeps_path r w :
  is_generate_ok (handle r w).2 = false ->
  filled_pdf_path (proc (handle r w).1) = filled_pdf_path (proc w).
Proof.
  destruct r as [u|body reply|env|]; simpl; intros Hno.
  - destruct (upload_effect u w) as [[-> | ->] _]; [reflexivity|].
    apply load_keeps_form.
  - apply process_client_files.
  - destruct (generate_pdf_cases env w) as [[-> _]|[_ Hg]]; [reflexivity|].
    rewrite Hg in *. simpl in *.
    destruct (fill_w7_pdf_cases env (form_data (proc w)) w)
      as [Hf|[(_ & _ & Hf)|(items & pages & written & _ & _ & _ & _ & _ & _ & Hf)]];
      rewrite Hf in *; simpl in *; [reflexivity|reflexivity|discriminate].
  - now rewrite download_pdf_effect.
Qed.

(** X18. Only a generation that succeeds changes what download-pdf serves:
    after any other request, a failed generation and the processing of
    another client among them, the download answers as before. *)
Theorem download_changes_by_generation_only (r : request) (w : world) :
  reachable w ->
  is_generate_ok (handle r w).2 = false ->
  (download_pdf (handle r w).1).2 = (download_pdf w).2.
Proof.
  intros Hr Hno.
  pose proof (reachable_files_ok w Hr) as Hok.
  pose proof (handle_keeps_files_ok r w Hok) as (_ & Hnd' & _).
  pose proof (handle_keeps_path r w Hno) as Hpath.
  destruct Hok as (Hb & Hnd & Hrec).
  destruct (filled_pdf_path (proc w)) as [path|] eqn:Hp.
  - destruct Hrec as (written & _ & Hin).
    rewrite (download_of_file w path (FilledPdf written) Hnd Hp Hin).
    rewrite (download_of_file (handle r w).1 path (FilledPdf written) Hnd' Hpath);
      [reflexivity|].
    apply handle_keeps_file; [now apply reachable_files_ok|exact Hin].
  - unfold download_pdf. now rewrite Hpath, Hp.
Qed.

End Handlers.

End Output.

(** ** How the requests compose *)

Module Composition.
Import PyStr PyStrFacts PyVal Excel W7 Props Loader Session SessionFacts.

(** The loader reads nothing of the process but passes the mapped data and
    the output path through. *)
Lemma load_depends df p q :
  df_empty df = false ->
  form_data p = form_data q -> filled_pdf_path p = filled_pdf_path q ->
  process_excel_data (Some df) p = process_excel_data (Some df) q.
Proof.
  intros Hne Hf Hp. unfold process_excel_data. rewrite Hne, Hf, Hp.
  reflexivity.
Qed.

Lemma upload_proc u w :
  has_file u = true -> accepted_name (filename u) = true ->
  proc (upload_file u w).1 = (process_excel_data (sheet u) (proc w)).1
  /\ (upload_file u w).2
     = match (process_excel_data (sheet u) (proc w)).2 with
       | None | Some [] =>
           Error 400 "Failed to process Excel file or no clients found"
       | Some roster => UploadOk roster (length roster)
       end.
Proof.
  intros Hfile Hname. rewrite (upload_accepted u w Hfile Hname).
  now destruct (process_excel_data (sheet u) (proc w)) as [p' [[|c l]|]].
Qed.

Lemma upload_passes_through u w :
  form_data (proc (upload_file u w).1) = form_data (proc w)
  /\ filled_pdf_path (proc (upload_file u w).1) = filled_pdf_path (proc w).
Proof.
  destruct (upload_effect u w) as [[-> | ->] _]; [auto|]. apply load_keeps_form.
Qed.

(** An upload that the handler turns away leaves the process alone. *)
Lemma upload_rejected u w :
  has_file u = false \/ accepted_name (filename u) = false ->
  (upload_file u w).1 = w
  /\ forall w', (upload_file u w').2 = (upload_file u w).2.
Proof.
  intros Hbad. unfold upload_file, accepted_name in *.
  destruct (has_file u); simpl; [|auto].
  destruct Hbad as [Hbad|Hbad]; [discriminate|].
  destruct (String.eqb (filename u) ""); simpl in *; [auto|].
  rewrite Hbad. simpl. auto.
Qed.

(** X21. Uploads do not add up. After an upload of a table that is not
    empty, the table, the roster and the answer are those of this upload
    alone, whatever was uploaded before it; and an upload sent twice leaves
    the process as the first one left it. *)
Theorem last_upload_wins (u1 u2 : upload) (w : world) :
  (has_file u2 = true -> accepted_name (filename u2) = true ->
   (exists df, sheet u2 = Some df /\ df_empty df = false) ->
   proc (upload_file u2 (upload_file u1 w).1).1 = proc (upload_file u2 w).1
   /\ (upload_file u2 (upload_file u1 w).1).2 = (upload_file u2 w).2)
  /\ proc (upload_file u1 (upload_file u1 w).1).1 = proc (upload_file u1 w).1
  /\ (upload_file u1 (upload_file u1 w).1).2 = (upload_file u1 w).2.
Proof.
  assert (Hlast : forall u w0 w1,
            has_file u = true -> accepted_name (filename u) = true ->
            (exists df, sheet u = Some df /\ df_empty df = false) ->
            form_data (proc w0) = form_data (proc w1) ->
            filled_pdf_path (proc w0) = filled_pdf_path (proc w1) ->
            proc (upload_file u w0).1 = proc (upload_file u w1).1
            /\ (upload_file u w0).2 = (upload_file u w1).2).
  { intros u w0 w1 Hfile Hname (df & Hsheet & Hne) Hf Hp.
    destruct (upload_proc u w0 Hfile Hname) as [-> ->].
    destruct (upload_proc u w1 Hfile Hname) as [-> ->].
    rewrite Hsheet. now rewrite (load_depends df _ _ Hne Hf Hp). }
  split.
  - intros Hfile Hname Hsheet.
    destruct (upload_passes_through u1 w) as [Hf Hp]. now apply Hlast.
  - destruct (has_file u1) eqn:Hfile;
      [|destruct (upload_rejected u1 w (or_introl Hfile)) as [Hw Hans];
        rewrite Hw; split; [now rewrite Hw|apply Hans]].
    destruct (accepted_name (filename u1)) eqn:Hname;
      [|destruct (upload_rejected u1 w (or_intror Hname)) as [Hw Hans];
        rewrite Hw; split; [now rewrite Hw|apply Hans]].
    assert (Href : match sheet u1 with
                   | Some df => df_empty df = true
                   | None => True
                   end ->
                   forall w0,
                     proc (upload_file u1 w0).1 = proc w0
                     /\ (upload_file u1 w0).2
                        = Error 400 "Failed to process Excel file or no clients found").
    { intros Hr w0. destruct (upload_proc u1 w0 Hfile Hname) as [-> ->].
      now rewrite (load_refused _ _ Hr). }
    destruct (sheet u1) as [df|] eqn:Hsheet.
    + destruct (df_empty df) eqn:Hne.
      * destruct (Href eq_refl (upload_file u1 w).1) as [Hp1 Ha1].
        destruct (Href eq_refl w) as [Hp0 Ha0].
        split; congruence.
      * destruct (upload_passes_through u1 w) as [Hf Hp].
        apply Hlast; eauto.
    + destruct (Href I (upload_file u1 w).1) as [Hp1 Ha1].
      destruct (Href I w) as [Hp0 Ha0].
      split; congruence.
Qed.

Section Handlers.
Context `{PyBuiltins}.

Lemma transform_items_keeps fm items pdf_data t :
  is_Some (pdf_data !! t) -> is_Some (transform_items fm items pdf_data !! t).
Proof.
  revert pdf_data. induction items as [|[k v] items IH]; intros pdf_data Hs;
    [exact Hs|].
  simpl. destruct (fm !! k) as [t'|]; [|auto]. apply IH.
  destruct (decide (t' = t)) as [->|Hne].
  - rewrite lookup_insert_eq. eauto.
  - now rewrite lookup_insert_ne.
Qed.

Lemma transform_items_known fm items pdf_data k x t :
  In (k, x) items -> fm !! k = Some t ->
  is_Some (transform_items fm items pdf_data !! t).
Proof.
  revert pdf_data. induction items as [|[k0 v0] items IH]; intros pdf_data;
    [intros []|].
  intros [Heq|Hin] Hk; simpl.
  - injection Heq as -> ->. rewrite Hk. apply transform_items_keeps.
    rewrite lookup_insert_eq. eauto.
  - destruct (fm !! k0); eauto.
Qed.

(** X15. The filler goes on past a field it cannot write: the fields
    written are exactly the widgets, in the order of the pages, for which
    the write goes through, and the filler reports success as soon as there
    is one of them, however many others failed. *)
Theorem fill_fields_skips_failures (field_data : gmap string pyvalue)
  (pages : list (list widget)) :
  ((fill_fields field_data pages).2 = true
   <-> (fill_fields field_data pages).1 <> [])
  /\ (fill_fields field_data pages).1
     = omap (fill_widget field_data) (concat pages)
  /\ (forall field e,
        In field (concat pages) -> fill_widget field_data field = Some e ->
        In e (fill_fields field_data pages).1)
  /\ (forall field,
        fill_widget field_data field = None
        <-> field_data !! field_name field = None
            \/ field_type field = WidgetOther
            \/ update_ok field = false
            \/ (field_type field = WidgetText
                /\ exists value, field_data !! field_name field = Some value
                                 /\ py_str value = None))
  /\ (length (fill_fields field_data pages).1 <= length (concat pages))%nat.
Proof.
  assert (Hw : (fill_fields field_data pages).1
               = omap (fill_widget field_data) (concat pages)).
  { unfold fill_fields. now destruct pages. }
  split; [|split; [exact Hw|split; [|split]]].
  - unfold fill_fields. destruct pages as [|pg pages]; [easy|]. simpl.
    destruct (fill_pages field_data (pg :: pages)); simpl; split; easy.
  - intros field e Hin He. rewrite Hw. apply list_elem_of_In, list_elem_of_omap.
    exists field. split; [now apply list_elem_of_In|exact He].
  - intros field. unfold fill_widget.
    destruct (field_data !! field_name field) as [value|]; [|tauto].
    destruct (field_type field) eqn:Hty;
      [destruct (py_str value) as [text|] eqn:Hstr| |];
      destruct (update_ok field) eqn:Hupd; split; intros Hx;
      try discriminate Hx; try reflexivity; auto 6;
      try (destruct Hx as [Hx|[Hx|[Hx|(Hx & v' & Hv & Hs)]]]; congruence).
    all: do 3 right; split; [reflexivity|]; eauto.
  - rewrite Hw. clear Hw. induction (concat pages) as [|field l IH]; [simpl; lia|].
    change (omap (fill_widget field_data) (field :: l))
      with (match fill_widget field_data field with
            | Some e => e :: omap (fill_widget field_data) l
            | None => omap (fill_widget field_data) l
            end).
    destruct (fill_widget field_data field); simpl length; lia.
Qed.

(** X22. When generate-pdf is sure to succeed: the template is there, opens
    and can be saved, and some key of the mapped data is known to the field
    dictionary under a name that a checkbox of the template carries (or a
    text field, when every value has a text). *)
Theorem generate_succeeds (env : pdf_env) (w : world)
  (items : list (string * pyvalue)) (pages : list (list widget))
  (k : string) (x : pyvalue) (t : string) (field : widget) :
  form_data (proc w) = PyDict items ->
  In (k, x) items -> field_mapping !! k = Some t ->
  template_exists env = true -> template env = Some pages -> save_ok env = true ->
  In field (concat pages) -> field_name field = t -> update_ok field = true ->
  field_type field = WidgetCheckbox
  \/ (field_type field = WidgetText /\ forall v, py_str v <> None) ->
  (generate_pdf env w).2 = GenerateOk
  /\ filled_pdf_path (proc (generate_pdf env w).1) = Some (next_file w).
Proof.
  intros Hform Hin Hk Hex Hpages Hsave Hfield Hname Hupd Htype.
  assert (Ht : truthy (form_data (proc w)) = true).
  { rewrite Hform. destruct items; [destruct Hin|reflexivity]. }
  destruct (transform_items_known field_mapping items ∅ k x t Hin Hk)
    as [value Hvalue].
  assert (Hsome : exists e, fill_widget (transform_items field_mapping items ∅) field
                            = Some e).
  { unfold fill_widget. rewrite Hname, Hvalue, Hupd.
    destruct Htype as [-> |[-> Hstr]]; [eauto|].
    destruct (py_str value) eqn:Hs; [eauto|]. now apply Hstr in Hs. }
  destruct Hsome as [e He].
  assert (Hwritten : In e (fill_pages (transform_items field_mapping items ∅) pages)).
  { unfold fill_pages. apply list_elem_of_In, list_elem_of_omap.
    exists field. split; [now apply list_elem_of_In|exact He]. }
  destruct (generate_pdf_cases env w) as [[_ Hf]|[_ ->]]; [congruence|].
  cbn [fst snd]. rewrite Hform.
  unfold fill_w7_pdf. rewrite Hex. cbn [negb transform_data_to_pdf_format].
  change (create_file EmptyPdf w)
    with (next_file w,
          {| proc := proc w; files := (next_file w, EmptyPdf) :: files w;
             next_file := S (next_file w) |}).
  cbv iota beta. rewrite Hpages. unfold fill_fields.
  destruct pages as [|pg pages]; [destruct Hfield|].
  destruct (fill_pages (transform_items field_mapping items ∅) (pg :: pages))
    as [|e0 written]; [destruct Hwritten|].
  cbn [length Nat.ltb Nat.leb]. cbv iota beta. rewrite Hsave.
  split; reflexivity.
Qed.

End Handlers.

End Composition.
(** ** A fence that is opened and never closed *)

Module Reply.
Import PyStr PyStrFacts PyVal W7 Props ExtractFacts.

Lemma strip_open_fence tag pre w1 mid post :
  strip (open_fence_shape tag pre w1 (object_text mid) post)
  = open_fence_shape tag (lstrip pre) w1 (object_text mid) (rstrip post).
Proof.
  unfold open_fence_shape, object_text.
  replace (("```" +:+ tag) +:+ w1 +:+ String "{" (mid +:+ "}") +:+ post)
    with ((String "`" ("``" +:+ tag +:+ w1 +:+ String "{" mid) +:+ String "}" "")
          +:+ post)
    by (rewrite !app_cons, !app_assoc, !app_cons, !app_empty_l; reflexivity).
  rewrite strip_keep by reflexivity.
  f_equal. rewrite !app_cons, !app_assoc, !app_cons, !app_empty_l. reflexivity.
Qed.

(** No fence starts in white space, an object text that holds none, and
    commentary without backquote. *)
Lemma no_fence_after w1 mid post sub i :
  all_chars isspace w1 = true ->
  contains "```" (object_text mid) = false ->
  has_char "`" post = false ->
  index_from (String "`" (String "`" (String "`" sub)))
    (w1 +:+ object_text mid +:+ post) i = None.
Proof.
  intros Hw Hs Hpost. unfold object_text in *.
  rewrite index_from_skip by now apply ws_has_no.
  change (String "{" (mid +:+ "}") +:+ post)
    with ((String "{" mid +:+ "}") +:+ post).
  rewrite index_from_skip_closed by now apply contains_false_inv.
  now apply index_from_absent.
Qed.

(** The fence is not closed: the text is kept whole. *)
Lemma fence_interior_open tag width pre w1 mid post :
  let marker := String "`" (String "`" (String "`" tag)) in
  width = len marker ->
  has_char "`" pre = false ->
  all_chars isspace w1 = true ->
  contains "```" (object_text mid) = false ->
  has_char "`" post = false ->
  fence_interior marker width (pre +:+ marker +:+ w1 +:+ object_text mid +:+ post)
  = pre +:+ marker +:+ w1 +:+ object_text mid +:+ post.
Proof.
  intros marker -> Hpre Hw Hs Hpost.
  set (rest := w1 +:+ object_text mid +:+ post).
  unfold fence_interior.
  assert (Hfind : find marker (pre +:+ marker +:+ rest) = len pre).
  { rewrite find_nat. unfold marker.
    rewrite index_from_skip by exact Hpre.
    rewrite index_from_here by apply prefix_app. reflexivity. }
  rewrite Hfind, <- len_app.
  assert (Hend : find_from "```" (pre +:+ marker +:+ rest) (len (pre +:+ marker)) = -1).
  { unfold len. rewrite find_from_nat by (rewrite <- app_assoc, !length_app; lia).
    rewrite <- app_assoc, drop_app. unfold rest.
    now rewrite no_fence_after. }
  now rewrite Hend.
Qed.

Lemma brace_span_open marker pre w1 mid post :
  has_char "{" (pre +:+ marker +:+ w1) = false -> has_char "}" post = false ->
  brace_span (pre +:+ marker +:+ w1 +:+ object_text mid +:+ post) = object_text mid.
Proof.
  intros Ha Hb. unfold object_text.
  replace (pre +:+ marker +:+ w1 +:+ String "{" (mid +:+ "}") +:+ post)
    with ((pre +:+ marker +:+ w1) +:+ String "{" (mid +:+ "}") +:+ post)
    by now rewrite !app_assoc.
  now apply brace_span_object.
Qed.

Lemma extract_open_fence tag pre w1 mid post :
  tag = "" \/ tag = "json" ->
  quiet pre = true -> quiet post = true ->
  all_chars isspace w1 = true ->
  contains "```" (object_text mid) = false ->
  extract_json (open_fence_shape tag pre w1 (object_text mid) post)
  = object_text mid.
Proof.
  intros Htag (Hp1 & Hp2 & Hp3)%quiet_inv (Hq1 & Hq2 & Hq3)%quiet_inv Hw Hs.
  unfold extract_json, unfence, open_fence_shape.
  assert (Hbrace : forall marker, has_char "{" marker = false ->
            brace_span (pre +:+ marker +:+ w1 +:+ object_text mid +:+ post)
            = object_text mid).
  { intros marker Hm. apply brace_span_open; [|exact Hq2].
    rewrite !has_char_app, Hp1, Hm. simpl. now apply ws_has_no. }
  destruct Htag as [-> | ->].
  - (* a plain fence: the tagged marker is nowhere *)
    rewrite app_empty_r.
    assert (Htagged : index_from "```json"
                        (pre +:+ "```" +:+ w1 +:+ object_text mid +:+ post) 0 = None).
    { rewrite index_from_skip by exact Hp3.
      rewrite index_from_over_fence
        by (intros; unfold object_text; now apply head_ws_or_brace).
      now apply no_fence_after. }
    rewrite (contains_false _ _ Htagged).
    rewrite (contains_true "```" _ (String.length pre))
      by (rewrite index_from_skip by exact Hp3;
          now rewrite index_from_here by apply prefix_app).
    rewrite (fence_interior_open "" 3 pre w1 mid post eq_refl Hp3 Hw Hs Hq3).
    now apply Hbrace.
  - change ("```" +:+ "json") with "```json".
    rewrite (contains_true "```json" _ (String.length pre))
      by (rewrite index_from_skip by exact Hp3;
          now rewrite index_from_here by apply prefix_app).
    rewrite (fence_interior_open "json" 7 pre w1 mid post eq_refl Hp3 Hw Hs Hq3).
    now apply Hbrace.
Qed.

Section Client.
Context `{PyBuiltins}.

(** X20. A reply that opens a code fence, plain or tagged json, and never
    closes it still yields its object: the text is kept whole and the braces
    are found in it, so the result is that of the object text alone. Here
    the object text holds no code fence and the commentary around it no
    brace and no backquote. *)
Theorem unclosed_fence_still_parsed (tag pre w1 mid post : string) :
  tag = "" \/ tag = "json" ->
  quiet pre = true -> quiet post = true ->
  all_chars isspace w1 = true ->
  contains "```" (object_text mid) = false ->
  call_openai_api (Some (open_fence_shape tag pre w1 (object_text mid) post))
  = parsed (object_text mid).
Proof.
  intros Htag Hpre Hpost Hw Hs.
  change (call_openai_api (Some (open_fence_shape tag pre w1 (object_text mid) post)))
    with (parsed (extract_json
                    (strip (open_fence_shape tag pre w1 (object_text mid) post)))).
  rewrite strip_open_fence.
  now rewrite extract_open_fence by auto using quiet_lstrip, quiet_rstrip.
Qed.

End Client.

End Reply.

(** ** The properties at work *)


Module Examples.
Import PyStr PyVal Excel W7 Props Samples Loader Session Json.
Import SessionFacts Intake Roster Cleaning Processing Output Composition Reply.

Lemma processed_reachable : reachable processed.
Proof. apply reach_step, Scenario.loaded_reachable. Qed.

Lemma generated_reachable : reachable generated.
Proof. apply reach_step, processed_reachable. Qed.

Lemma upload_success_witness :
  (upload_file (upload_of clients_sheet) init_world).2
  = UploadOk (roster_of clients_sheet) 2
  /\ client_list (proc loaded) = roster_of clients_sheet.
Proof.
  destruct (upload_success (upload_of clients_sheet) init_world
              (roster_of clients_sheet) 2 eq_refl)
    as (_ & _ & df & Hsheet & _ & _ & Hproc).
  split; [reflexivity|]. unfold loaded. simpl handle. now rewrite Hproc.
Defined.

Lemma non_text_header_fails_witness :
  (process_excel_data (Some numbered_sheet) (proc loaded)).2 = None
  /\ client_list (process_excel_data (Some numbered_sheet) (proc loaded)).1 = [].
Proof.
  destruct (non_text_header_fails numbered_sheet (proc loaded) "2024" eq_refl)
    as [Hload _].
  - right. right. now left.
  - now rewrite Hload.
Defined.

Lemma upload_temp_file_witness :
  files (upload_file (upload_of clients_sheet) loaded).1 = files loaded
  /\ files (upload_file (upload_of other_sheet) loaded).1
     = (next_file loaded, Spreadsheet) :: files loaded.
Proof.
  split.
  - exact (proj2 (upload_temp_file (upload_of clients_sheet) loaded
                    Scenario.loaded_reachable eq_refl eq_refl)).
  - exact (proj2 (upload_temp_file (upload_of other_sheet) loaded
                    Scenario.loaded_reachable eq_refl eq_refl)).
Defined.

Lemma roster_belongs_to_table_witness :
  roster_of_table (proc generated)
  /\ StronglySorted lt (List.map row_index (client_list (proc generated))).
Proof.
  destruct (roster_belongs_to_table generated generated_reachable)
    as (Htable & Hsorted & _).
  exact (conj Htable Hsorted).
Defined.

(** The third row repeats the names of the first: it is the first that is
    found. *)
Lemma listed_client_is_found_witness :
  exists c0 data,
    List.find (names_match "JANE" "doe") (client_list (proc loaded)) = Some c0
    /\ (row_index c0 <= 2)%nat
    /\ get_client_data (proc loaded) "JANE" "doe" = Some data
    /\ data <> [].
Proof.
  destruct (listed_client_is_found loaded
              {| first_name := "jane"; last_name := "DOE";
                 full_name := "jane DOE"; row_index := 2 |}
              "JANE" "doe" Scenario.loaded_reachable)
    as (c0 & data & Hfind & Hle & Hget & Hne & _).
  - right. now left.
  - reflexivity.
  - reflexivity.
  - exists c0, data. exact (conj Hfind (conj Hle (conj Hget Hne))).
Defined.

Lemma process_client_success_witness :
  exists first last,
    get_stripped "first_name" jane_request = Some first
    /\ get_stripped "last_name" jane_request = Some last
    /\ get_client_data (proc loaded) first last
       = Some [("first_name", " Jane "); ("last_name", "Doe");
               ("itin", "900-70-1234")]
    /\ truthy (call_openai_api (Some jane_reply)) = true.
Proof.
  assert (Hok : (process_client jane_request (Some jane_reply) loaded).2
                = ProcessOk "jane Doe"
                    [("first_name", " Jane "); ("last_name", "Doe");
                     ("itin", "900-70-1234")]
                    (call_openai_api (Some jane_reply)))
    by (vm_compute; reflexivity).
  destruct (process_client_success jane_request (Some jane_reply) loaded _ _ _ Hok)
    as (first & last & Hf & Hl & _ & _ & _ & Hget & _ & _ & Ht & _).
  exists first, last. exact (conj Hf (conj Hl (conj Hget Ht))).
Defined.

Lemma process_client_failure_witness :
  (process_client jane_request (Some "{}") loaded).1 = loaded
  /\ (process_client (PyDict [("first_name", PyStr "  ")]) None loaded).1 = loaded.
Proof.
  assert (H500 : (process_client jane_request (Some "{}") loaded).2
                 = Error 500 "Failed to process data with OpenAI")
    by (vm_compute; reflexivity).
  assert (H400 : (process_client (PyDict [("first_name", PyStr "  ")]) None loaded).2
                 = Error 400 "Both first_name and last_name are required")
    by (vm_compute; reflexivity).
  split.
  - exact (proj1 (process_client_failure _ _ _ _ _ H500)).
  - exact (proj1 (process_client_failure _ _ _ _ _ H400)).
Defined.

Lemma processed_stays_processed_witness :
  truthy (form_data (proc (run [Upload (upload_of other_sheet);
                                GeneratePdf form_env; DownloadPdf] processed)))
  = true.
Proof.
  assert (Ht : truthy (form_data (proc processed)) = true)
    by (vm_compute; reflexivity).
  exact (proj1 (processed_stays_processed
                  [Upload (upload_of other_sheet); GeneratePdf form_env; DownloadPdf]
                  processed Ht)).
Defined.

Lemma unmapped_data_fails_witness :
  let w := (process_client jane_request (Some (dq "{'nickname': 'JD'}")) loaded).1 in
  (generate_pdf w7_env w).2 = Error 500 "Failed to generate PDF"
  /\ proc (generate_pdf w7_env w).1 = proc w.
Proof.
  intros w.
  assert (Hform : form_data (proc w) = PyDict [("nickname", PyStr "JD")])
    by (vm_compute; reflexivity).
  assert (Ht : truthy (form_data (proc w)) = true) by now rewrite Hform.
  assert (Hunk : no_known_key [("nickname", PyStr "JD")]).
  { constructor; [vm_compute; reflexivity|constructor]. }
  destruct (unmapped_data_fails w7_env w Ht
              (or_intror (ex_intro _ _ (conj Hform Hunk))))
    as (Hans & Hproc & _).
  exact (conj Hans Hproc).
Defined.

Lemma filled_fields_provenance_witness :
  exists k x field,
    In (k, x) [("gender_female", PyStr "false")]
    /\ field_mapping !! k = Some "topmostSubform[0].Page1[0].c1_10[1]"
    /\ In field (concat [[gender_box]])
    /\ written_for field (format_value k x) (CheckValue true).
Proof.
  destruct (filled_fields_provenance [("gender_female", PyStr "false")]
              [[gender_box]] "topmostSubform[0].Page1[0].c1_10[1]"
              (CheckValue true))
    as (k & x & field & Hin & Hk & Hfield & _ & _ & Hfor).
  - vm_compute. left. reflexivity.
  - exists k, x, field. exact (conj Hin (conj Hk (conj Hfield Hfor))).
Defined.

Lemma generated_pdf_downloadable_witness :
  exists written,
    written <> []
    /\ download_pdf generated
       = (generated, DownloadOk (next_file processed) (Some (FilledPdf written))).
Proof.
  destruct (generated_pdf_downloadable w7_env processed processed_reachable)
    as (items & pages & written & _ & _ & _ & Hne & _ & _ & _ & Hdown).
  - vm_compute. reflexivity.
  - exists written. split; [exact Hne|exact Hdown].
Defined.

Lemma files_only_accumulate_witness :
  exists written,
    In (1%nat, FilledPdf written)
      (files (run [Upload (upload_of other_sheet);
                   ProcessClient jane_request None;
                   GeneratePdf form_env] generated)).
Proof.
  assert (Hfile : exists written, In (1%nat, FilledPdf written) (files generated)).
  { eexists. vm_compute. left. reflexivity. }
  destruct Hfile as [written Hin]. exists written.
  exact (proj1 (files_only_accumulate _ generated 1%nat (FilledPdf written)
                  generated_reachable Hin)).
Defined.

Lemma download_serves_generated_witness :
  download_pdf loaded
  = (loaded, Error 400 "No PDF available. Please generate PDF first.")
  /\ exists written,
       download_pdf generated
       = (generated, DownloadOk 1 (Some (FilledPdf written))).
Proof.
  split.
  - exact (download_serves_generated loaded Scenario.loaded_reachable).
  - pose proof (download_serves_generated generated generated_reachable) as Hd.
    assert (Hpath : filled_pdf_path (proc generated) = Some 1%nat)
      by (vm_compute; reflexivity).
    rewrite Hpath in Hd. destruct Hd as (written & _ & Hd).
    exists written. exact Hd.
Defined.

Lemma download_changes_by_generation_only_witness :
  (download_pdf (handle (ProcessClient jane_request (Some "{}")) generated).1).2
  = (download_pdf generated).2
  /\ (download_pdf (handle (Upload (upload_of other_sheet)) generated).1).2
     = (download_pdf generated).2.
Proof.
  split.
  - apply (download_changes_by_generation_only
             (ProcessClient jane_request (Some "{}")) generated generated_reachable).
    vm_compute. reflexivity.
  - apply (download_changes_by_generation_only
             (Upload (upload_of other_sheet)) generated generated_reachable).
    vm_compute. reflexivity.
Defined.

Lemma unclosed_fence_still_parsed_witness :
  call_openai_api
    (Some (open_fence_shape "json" "Here you go: " newline
             (object_text (dq "'first_name': 'Jane'")) ""))
  = PyDict [("first_name", PyStr "Jane")]
  /\ call_openai_api
       (Some (open_fence_shape "" "" newline
                (object_text (dq "'first_name': 'Jane'")) " Done."))
     = PyDict [("first_name", PyStr "Jane")].
Proof.
  split.
  - exact (unclosed_fence_still_parsed (H := Json.builtins) "json" "Here you go: "
             newline (dq "'first_name': 'Jane'") ""
             (or_intror eq_refl) eq_refl eq_refl eq_refl eq_refl).
  - exact (unclosed_fence_still_parsed (H := Json.builtins) "" ""
             newline (dq "'first_name': 'Jane'") " Done."
             (or_introl eq_refl) eq_refl eq_refl eq_refl eq_refl).
Defined.

Lemma generate_succeeds_witness :
  (generate_pdf w7_env processed).2 = GenerateOk
  /\ filled_pdf_path (proc generated) = Some (next_file processed).
Proof.
  assert (Hpages : exists pages, template w7_env = Some pages) by (eexists; reflexivity).
  destruct Hpages as [pages Hpages].
  assert (Hitems : exists items, form_data (proc processed) = PyDict items)
    by (eexists; vm_compute; reflexivity).
  destruct Hitems as [items Hitems].
  apply (generate_succeeds w7_env processed items pages
           "gender_female" (PyStr "false") "topmostSubform[0].Page1[0].c1_10[1]"
           gender_box Hitems).
  - vm_compute in Hitems. injection Hitems as <-. vm_compute. tauto.
  - vm_compute. reflexivity.
  - reflexivity.
  - exact Hpages.
  - reflexivity.
  - injection Hpages as <-. vm_compute. tauto.
  - reflexivity.
  - reflexivity.
  - now left.
Defined.

Lemma failed_generation_leaves_file_witness :
  let env := {| template_exists := true; template := None; save_ok := true |} in
  (generate_pdf env processed).2 = Error 500 "Failed to generate PDF"
  /\ files (generate_pdf env processed).1
     = (next_file processed, EmptyPdf) :: files processed.
Proof.
  intros env.
  assert (Hitems : exists items, form_data (proc processed) = PyDict items
                                 /\ items <> [])
    by (eexists; split; [vm_compute; reflexivity|discriminate]).
  destruct Hitems as (items & Hitems & Hne).
  assert (Hno : is_generate_ok (generate_pdf env processed).2 = false)
    by (vm_compute; reflexivity).
  destruct (failed_generation_leaves_file env processed items eq_refl Hitems Hne Hno)
    as (Hans & Hfiles & _).
  exact (conj Hans Hfiles).
Defined.

(** Two headers that clean to the same key: the later column wins, at the
    place of the earlier one. *)
Example twin_headers :
  clean_items twin_headers_row [] = [("tax_id", "2"); ("phone", "555")].
Proof. reflexivity. Qed.

End Examples.
